(** * Archery: bow state machine, arrow flight and scoring, context switching

    A shallow embedding of [archery.py].  Python objects become records,
    the class-level registries ([Bow.INSTANCE], [Arrow.INSTANCES],
    [Target.INSTANCE]) and the objects that are shared by reference
    (contexts, targets) live in an explicit [World]; exceptions are values
    of the error monad [res]; Python floats are IEEE 754 binary64 numbers
    ([spec_float] at precision 53). *)

From Stdlib Require Import ZArith List Bool Lia String Ascii SpecFloat.
From stdpp Require Import gmap strings list.

Open Scope Z_scope.

(* ================================================================== *)
(** ** Python values: exceptions, floats, numbers *)

Inductive exn :=
  | ZeroDivisionError | KeyError | ValueError | UnboundLocalError
  | IndexError | AttributeError | SystemExit.

Inductive res (A : Type) :=
  | Ok (a : A)
  | Raise (e : exn).
Arguments Ok {A} a.
Arguments Raise {A} e.

#[global] Instance res_ret : MRet res := fun A a => Ok a.
#[global] Instance res_bind : MBind res := fun A B f m =>
  match m with
  | Ok a => f a
  | Raise e => Raise e
  end.

(** binary64, the format of a Python [float] *)
Definition prec : Z := 53.
Definition emax : Z := 1024.

Definition float_of_int (z : Z) : spec_float := binary_normalize prec emax z 0 false.
Definition fadd : spec_float -> spec_float -> spec_float := SFadd prec emax.
Definition fmul : spec_float -> spec_float -> spec_float := SFmul prec emax.
Definition fdiv : spec_float -> spec_float -> spec_float := SFdiv prec emax.

(** [int(f)]: truncation toward zero (finite for every float the program makes) *)
Definition int_of_float (f : spec_float) : Z :=
  match f with
  | S754_finite s m e =>
      let a := if 0 <=? e then Z.pos m * 2 ^ e else Z.pos m / 2 ^ (- e) in
      if s then - a else a
  | _ => 0
  end.

(** [f.is_integer()] *)
Definition float_is_integer (f : spec_float) : bool :=
  match f with
  | S754_zero _ => true
  | S754_finite _ m e => (0 <=? e) || (Z.pos m mod 2 ^ (- e) =? 0)
  | _ => false
  end.

(** the literal [0.7] *)
Definition float_0_7 : spec_float := S754_finite false 6305039478318694 (-53).

(** [a / b] on two ints: true division, [ZeroDivisionError] on [b = 0].
    Both operands are exact as floats (below 2^53 in this program). *)
Definition int_truediv (a b : Z) : res spec_float :=
  if b =? 0 then Raise ZeroDivisionError
  else Ok (fdiv (float_of_int a) (float_of_int b)).

(** [a // b] on two ints *)
Definition int_floordiv (a b : Z) : res Z :=
  if b =? 0 then Raise ZeroDivisionError else Ok (a / b).

(** A speed component or a drawing step is an int or a float. *)
Inductive num :=
  | PyInt (z : Z)
  | PyFloat (f : spec_float).

Definition to_float (n : num) : spec_float :=
  match n with
  | PyInt z => float_of_int z
  | PyFloat f => f
  end.

Definition num_eqb (a b : num) : bool :=
  match a, b with
  | PyInt x, PyInt y => x =? y
  | _, _ => SFeqb (to_float a) (to_float b)
  end.

Definition num_add (a b : num) : num :=
  match a, b with
  | PyInt x, PyInt y => PyInt (x + y)
  | _, _ => PyFloat (fadd (to_float a) (to_float b))
  end.

Definition num_neg (a : num) : num :=
  match a with
  | PyInt x => PyInt (- x)
  | PyFloat f => PyFloat (SFopp f)
  end.

(** the pixel count pygame makes of a coordinate argument *)
Definition num_px (a : num) : Z :=
  match a with
  | PyInt x => x
  | PyFloat f => int_of_float f
  end.

(** [speed == [0, 0]] *)
Definition speed_is_zero (s : num * num) : bool :=
  num_eqb (fst s) (PyInt 0) && num_eqb (snd s) (PyInt 0).

(* ================================================================== *)
(** ** Module constants *)

Definition SCREEN_WIDTH : Z := 850.
Definition SCREEN_HEIGHT : Z := 650.
Definition SCORE_TABLE : list Z := [3; 2; 1].
Definition GRAVITY : num := PyInt 0.

(* ================================================================== *)
(** ** pygame: events and rectangles *)

Inductive EventType := QUIT | KEYDOWN | KEYUP | OTHER_EVENT.

Inductive Key :=
  | K_SPACE | K_ESCAPE | K_RETURN | K_UP | K_DOWN
  | K_OTHER (code : Z).

Record Event := { type : EventType; key : Key }.

Definition is_type (e : Event) (t : EventType) : bool :=
  match type e, t with
  | QUIT, QUIT | KEYDOWN, KEYDOWN | KEYUP, KEYUP | OTHER_EVENT, OTHER_EVENT => true
  | _, _ => false
  end.

Definition is_key (e : Event) (k : Key) : bool :=
  match key e, k with
  | K_SPACE, K_SPACE | K_ESCAPE, K_ESCAPE | K_RETURN, K_RETURN
  | K_UP, K_UP | K_DOWN, K_DOWN => true
  | K_OTHER a, K_OTHER b => a =? b
  | _, _ => false
  end.

Record Rect := { left : Z; top : Z; width : Z; height : Z }.

Definition Rect_at (pos size : Z * Z) : Rect :=
  {| left := fst pos; top := snd pos; width := fst size; height := snd size |}.

Definition topleft (r : Rect) : Z * Z := (left r, top r).

Definition move_ip (r : Rect) (dx dy : Z) : Rect :=
  {| left := left r + dx; top := top r + dy; width := width r; height := height r |}.

(** [Rect.colliderect]: overlap of the interiors, nothing for an empty rectangle *)
Definition colliderect (a b : Rect) : bool :=
  if (width a =? 0) || (height a =? 0) || (width b =? 0) || (height b =? 0) then false
  else
    (Z.min (left a) (left a + width a) <? Z.max (left b) (left b + width b))
    && (Z.min (top a) (top a + height a) <? Z.max (top b) (top b + height b))
    && (Z.min (left b) (left b + width b) <? Z.max (left a) (left a + width a))
    && (Z.min (top b) (top b + height b) <? Z.max (top a) (top a + height a)).

(** [Rect.collidelist]: index of the first rectangle hit, -1 for none *)
Fixpoint collidelist_from (i : Z) (r : Rect) (l : list Rect) : Z :=
  match l with
  | [] => -1
  | r' :: l' => if colliderect r r' then i else collidelist_from (i + 1) r l'
  end.

Definition collidelist (r : Rect) (l : list Rect) : Z := collidelist_from 0 r l.

(** [outer.contains(inner)] *)
Definition contains (outer inner : Rect) : bool :=
  (left outer <=? left inner) && (top outer <=? top inner)
  && (left inner + width inner <=? left outer + width outer)
  && (top inner + height inner <=? top outer + height outer)
  && (left inner <? left outer + width outer)
  && (top inner <? top outer + height outer).

(** Sizes of the pictures under [resources/], which the code loads and
    measures but which are not part of the source text. *)
Record Assets := {
  bow_size : Z * Z;
  arrow_size : Z * Z;
  target_size : Z * Z
}.

(* ================================================================== *)
(** ** Target *)

Record Target := {
  Target_inner_hit : Rect;
  Target_middle_hit : Rect;
  Target_outer_hit : Rect
}.

Definition Target_OUTER_I : nat := 2.
Definition Target_MIDDLE_I : nat := 1.
Definition Target_INNER_I : nat := 0.

Definition Target_AREAS : list ((Z * Z) * (Z * Z)) :=
  [ ((79, 127), (26, 153));
    ((88, 59), (34, 289));
    ((88, 0), (42, 399)) ].

Definition Target_area (i : nat) : Rect :=
  let a := nth i Target_AREAS ((0, 0), (0, 0)) in Rect_at (fst a) (snd a).

(** [Target.__init__]: the three areas, moved to where the picture is drawn *)
Definition Target_new (assets : Assets) : Target :=
  let x := SCREEN_WIDTH - fst (target_size assets) in
  let y := SCREEN_HEIGHT - snd (target_size assets) in
  {| Target_inner_hit := move_ip (Target_area Target_INNER_I) x y;
     Target_middle_hit := move_ip (Target_area Target_MIDDLE_I) x y;
     Target_outer_hit := move_ip (Target_area Target_OUTER_I) x y |}.

(** the [hitbox] property *)
Definition Target_hitbox (t : Target) : list Rect :=
  [Target_inner_hit t; Target_middle_hit t; Target_outer_hit t].

(* ================================================================== *)
(** ** Arrow *)

Inductive ArrowImg := SHOT | STOPPED.

Definition Arrow_HITBOX_OFFSET : Z * Z := (165, 90).
Definition Arrow_HITBOX_SIZE : Z * Z := (26, 17).

(** [Arrow_target] and [Arrow_context] are references (addresses in the
    [World]); [Arrow_alive] says that the sprite is still a member of
    [Arrow.INSTANCES], which [kill()] ends. *)
Record Arrow := {
  Arrow_rect : Rect;
  Arrow_speed : num * num;
  Arrow_img : ArrowImg;
  Arrow_hitbox : Rect;
  Arrow_target : option nat;
  Arrow_context : nat;
  Arrow_alive : bool
}.

(** [Arrow.__init__]; the caller adds the new sprite to [Arrow.INSTANCES] *)
Definition Arrow_new (assets : Assets) (Target_INSTANCE : option nat)
    (context : nat) (pos : Z * Z) (force : spec_float) : Arrow :=
  let rect := move_ip (Rect_at (0, 0) (arrow_size assets)) (fst pos) (snd pos) in
  {| Arrow_rect := rect;
     Arrow_speed := (PyFloat force, PyInt 0);
     Arrow_img := SHOT;
     Arrow_hitbox :=
       move_ip (Rect_at (left rect, top rect) Arrow_HITBOX_SIZE)
               (fst Arrow_HITBOX_OFFSET) (snd Arrow_HITBOX_OFFSET);
     Arrow_target := Target_INSTANCE;
     Arrow_context := context;
     Arrow_alive := true |}.

Definition Arrow_kill (a : Arrow) : Arrow :=
  {| Arrow_rect := Arrow_rect a; Arrow_speed := Arrow_speed a;
     Arrow_img := Arrow_img a; Arrow_hitbox := Arrow_hitbox a;
     Arrow_target := Arrow_target a; Arrow_context := Arrow_context a;
     Arrow_alive := false |}.

(* ================================================================== *)
(** ** Bow and its four states *)

Inductive BowState :=
  | NormalBowState | BentBowState | ReloadBowState | EmptyBowState.

(** [Bow_drawn] logs the calls of [draw], newest first: the step drawn.
    [Bow_bent_time] and [Bow_cooldown] exist from the first entry into
    the Bent and Reload state on and are read in those states only. *)
Record Bow := {
  Bow_rect : Rect;
  Bow_speed : num * num;
  Bow_ammo : Z;
  Bow_state : BowState;
  Bow_bent_time : Z;
  Bow_cooldown : Z;
  Bow_context : nat;
  Bow_drawn : list num
}.

Definition Bow_ROPE_STATES : Z := 10.
Definition Bow_POS_INIT : Z * Z := (20, 0).
Definition Bow_SPEED : num * num := (PyInt 0, PyInt 8).
Definition Bow_AMMO_MAX : Z := 5.
Definition Bow_FORCE_MIN : Z := 10.
Definition Bow_FORCE_MAX : Z := 50.
Definition Bow_TIME_FORCE_S : spec_float := float_0_7.
Definition Bow_TIME_COOLDOWN_S : Z := 1.

(** the class constants that [Bow.init(fps)] sets *)
Record BowClass := {
  TIME_COOLDOWN_FPS : Z;
  TIME_FORCE_FPS : Z
}.

Definition Bow_init (fps : Z) : BowClass :=
  {| TIME_COOLDOWN_FPS := Bow_TIME_COOLDOWN_S * fps;
     TIME_FORCE_FPS := int_of_float (fmul Bow_TIME_FORCE_S (float_of_int fps)) |}.

Definition set_Bow_rect (r : Rect) (b : Bow) : Bow :=
  {| Bow_rect := r; Bow_speed := Bow_speed b; Bow_ammo := Bow_ammo b;
     Bow_state := Bow_state b; Bow_bent_time := Bow_bent_time b;
     Bow_cooldown := Bow_cooldown b; Bow_context := Bow_context b;
     Bow_drawn := Bow_drawn b |}.

Definition set_Bow_speed (s : num * num) (b : Bow) : Bow :=
  {| Bow_rect := Bow_rect b; Bow_speed := s; Bow_ammo := Bow_ammo b;
     Bow_state := Bow_state b; Bow_bent_time := Bow_bent_time b;
     Bow_cooldown := Bow_cooldown b; Bow_context := Bow_context b;
     Bow_drawn := Bow_drawn b |}.

Definition set_Bow_ammo (n : Z) (b : Bow) : Bow :=
  {| Bow_rect := Bow_rect b; Bow_speed := Bow_speed b; Bow_ammo := n;
     Bow_state := Bow_state b; Bow_bent_time := Bow_bent_time b;
     Bow_cooldown := Bow_cooldown b; Bow_context := Bow_context b;
     Bow_drawn := Bow_drawn b |}.

Definition set_Bow_state (s : BowState) (b : Bow) : Bow :=
  {| Bow_rect := Bow_rect b; Bow_speed := Bow_speed b; Bow_ammo := Bow_ammo b;
     Bow_state := s; Bow_bent_time := Bow_bent_time b;
     Bow_cooldown := Bow_cooldown b; Bow_context := Bow_context b;
     Bow_drawn := Bow_drawn b |}.

Definition set_Bow_bent_time (t : Z) (b : Bow) : Bow :=
  {| Bow_rect := Bow_rect b; Bow_speed := Bow_speed b; Bow_ammo := Bow_ammo b;
     Bow_state := Bow_state b; Bow_bent_time := t;
     Bow_cooldown := Bow_cooldown b; Bow_context := Bow_context b;
     Bow_drawn := Bow_drawn b |}.

Definition set_Bow_cooldown (c : Z) (b : Bow) : Bow :=
  {| Bow_rect := Bow_rect b; Bow_speed := Bow_speed b; Bow_ammo := Bow_ammo b;
     Bow_state := Bow_state b; Bow_bent_time := Bow_bent_time b;
     Bow_cooldown := c; Bow_context := Bow_context b;
     Bow_drawn := Bow_drawn b |}.

(** [Bow.draw(step)]: the picture is redrawn for [step] *)
Definition Bow_draw (step : num) (b : Bow) : Bow :=
  {| Bow_rect := Bow_rect b; Bow_speed := Bow_speed b; Bow_ammo := Bow_ammo b;
     Bow_state := Bow_state b; Bow_bent_time := Bow_bent_time b;
     Bow_cooldown := Bow_cooldown b; Bow_context := Bow_context b;
     Bow_drawn := step :: Bow_drawn b |}.

Definition is_space_down (e : Event) : bool := is_type e KEYDOWN && is_key e K_SPACE.
Definition is_space_up (e : Event) : bool := is_type e KEYUP && is_key e K_SPACE.

Section BowMachine.

Variable cls : BowClass.
Variable assets : Assets.
(** what [Target.INSTANCE] holds while the bow is updated *)
Variable Target_INSTANCE : option nat.

(** the constructors of the state objects, run on their master *)
Definition NormalBowState_new (master : Bow) : Bow :=
  set_Bow_state NormalBowState (Bow_draw (PyInt 0) master).

Definition BentBowState_new (master : Bow) : Bow :=
  set_Bow_state BentBowState (set_Bow_bent_time 0 master).

Definition ReloadBowState_new (master : Bow) : Bow :=
  set_Bow_state ReloadBowState
    (set_Bow_cooldown (TIME_COOLDOWN_FPS cls) (Bow_draw (PyInt (-1)) master)).

Definition EmptyBowState_new (master : Bow) : Bow :=
  set_Bow_state EmptyBowState
    (set_Bow_speed (PyInt 0, PyInt 0) (Bow_draw (PyInt (-1)) master)).

(** [Bow.__init__] *)
Definition Bow_new (context : nat) : Bow :=
  NormalBowState_new
    {| Bow_rect := move_ip (Rect_at (0, 0) (bow_size assets))
                           (fst Bow_POS_INIT) (snd Bow_POS_INIT);
       Bow_speed := Bow_SPEED;
       Bow_ammo := Bow_AMMO_MAX;
       Bow_state := NormalBowState;
       Bow_bent_time := 0;
       Bow_cooldown := 0;
       Bow_context := context;
       Bow_drawn := [] |}.

(** the [force] property *)
Definition Bow_force (b : Bow) : res spec_float :=
  q ← int_truediv (Bow_FORCE_MAX - Bow_FORCE_MIN) (TIME_FORCE_FPS cls);
  mret (fadd (fmul q (float_of_int (Bow_bent_time b))) (float_of_int Bow_FORCE_MIN)).

(** [Bow.shoot]: the new arrow joins [Arrow.INSTANCES] *)
Definition Bow_shoot (st : Bow * list Arrow) : res (Bow * list Arrow) :=
  let '(b, INSTANCES) := st in
  f ← Bow_force b;
  let arrow := Arrow_new assets Target_INSTANCE (Bow_context b) (topleft (Bow_rect b)) f in
  mret (set_Bow_ammo (Bow_ammo b - 1) b, INSTANCES ++ [arrow]).

(** [NormalBowState.update] *)
Definition NormalBowState_input (master : Bow) (an_input : Event) : Bow :=
  if is_space_down an_input then BentBowState_new master else master.

Definition NormalBowState_update (master : Bow) (inputs : list Event) : Bow :=
  fold_left NormalBowState_input inputs master.

(** [BentBowState.update]: first the accumulation of force ... *)
Definition BentBowState_charge (master : Bow) : res Bow :=
  if Bow_bent_time master <? TIME_FORCE_FPS cls then
    let master := set_Bow_bent_time (Bow_bent_time master + 1) master in
    unit ← int_floordiv (TIME_FORCE_FPS cls) Bow_ROPE_STATES;
    step ← int_truediv (Bow_bent_time master) unit;
    if float_is_integer step then mret (Bow_draw (PyFloat step) master)
    else mret master
  else mret master.

(** ... then the loop over the inputs, which goes on after a shot *)
Definition BentBowState_input (st : Bow * list Arrow) (an_input : Event)
    : res (Bow * list Arrow) :=
  if is_space_up an_input then
    '(master, INSTANCES) ← Bow_shoot st;
    if Bow_ammo master =? 0 then mret (EmptyBowState_new master, INSTANCES)
    else mret (ReloadBowState_new master, INSTANCES)
  else mret st.

Fixpoint BentBowState_inputs (st : Bow * list Arrow) (inputs : list Event)
    : res (Bow * list Arrow) :=
  match inputs with
  | [] => mret st
  | an_input :: inputs' =>
      st' ← BentBowState_input st an_input;
      BentBowState_inputs st' inputs'
  end.

Definition BentBowState_update (st : Bow * list Arrow) (inputs : list Event)
    : res (Bow * list Arrow) :=
  master ← BentBowState_charge (fst st);
  BentBowState_inputs (master, snd st) inputs.

(** [ReloadBowState.update] *)
Definition ReloadBowState_update (master : Bow) (inputs : list Event) : Bow :=
  let master := set_Bow_cooldown (Bow_cooldown master - 1) master in
  if Bow_cooldown master =? 0 then NormalBowState_new master else master.

(** [EmptyBowState.update] *)
Definition EmptyBowState_update (master : Bow) (inputs : list Event) : Bow := master.

(** [Bow.update] *)
Definition Bow_move (b : Bow) : Bow :=
  let rect := move_ip (Bow_rect b) (num_px (fst (Bow_speed b))) (num_px (snd (Bow_speed b))) in
  let b := set_Bow_rect rect b in
  if (top rect <? 0) || (SCREEN_HEIGHT - height rect <? top rect)
  then set_Bow_speed (num_neg (fst (Bow_speed b)), num_neg (snd (Bow_speed b))) b
  else b.

Definition Bow_update (st : Bow * list Arrow) (inputs : list Event)
    : res (Bow * list Arrow) :=
  let b := Bow_move (fst st) in
  match Bow_state b with
  | NormalBowState => mret (NormalBowState_update b inputs, snd st)
  | BentBowState => BentBowState_update (b, snd st) inputs
  | ReloadBowState => mret (ReloadBowState_update b inputs, snd st)
  | EmptyBowState => mret (EmptyBowState_update b inputs, snd st)
  end.

(** the bow over the frames of a session *)
Fixpoint Bow_run (st : Bow * list Arrow) (frames : list (list Event))
    : res (Bow * list Arrow) :=
  match frames with
  | [] => mret st
  | inputs :: frames' =>
      st' ← Bow_update st inputs;
      Bow_run st' frames'
  end.

End BowMachine.

(* ================================================================== *)
(** ** Contexts and the world they share *)

Record GameContext := {
  GameContext_score : Z;
  GameContext_drawn : bool
}.

(** an option of a menu: its name and its instruction *)
Record Option_ := { name : string; instruction : string }.

Record CustomMenu := {
  CustomMenu_title : string;
  CustomMenu_options : list Option_;
  CustomMenu_cursor : Z;
  CustomMenu_drawn : bool
}.

(** [Dummy] is the [DummyContext] whose [update] is [quit_func]. *)
Inductive Context :=
  | Game (g : GameContext)
  | Menu (m : CustomMenu)
  | Dummy.

(** Objects that are reached through references are kept by address:
    [contexts] and [targets] only grow, an address is an index.  The
    three registries are the class attributes of the source. *)
Record World := {
  contexts : list Context;
  targets : list Target;
  Bow_INSTANCE : option Bow;
  Arrow_INSTANCES : list Arrow;
  Target_INSTANCE : option nat
}.

Definition set_contexts (c : list Context) (w : World) : World :=
  {| contexts := c; targets := targets w; Bow_INSTANCE := Bow_INSTANCE w;
     Arrow_INSTANCES := Arrow_INSTANCES w; Target_INSTANCE := Target_INSTANCE w |}.

Definition set_Bow_INSTANCE (b : option Bow) (w : World) : World :=
  {| contexts := contexts w; targets := targets w; Bow_INSTANCE := b;
     Arrow_INSTANCES := Arrow_INSTANCES w; Target_INSTANCE := Target_INSTANCE w |}.

Definition set_Arrow_INSTANCES (l : list Arrow) (w : World) : World :=
  {| contexts := contexts w; targets := targets w; Bow_INSTANCE := Bow_INSTANCE w;
     Arrow_INSTANCES := l; Target_INSTANCE := Target_INSTANCE w |}.

(** a new [Target] object, which [Target.INSTANCE] then names *)
Definition alloc_Target (t : Target) (w : World) : World :=
  {| contexts := contexts w; targets := targets w ++ [t];
     Bow_INSTANCE := Bow_INSTANCE w; Arrow_INSTANCES := Arrow_INSTANCES w;
     Target_INSTANCE := Some (length (targets w)) |}.

Definition empty_world : World :=
  {| contexts := []; targets := []; Bow_INSTANCE := None;
     Arrow_INSTANCES := []; Target_INSTANCE := None |}.

Section Game.

Variable cls : BowClass.
Variable assets : Assets.

(** [GameContext.update_score], on the context at address [self] *)
Definition GameContext_update_score (self : nat) (zone : Z) (w : World) : res World :=
  match contexts w !! self with
  | Some (Game g) =>
      match SCORE_TABLE !! Z.to_nat zone with
      | Some points =>
          let g' := {| GameContext_score := GameContext_score g + points;
                       GameContext_drawn := GameContext_drawn g |} in
          mret (set_contexts (<[self := Game g']> (contexts w)) w)
      | None => Raise IndexError
      end
  | _ => Raise AttributeError
  end.

(** [Arrow.update]: the world (for the score) and the arrow after it *)
Definition Arrow_update (w : World) (a : Arrow) : res (World * Arrow) :=
  if negb (speed_is_zero (Arrow_speed a)) then
    let speed := (fst (Arrow_speed a), num_add (snd (Arrow_speed a)) GRAVITY) in
    let rect := move_ip (Arrow_rect a) (num_px (fst speed)) (num_px (snd speed)) in
    let hitbox := move_ip (Arrow_hitbox a) (num_px (fst speed)) (num_px (snd speed)) in
    let alive :=
      if (SCREEN_WIDTH <? left rect) || (SCREEN_HEIGHT <? top rect) then false
      else Arrow_alive a in
    match Arrow_target a ≫= (fun t => targets w !! t) with
    | None => Raise AttributeError
    | Some target =>
        let zone := collidelist hitbox (Target_hitbox target) in
        if negb (zone =? -1) then
          w' ← GameContext_update_score (Arrow_context a) zone w;
          mret (w', {| Arrow_rect := rect; Arrow_speed := (PyInt 0, PyInt 0);
                       Arrow_img := STOPPED; Arrow_hitbox := hitbox;
                       Arrow_target := Arrow_target a;
                       Arrow_context := Arrow_context a;
                       Arrow_alive := false |})
        else
          mret (w, {| Arrow_rect := rect; Arrow_speed := speed;
                      Arrow_img := Arrow_img a; Arrow_hitbox := hitbox;
                      Arrow_target := Arrow_target a;
                      Arrow_context := Arrow_context a;
                      Arrow_alive := alive |})
    end
  else mret (w, a).

(** [Arrow.INSTANCES.update()]: every member is updated once, and the
    group keeps those that did not kill themselves *)
Fixpoint Arrows_update (w : World) (group : list Arrow) : res (World * list Arrow) :=
  match group with
  | [] => mret (w, [])
  | a :: group' =>
      '(w1, a') ← Arrow_update w a;
      '(w2, rest) ← Arrows_update w1 group';
      mret (w2, if Arrow_alive a' then a' :: rest else rest)
  end.

(** [GameContext.__init__]: the new context at a fresh address, a new
    bow in [Bow.INSTANCE], a new target in [Target.INSTANCE] *)
Definition GameContext_new (w : World) : World * nat :=
  let self := length (contexts w) in
  let w := set_contexts (contexts w ++ [Game {| GameContext_score := 0;
                                                 GameContext_drawn := false |}]) w in
  let w := set_Bow_INSTANCE (Some (Bow_new assets self)) w in
  (alloc_Target (Target_new assets) w, self).

Definition set_Game_drawn (self : nat) (d : bool) (w : World) : World :=
  match contexts w !! self with
  | Some (Game g) =>
      set_contexts (<[self := Game {| GameContext_score := GameContext_score g;
                                       GameContext_drawn := d |}]> (contexts w)) w
  | _ => w
  end.

(** [GameContext.update] *)
Definition GameContext_update (self : nat) (w : World) (inputs : list Event)
    : res (World * option string) :=
  let w := set_Game_drawn self true w in
  match Bow_INSTANCE w with
  | None => Raise AttributeError
  | Some bow =>
      '(bow', INSTANCES) ← Bow_update cls assets (Target_INSTANCE w)
                                       (bow, Arrow_INSTANCES w) inputs;
      let w := set_Arrow_INSTANCES INSTANCES (set_Bow_INSTANCE (Some bow') w) in
      '(w, INSTANCES') ← Arrows_update w (Arrow_INSTANCES w);
      let w := set_Arrow_INSTANCES INSTANCES' w in
      if existsb (fun e => is_type e KEYDOWN && is_key e K_ESCAPE) inputs
      then mret (set_Game_drawn self false w, Some "Pause Switch"%string)
      else mret (w, None)
  end.

End Game.

(* ================================================================== *)
(** ** Menus *)

Definition set_CustomMenu_cursor (c : Z) (m : CustomMenu) : CustomMenu :=
  {| CustomMenu_title := CustomMenu_title m; CustomMenu_options := CustomMenu_options m;
     CustomMenu_cursor := c; CustomMenu_drawn := CustomMenu_drawn m |}.

Definition set_CustomMenu_drawn (d : bool) (m : CustomMenu) : CustomMenu :=
  {| CustomMenu_title := CustomMenu_title m; CustomMenu_options := CustomMenu_options m;
     CustomMenu_cursor := CustomMenu_cursor m; CustomMenu_drawn := d |}.

(** the [cursor] setter: [value % len(self._options)] *)
Definition CustomMenu_set_cursor (value : Z) (m : CustomMenu) : res CustomMenu :=
  let n := Z.of_nat (length (CustomMenu_options m)) in
  if n =? 0 then Raise ZeroDivisionError
  else mret (set_CustomMenu_cursor (value mod n) m).

(** [CustomMenu.update]: the loop returns at the first RETURN key *)
Fixpoint CustomMenu_inputs (m : CustomMenu) (inputs : list Event)
    : res (CustomMenu * option string) :=
  match inputs with
  | [] => mret (m, None)
  | an_input :: inputs' =>
      if is_type an_input KEYDOWN then
        if is_key an_input K_DOWN then
          m' ← CustomMenu_set_cursor (CustomMenu_cursor m + 1) m;
          CustomMenu_inputs m' inputs'
        else if is_key an_input K_UP then
          m' ← CustomMenu_set_cursor (CustomMenu_cursor m - 1) m;
          CustomMenu_inputs m' inputs'
        else if is_key an_input K_RETURN then
          let m' := set_CustomMenu_drawn false m in
          match CustomMenu_options m' !! Z.to_nat (CustomMenu_cursor m') with
          | Some option => mret (m', Some (instruction option))
          | None => Raise IndexError
          end
        else CustomMenu_inputs m inputs'
      else CustomMenu_inputs m inputs'
  end.

Definition CustomMenu_update (m : CustomMenu) (inputs : list Event)
    : res (CustomMenu * option string) :=
  CustomMenu_inputs (set_CustomMenu_drawn true m) inputs.

(** the factory methods *)
Definition CustomMenu_MainMenu : CustomMenu :=
  {| CustomMenu_title := "Archery";
     CustomMenu_options := [ {| name := "Play"; instruction := "Game New" |};
                             {| name := "Quit"; instruction := "Quit Switch" |} ];
     CustomMenu_cursor := 0;
     CustomMenu_drawn := false |}.

Definition CustomMenu_Pause : CustomMenu :=
  {| CustomMenu_title := "Pause";
     CustomMenu_options := [ {| name := "Resume"; instruction := "Game Switch" |};
                             {| name := "Menu"; instruction := "Menu Switch" |};
                             {| name := "Quit"; instruction := "Quit Switch" |} ];
     CustomMenu_cursor := 0;
     CustomMenu_drawn := false |}.

(* ================================================================== *)
(** ** The context registry and [context_change] *)

(** what a registry entry can call to make an instance *)
Inductive ContextClass :=
  | MainMenu_class | Pause_class | GameContext_class | QuitContext_class.

Record ContextEntry := { cont_class : ContextClass; instance : option nat }.

(** [s.split(' ')] *)
Fixpoint split_space (s : string) : list string :=
  match s with
  | EmptyString => [EmptyString]
  | String c s' =>
      if Ascii.eqb c " "%char then EmptyString :: split_space s'
      else match split_space s' with
           | h :: t => String c h :: t
           | [] => [String c EmptyString]
           end
  end.

Definition alloc_Context (c : Context) (w : World) : World * nat :=
  (set_contexts (contexts w ++ [c]) w, length (contexts w)).

Section Switcher.

Variable cls : BowClass.
Variable assets : Assets.

(** calling [context_class()] *)
Definition construct (c : ContextClass) (w : World) : World * nat :=
  match c with
  | MainMenu_class => alloc_Context (Menu CustomMenu_MainMenu) w
  | Pause_class => alloc_Context (Menu CustomMenu_Pause) w
  | GameContext_class => GameContext_new assets w
  | QuitContext_class => alloc_Context Dummy w
  end.

(** [context_change]: the world and the registry after it, and the
    context returned ([None] is Python's [None]) *)
Definition context_change (w : World) (context_dict : gmap string ContextEntry)
    (instr : string) : res (World * gmap string ContextEntry * option nat) :=
  match split_space instr with
  | [change; option] =>
      if String.eqb option "Switch" then
        match context_dict !! change with
        | Some entry => mret (w, context_dict, instance entry)
        | None => Raise KeyError
        end
      else if String.eqb option "New" then
        match context_dict !! change with
        | Some entry =>
            let context_class := cont_class entry in
            let '(w', new_instance) := construct context_class w in
            mret (w',
                  <[change := {| cont_class := context_class;
                                 instance := Some new_instance |}]> context_dict,
                  Some new_instance)
        | None => Raise KeyError
        end
      else Raise UnboundLocalError
  | _ => Raise ValueError
  end.

(** The application: the world, the registry and the active context. *)
Record App := {
  world : World;
  context_dict : gmap string ContextEntry;
  active_context : option nat
}.

(** the start of the main program, up to the loop *)
Definition main_init : App :=
  let '(w, menu) := construct MainMenu_class empty_world in
  let '(w, pause) := construct Pause_class w in
  let '(w, quit) := construct QuitContext_class w in
  let dict : gmap string ContextEntry :=
    <["Quit"%string := {| cont_class := QuitContext_class; instance := Some quit |}]>
    (<["Menu"%string := {| cont_class := MainMenu_class; instance := Some menu |}]>
    (<["Pause"%string := {| cont_class := Pause_class; instance := Some pause |}]>
    (<["Game"%string := {| cont_class := GameContext_class; instance := None |}]> ∅))) in
  {| world := w; context_dict := dict; active_context := dict !! "Menu"%string ≫= instance |}.

(** [active_context.update(inputs)] *)
Definition Context_update (self : option nat) (w : World) (inputs : list Event)
    : res (World * option string) :=
  match self with
  | None => Raise AttributeError
  | Some addr =>
      match contexts w !! addr with
      | Some (Game _) => GameContext_update cls assets addr w inputs
      | Some (Menu m) =>
          '(m', instr) ← CustomMenu_update m inputs;
          mret (set_contexts (<[addr := Menu m']> (contexts w)) w, instr)
      | Some Dummy => Raise SystemExit
      | None => Raise AttributeError
      end
  end.

(** the event loop of one frame: QUIT events switch to the Quit
    context at once, key events are collected for the update *)
Fixpoint collect_events (app : App) (events inputs : list Event) : res (App * list Event) :=
  match events with
  | [] => mret (app, inputs)
  | event :: events' =>
      if is_type event QUIT then
        '(w, dict, c) ← context_change (world app) (context_dict app) "Quit Switch";
        collect_events {| world := w; context_dict := dict; active_context := c |}
                       events' inputs
      else if is_type event KEYDOWN || is_type event KEYUP then
        collect_events app events' (inputs ++ [event])
      else collect_events app events' inputs
  end.

(** one turn of [while True] *)
Definition main_frame (app : App) (events : list Event) : res App :=
  '(app, inputs) ← collect_events app events [];
  '(w, context_instruction) ← Context_update (active_context app) (world app) inputs;
  match context_instruction with
  | Some instr =>
      if String.eqb instr EmptyString then
        mret {| world := w; context_dict := context_dict app;
                active_context := active_context app |}
      else
        '(w', dict, c) ← context_change w (context_dict app) instr;
        mret {| world := w'; context_dict := dict; active_context := c |}
  | None =>
      mret {| world := w; context_dict := context_dict app;
              active_context := active_context app |}
  end.

Fixpoint main_loop (app : App) (frames : list (list Event)) : res App :=
  match frames with
  | [] => mret app
  | events :: frames' =>
      app' ← main_frame app events;
      main_loop app' frames'
  end.

End Switcher.

(* ================================================================== *)
(** * Statements: sample inputs, invariants and readings of the rules *)

Definition down (k : Key) : Event := {| type := KEYDOWN; key := k |}.
Definition up (k : Key) : Event := {| type := KEYUP; key := k |}.

(** the configuration of the main program: 30 frames per second *)
Definition cls30 : BowClass := Bow_init 30.

(** picture sizes to run the program on *)
Definition sample_assets : Assets :=
  {| bow_size := (80, 200); arrow_size := (200, 110); target_size := (130, 399) |}.

(** the number of charge-release events of a frame *)
Fixpoint count_space_up (inputs : list Event) : Z :=
  match inputs with
  | [] => 0
  | e :: inputs' => (if is_space_up e then 1 else 0) + count_space_up inputs'
  end.

(** the float that [Bow.force] computes at a given accumulation time *)
Definition force_at (cls : BowClass) (bent_time : Z) : spec_float :=
  fadd (fmul (fdiv (float_of_int (Bow_FORCE_MAX - Bow_FORCE_MIN))
                   (float_of_int (TIME_FORCE_FPS cls)))
             (float_of_int bent_time))
       (float_of_int Bow_FORCE_MIN).

(** the step that a frame in the Bent state draws, if it draws one *)
Definition bend_step (cls : BowClass) (bent_time : Z) : spec_float :=
  fdiv (float_of_int bent_time) (float_of_int (TIME_FORCE_FPS cls / Bow_ROPE_STATES)).

Definition is_Bent (s : BowState) : bool :=
  match s with BentBowState => true | _ => false end.

(** Ammunition and state agree: the bow is Empty exactly when it has
    no arrow left, and otherwise it has some. *)
Definition ammo_inv (b : Bow) : Prop :=
  match Bow_state b with
  | EmptyBowState => Bow_ammo b = 0
  | _ => 0 < Bow_ammo b
  end.

Definition fired (b : Bow) (inputs : list Event) : Z :=
  if is_Bent (Bow_state b) then count_space_up inputs else 0.

(** The accumulation time stays between zero and the threshold. *)
Definition time_inv (cls : BowClass) (b : Bow) : Prop :=
  0 <= Bow_bent_time b <= TIME_FORCE_FPS cls.

(** an arrow shot after at least one frame of accumulation *)
Definition charged_shot (cls : BowClass) (a : Arrow) : Prop :=
  exists k, 1 <= k <= TIME_FORCE_FPS cls
            /\ Arrow_speed a = (PyFloat (force_at cls k), PyInt 0).

(** what a frame in the Bent state draws *)
Definition bend_drawn (cls : BowClass) (bent_time : Z) : list num :=
  if (bent_time <? TIME_FORCE_FPS cls) && float_is_integer (bend_step cls (bent_time + 1))
  then [PyFloat (bend_step cls (bent_time + 1))] else [].

(** a fresh bow, as [GameContext.__init__] makes it *)
Definition new_bow : Bow := Bow_new sample_assets 3.

(** the charge-release events of a whole session *)
Fixpoint releases (frames : list (list Event)) : Z :=
  match frames with
  | [] => 0
  | inputs :: frames' => count_space_up inputs + releases frames'
  end.

(** The reading of the ammunition rule that charges every charge-release
    delivered while there is ammunition. *)
Definition every_release_costs_one : Prop :=
  forall frames b shots,
    Bow_run cls30 sample_assets (Some 0%nat) (new_bow, []) frames = Ok (b, shots) ->
    0 < Bow_ammo b ->
    Bow_ammo b = Bow_AMMO_MAX - releases frames.

(** one shot and its cooldown: charge-begin, charge-release, thirty frames *)
Definition shot_cycle : list (list Event) :=
  [[down K_SPACE]; [up K_SPACE]] ++ replicate 30 [].

Definition four_shots : list (list Event) :=
  shot_cycle ++ shot_cycle ++ shot_cycle ++ shot_cycle.

Definition run30 (frames : list (list Event)) : res (Bow * list Arrow) :=
  Bow_run cls30 sample_assets (Some 0%nat) (new_bow, []) frames.

Definition summary (r : res (Bow * list Arrow)) : option (BowState * Z * (num * num) * nat) :=
  match r with
  | Ok (b, shots) => Some (Bow_state b, Bow_ammo b, Bow_speed b, length shots)
  | Raise _ => None
  end.

Fixpoint Zrange (lo : Z) (n : nat) : list Z :=
  match n with
  | O => []
  | S n' => lo :: Zrange (lo + 1) n'
  end.

(** The reading of the redraw rule with the exact quotient of the charge
    duration by the number of rope states: the time is [k] times it. *)
Definition redraw_at_exact_multiples : Prop :=
  forall frames b l inputs b' l',
    Bow_run cls30 sample_assets (Some 0%nat) (new_bow, []) frames = Ok (b, l) ->
    Bow_state b = BentBowState ->
    count_space_up inputs = 0 ->
    Bow_update cls30 sample_assets (Some 0%nat) (b, l) inputs = Ok (b', l') ->
    (Bow_drawn b' <> Bow_drawn b
     <-> exists k : Z, Bow_bent_time b' * Bow_ROPE_STATES = k * TIME_FORCE_FPS cls30).

(** [a <= b] and [a < b] on floats *)
Definition fle (a b : spec_float) : Prop := SFleb a b = true.
Definition flt (a b : spec_float) : Prop := SFltb a b = true.

(** The formula of the specification, in binary64 and in the order in
    which it is written: FORCE_MIN + (FORCE_MAX - FORCE_MIN) * (t / threshold). *)
Definition force_formula (cls : BowClass) (t : Z) : spec_float :=
  fadd (float_of_int Bow_FORCE_MIN)
       (fmul (float_of_int (Bow_FORCE_MAX - Bow_FORCE_MIN))
             (fdiv (float_of_int t) (float_of_int (TIME_FORCE_FPS cls)))).

(** FORCE_MIN + (FORCE_MAX - FORCE_MIN) / threshold *)
Definition least_force (cls : BowClass) : spec_float :=
  fadd (float_of_int Bow_FORCE_MIN)
       (fdiv (float_of_int (Bow_FORCE_MAX - Bow_FORCE_MIN))
             (float_of_int (TIME_FORCE_FPS cls))).

#[global] Instance spec_float_eq_dec : EqDecision spec_float.
Proof. solve_decision. Defined.

Definition force_check (t : Z) : bool :=
  bool_decide (force_at cls30 t = force_formula cls30 t)
  && SFleb (float_of_int Bow_FORCE_MIN) (force_at cls30 t)
  && SFleb (force_at cls30 t) (float_of_int Bow_FORCE_MAX)
  && forallb (fun t' => SFleb (force_at cls30 t) (force_at cls30 t'))
             (Zrange t (Z.to_nat (22 - t))).

(** the score of the game context at an address *)
Definition score_of (w : World) (c : nat) : option Z :=
  match contexts w !! c with
  | Some (Game g) => Some (GameContext_score g)
  | _ => None
  end.

(** where [Arrow.update] moves the picture and the hitbox of an arrow *)
Definition Arrow_next_rect (a : Arrow) : Rect :=
  move_ip (Arrow_rect a) (num_px (fst (Arrow_speed a)))
          (num_px (num_add (snd (Arrow_speed a)) GRAVITY)).

Definition Arrow_next_hitbox (a : Arrow) : Rect :=
  move_ip (Arrow_hitbox a) (num_px (fst (Arrow_speed a)))
          (num_px (num_add (snd (Arrow_speed a)) GRAVITY)).

(** the points of the first zone hit, in the order inner, middle, outer *)
Definition zone_points (h : Rect) (t : Target) : option Z :=
  if colliderect h (Target_inner_hit t) then Some 3
  else if colliderect h (Target_middle_hit t) then Some 2
  else if colliderect h (Target_outer_hit t) then Some 1
  else None.

(** the hitbox sits at its offset from the picture *)
Definition Arrow_wf (a : Arrow) : Prop :=
  Arrow_hitbox a
  = move_ip (Rect_at (topleft (Arrow_rect a)) Arrow_HITBOX_SIZE)
            (fst Arrow_HITBOX_OFFSET) (snd Arrow_HITBOX_OFFSET).

(** a flying arrow, for the examples *)
Definition sample_world : World :=
  fst (GameContext_new sample_assets empty_world).

Definition sample_arrow (pos : Z * Z) : Arrow :=
  Arrow_new sample_assets (Some 0%nat) 0%nat pos (force_at cls30 21).

(** the nesting that C5 states *)
Definition Target_nested (t : Target) : bool :=
  contains (Target_middle_hit t) (Target_inner_hit t)
  && contains (Target_outer_hit t) (Target_middle_hit t).

Definition targets_are_nested : Prop :=
  forall assets, Target_nested (Target_new assets) = true.

(** the session that the registry names, and what the active context shows *)
Definition registry_Game (app : App) : option nat :=
  context_dict app !! "Game"%string ≫= instance.

Definition registry_Menu (app : App) : option nat :=
  context_dict app !! "Menu"%string ≫= instance.

Definition active_score (app : App) : option Z :=
  active_context app ≫= score_of (world app).

Definition arrows_in_flight (app : App) : list (nat * Z) :=
  map (fun a => (Arrow_context a, left (Arrow_rect a))) (Arrow_INSTANCES (world app)).

(** a first session: play, let the bow come down for forty frames, shoot,
    pause, go back to the main menu *)
Definition first_session : list (list Event) :=
  [[down K_RETURN]] ++ replicate 40 []
  ++ [[down K_SPACE]; [up K_SPACE]; [down K_ESCAPE]; [down K_DOWN; down K_RETURN]].

Definition run_app (frames : list (list Event)) : res App :=
  main_loop cls30 sample_assets (main_init sample_assets) frames.

Definition app_view (r : res App)
    : option (option nat * option nat * option Z * list (nat * Z) * list (option Z)) :=
  match r with
  | Ok app => Some (active_context app, registry_Game app, active_score app,
                    arrows_in_flight app,
                    map (score_of (world app)) [3%nat; 4%nat])
  | Raise _ => None
  end.

(** the application two frames after "Play" *)
Definition first_game : App :=
  match main_loop cls30 sample_assets (main_init sample_assets) [[down K_RETURN]; []] with
  | Ok app => app
  | Raise _ => main_init sample_assets
  end.

(** The bow is on its track: at its column, and between one step above
    the top and one step below the lowest place of its picture, going
    down, going up or stopped. *)
Definition on_track (h : Z) (b : Bow) : Prop :=
  left (Bow_rect b) = fst Bow_POS_INIT
  /\ height (Bow_rect b) = h
  /\ (Bow_speed b = (PyInt 0, PyInt 8)
      /\ -8 <= top (Bow_rect b) <= SCREEN_HEIGHT - h
      \/ Bow_speed b = (PyInt 0, PyInt (-8))
         /\ 0 <= top (Bow_rect b) <= SCREEN_HEIGHT - h + 8
      \/ Bow_speed b = (PyInt 0, PyInt 0)
         /\ -8 <= top (Bow_rect b) <= SCREEN_HEIGHT - h + 8).

(** the frames of a session carry no charge-release *)
Definition no_release (frames : list (list Event)) : Prop :=
  Forall (fun inputs => count_space_up inputs = 0) frames.

(** the checks on what [Bow.init] computes at a frame rate *)
Definition Bow_init_check (fps : Z) : bool :=
  (TIME_COOLDOWN_FPS (Bow_init fps) =? fps)
  && (7 * fps / 10 - 1 <=? TIME_FORCE_FPS (Bow_init fps))
  && (TIME_FORCE_FPS (Bow_init fps) <=? 7 * fps / 10)
  && ((90 <=? fps) || (TIME_FORCE_FPS (Bow_init fps) =? 7 * fps / 10))
  && ((fps <? 15) || (Bow_ROPE_STATES <=? TIME_FORCE_FPS (Bow_init fps)))
  && ((15 <=? fps) || (TIME_FORCE_FPS (Bow_init fps) <? Bow_ROPE_STATES)).

(** an arrow that starts on the track of a bow of height [h] *)
Definition starts_on_track (h : Z) (a : Arrow) : Prop :=
  left (Arrow_rect a) = fst Bow_POS_INIT
  /\ -8 <= top (Arrow_rect a) <= SCREEN_HEIGHT - h + 8.

(** how a frame of the arrows may change a context: a game context stays
    one, keeps its [_drawn] flag and gains between 0 and [bound] points;
    any other context stays as it is *)
Definition score_step (bound : Z) (before after : option Context) : Prop :=
  match before with
  | Some (Game g) =>
      exists g', after = Some (Game g')
                 /\ GameContext_drawn g' = GameContext_drawn g
                 /\ GameContext_score g <= GameContext_score g' <= GameContext_score g + bound
  | other => after = other
  end.

(** two arrows in flight, one about to hit and one far from the target,
    and what an update of each makes *)
Definition two_arrows : list Arrow :=
  [sample_arrow (600, 300); sample_arrow (100, 300)].

Definition after_two_arrows : World * list Arrow :=
  match Arrows_update sample_world two_arrows with
  | Ok r => r
  | Raise _ => (sample_world, [])
  end.

Definition flown_arrow : Arrow :=
  match Arrow_update sample_world (sample_arrow (100, 300)) with
  | Ok (_, a') => a'
  | Raise _ => sample_arrow (100, 300)
  end.

(** the cursor moves of a batch, up to its first RETURN key *)
Fixpoint menu_shift (inputs : list Event) : Z :=
  match inputs with
  | [] => 0
  | e :: inputs' =>
      if is_type e KEYDOWN then
        if is_key e K_DOWN then 1 + menu_shift inputs'
        else if is_key e K_UP then -1 + menu_shift inputs'
        else if is_key e K_RETURN then 0
        else menu_shift inputs'
      else menu_shift inputs'
  end.

Definition is_return (e : Event) : bool := is_type e KEYDOWN && is_key e K_RETURN.

(** the keys a menu acts on *)
Definition is_menu_key (e : Event) : bool :=
  is_type e KEYDOWN && (is_key e K_DOWN || is_key e K_UP || is_key e K_RETURN).

(** a menu without options *)
Definition empty_menu : CustomMenu :=
  {| CustomMenu_title := "Empty"; CustomMenu_options := [];
     CustomMenu_cursor := 0; CustomMenu_drawn := false |}.

(** the number of spaces of an instruction *)
Fixpoint count_spaces (s : string) : nat :=
  match s with
  | EmptyString => 0
  | String c s' => (if Ascii.eqb c " "%char then 1 else 0) + count_spaces s'
  end.

(** the instruction made of two words *)
Definition two_words (change option : string) : string :=
  String.append change (String " "%char option).

Definition is_QUIT (e : Event) : bool := is_type e QUIT.

Definition is_key_event (e : Event) : bool := is_type e KEYDOWN || is_type e KEYUP.

(** the application with another active context *)
Definition set_active_context (c : option nat) (app : App) : App :=
  {| world := world app; context_dict := context_dict app; active_context := c |}.

Definition quit_event : Event := {| type := QUIT; key := K_OTHER 0 |}.

(** the application after the frame in which "Play" is chosen *)
Definition after_Play : App :=
  match main_frame cls30 sample_assets (main_init sample_assets) [down K_RETURN] with
  | Ok app => app
  | Raise _ => main_init sample_assets
  end.

(** an arrow whose target exists and whose context is a game *)
Definition arrow_ok (w : World) (a : Arrow) : Prop :=
  (exists ti t, Arrow_target a = Some ti /\ targets w !! ti = Some t)
  /\ (exists g, contexts w !! Arrow_context a = Some (Game g)).

(** the context at [addr] is a menu with the options of [menu] and its
    cursor on one of them *)
Definition menu_at (w : World) (addr : nat) (menu : CustomMenu) : Prop :=
  exists m, contexts w !! addr = Some (Menu m)
            /\ CustomMenu_options m = CustomMenu_options menu
            /\ 0 <= CustomMenu_cursor m < Z.of_nat (length (CustomMenu_options menu)).

(** [Bow.INSTANCE] and [Target.INSTANCE] are set, the bow belongs to a
    game *)
Definition game_ready (w : World) : Prop :=
  exists b ti t,
    Bow_INSTANCE w = Some b
    /\ (exists g, contexts w !! Bow_context b = Some (Game g))
    /\ Target_INSTANCE w = Some ti /\ targets w !! ti = Some t.

(** the objects of a running program: the three contexts made at the
    start, then game contexts only; every arrow of the group is
    [arrow_ok]; once a game was made there is a bow and a target *)
Definition world_inv (w : World) : Prop :=
  menu_at w 0 CustomMenu_MainMenu
  /\ menu_at w 1 CustomMenu_Pause
  /\ contexts w !! 2%nat = Some Dummy
  /\ (forall c x, (3 <= c)%nat -> contexts w !! c = Some x -> exists g, x = Game g)
  /\ Forall (arrow_ok w) (Arrow_INSTANCES w)
  /\ ((3 < length (contexts w))%nat -> game_ready w).

(** the registry of a running program names the three first contexts and
    the last game made, if any; the active context is the main menu, the
    quit context, or, once a game was made, the pause menu or that game *)
Definition app_inv (app : App) : Prop :=
  world_inv (world app)
  /\ context_dict app !! "Menu"%string
     = Some {| cont_class := MainMenu_class; instance := Some 0%nat |}
  /\ context_dict app !! "Pause"%string
     = Some {| cont_class := Pause_class; instance := Some 1%nat |}
  /\ context_dict app !! "Quit"%string
     = Some {| cont_class := QuitContext_class; instance := Some 2%nat |}
  /\ exists gi,
       context_dict app !! "Game"%string
       = Some {| cont_class := GameContext_class; instance := gi |}
       /\ (forall g, gi = Some g -> (3 <= g < length (contexts (world app)))%nat)
       /\ (active_context app = Some 0%nat
           \/ active_context app = Some 2%nat
           \/ exists g, gi = Some g
                        /\ (active_context app = Some 1%nat
                            \/ active_context app = Some g)).

(** what a frame of a game may do to a context: a game context stays one
    and its score does not fall; any other context, and the absence of
    one, stays as it is *)
Definition game_step (before after : option Context) : Prop :=
  match before with
  | Some (Game g) =>
      exists g', after = Some (Game g')
                 /\ GameContext_score g <= GameContext_score g'
  | other => after = other
  end.

(** what the program may do to the context at an address: a game context
    stays one and its score does not fall, a menu stays a menu with the
    same options, the quit context stays; where there was no context
    anything may come *)
Definition ctx_grows (before after : option Context) : Prop :=
  match before with
  | Some (Game g) =>
      exists g', after = Some (Game g')
                 /\ GameContext_score g <= GameContext_score g'
  | Some (Menu m) =>
      exists m', after = Some (Menu m')
                 /\ CustomMenu_options m' = CustomMenu_options m
  | Some Dummy => after = Some Dummy
  | None => True
  end.

(** the frames of a game after the first: the bow moves for forty
    frames, an arrow is charged and shot, the game is paused and left
    for the main menu *)
Definition later_frames : list (list Event) :=
  replicate 40 []
  ++ [[down K_SPACE]; [up K_SPACE]; [down K_ESCAPE]; [down K_DOWN; down K_RETURN]].

Definition after_later_frames : App :=
  match main_loop cls30 sample_assets first_game later_frames with
  | Ok app => app
  | Raise _ => first_game
  end.

(** a KEYDOWN of the Escape key *)
Definition is_escape (e : Event) : bool := is_type e KEYDOWN && is_key e K_ESCAPE.

(* ================================================================== *)
(** * Properties *)

(* ================================================================== *)
(** ** The bow machine: general facts *)

Lemma bind_Ok {A B} (a : A) (f : A -> res B) : (Ok a ≫= f) = f a.
Proof. reflexivity. Qed.

Lemma bind_Raise {A B} (e : exn) (f : A -> res B) : (Raise e ≫= f) = Raise e.
Proof. reflexivity. Qed.

Ltac res_simpl :=
  repeat (rewrite ?bind_Ok, ?bind_Raise; unfold mret, res_ret; cbn beta iota).

Section BowFacts.

Variable cls : BowClass.
Variable assets : Assets.
Variable Target_INSTANCE : option nat.

Lemma count_space_up_nonneg inputs : 0 <= count_space_up inputs.
Proof. induction inputs as [|e l IH]; simpl; [lia | destruct (is_space_up e); lia]. Qed.

Lemma replicate_middle {A} (n : nat) (x : A) (d : list A) :
  replicate n x ++ x :: d = x :: replicate n x ++ d.
Proof. induction n as [|n IH]; simpl; [reflexivity | rewrite IH; reflexivity]. Qed.

Lemma Bow_force_ok b : TIME_FORCE_FPS cls <> 0 -> Bow_force cls b = Ok (force_at cls (Bow_bent_time b)).
Proof.
  intros HT. unfold Bow_force, int_truediv.
  destruct (Z.eqb_spec (TIME_FORCE_FPS cls) 0) as [E|_]; [contradiction | reflexivity].
Qed.

Lemma Bow_shoot_ok b l :
  TIME_FORCE_FPS cls <> 0 ->
  Bow_shoot cls assets Target_INSTANCE (b, l)
  = Ok (set_Bow_ammo (Bow_ammo b - 1) b,
        l ++ [Arrow_new assets Target_INSTANCE (Bow_context b) (topleft (Bow_rect b))
                        (force_at cls (Bow_bent_time b))]).
Proof. intros HT. unfold Bow_shoot. rewrite Bow_force_ok by exact HT. reflexivity. Qed.

(** What the loop of [BentBowState.update] does with a whole batch:
    one shot per charge-release in it, each with the force of the
    accumulation time of this frame. *)
Lemma BentBowState_inputs_spec inputs : forall b l,
  TIME_FORCE_FPS cls <> 0 ->
  exists b' shots,
    BentBowState_inputs cls assets Target_INSTANCE (b, l) inputs = Ok (b', l ++ shots)
    /\ Bow_ammo b' = Bow_ammo b - count_space_up inputs
    /\ Z.of_nat (length shots) = count_space_up inputs
    /\ Bow_bent_time b' = Bow_bent_time b
    /\ Bow_context b' = Bow_context b
    /\ (count_space_up inputs = 0 -> b' = b)
    /\ (0 < count_space_up inputs ->
        Bow_state b' = if Bow_ammo b' =? 0 then EmptyBowState else ReloadBowState)
    /\ Forall (fun a => Arrow_speed a = (PyFloat (force_at cls (Bow_bent_time b)), PyInt 0)
                        /\ Arrow_context a = Bow_context b)
              shots
    /\ Bow_drawn b' = replicate (length shots) (PyInt (-1)) ++ Bow_drawn b.
Proof.
  induction inputs as [|e inputs IH]; intros b l HT.
  - exists b, []. rewrite app_nil_r. simpl. repeat split; auto; lia.
  - simpl. unfold BentBowState_input.
    destruct (is_space_up e) eqn:Hup.
    + rewrite Bow_shoot_ok by exact HT. res_simpl.
      set (b1 := set_Bow_ammo (Bow_ammo b - 1) b).
      set (a := Arrow_new assets Target_INSTANCE _ _ _).
      pose proof (count_space_up_nonneg inputs) as Hc.
      destruct (Bow_ammo b1 =? 0) eqn:Hz; res_simpl.
      * destruct (IH (EmptyBowState_new b1) (l ++ [a]) HT)
          as (b' & shots & Hrun & Ham & Hlen & Hbt & Hctx & Hsame & Hst & Hall & Hdr).
        exists b', (a :: shots). rewrite Hrun.
        rewrite <- app_assoc. simpl in *.
        repeat split; try lia; try congruence.
        -- intros _. destruct (Z.eq_dec (count_space_up inputs) 0) as [E|NE].
           ++ rewrite (Hsame E). simpl.
              rewrite Hz. reflexivity.
           ++ apply Hst. lia.
        -- constructor; [split; reflexivity | exact Hall].
        -- rewrite Hdr. apply replicate_middle.
      * destruct (IH (ReloadBowState_new cls b1) (l ++ [a]) HT)
          as (b' & shots & Hrun & Ham & Hlen & Hbt & Hctx & Hsame & Hst & Hall & Hdr).
        exists b', (a :: shots). rewrite Hrun.
        rewrite <- app_assoc. simpl in *.
        repeat split; try lia; try congruence.
        -- intros _. destruct (Z.eq_dec (count_space_up inputs) 0) as [E|NE].
           ++ rewrite (Hsame E). simpl.
              rewrite Hz. reflexivity.
           ++ apply Hst. lia.
        -- constructor; [split; reflexivity | exact Hall].
        -- rewrite Hdr. apply replicate_middle.
    + res_simpl.
      destruct (IH b l HT)
        as (b' & shots & Hrun & Ham & Hlen & Hbt & Hctx & Hsame & Hst & Hall & Hdr).
      exists b', shots. rewrite Hrun. repeat split; auto; lia.
Qed.

Lemma NormalBowState_update_spec inputs : forall b,
  NormalBowState_update b inputs
  = if existsb is_space_down inputs then BentBowState_new b else b.
Proof.
  unfold NormalBowState_update.
  induction inputs as [|e inputs IH]; intros b; simpl; [reflexivity|].
  rewrite IH. unfold NormalBowState_input.
  destruct (is_space_down e); simpl; [|reflexivity].
  destruct (existsb is_space_down inputs); reflexivity.
Qed.

Lemma Bow_move_fields b :
  Bow_ammo (Bow_move b) = Bow_ammo b
  /\ Bow_state (Bow_move b) = Bow_state b
  /\ Bow_bent_time (Bow_move b) = Bow_bent_time b
  /\ Bow_cooldown (Bow_move b) = Bow_cooldown b
  /\ Bow_context (Bow_move b) = Bow_context b
  /\ Bow_drawn (Bow_move b) = Bow_drawn b.
Proof. unfold Bow_move. destruct (_ || _); repeat split. Qed.

Lemma BentBowState_charge_spec b :
  Bow_ROPE_STATES <= TIME_FORCE_FPS cls ->
  BentBowState_charge cls b
  = Ok (if Bow_bent_time b <? TIME_FORCE_FPS cls then
          let b1 := set_Bow_bent_time (Bow_bent_time b + 1) b in
          if float_is_integer (bend_step cls (Bow_bent_time b + 1))
          then Bow_draw (PyFloat (bend_step cls (Bow_bent_time b + 1))) b1
          else b1
        else b).
Proof.
  intros HT. unfold BentBowState_charge, int_floordiv, int_truediv, bend_step.
  destruct (Bow_bent_time b <? TIME_FORCE_FPS cls); [|reflexivity].
  unfold Bow_ROPE_STATES in *.
  destruct (Z.eqb_spec 10 0) as [E|_]; [lia|]. res_simpl.
  assert (1 <= TIME_FORCE_FPS cls / 10) as Hu
    by (apply Z.div_le_lower_bound; lia).
  destruct (Z.eqb_spec (TIME_FORCE_FPS cls / 10) 0) as [E|_]; [lia|]. res_simpl.
  simpl. destruct (float_is_integer _); reflexivity.
Qed.

(** A frame in the Bent state: the time accumulates, then every
    charge-release of the batch shoots. *)
Lemma Bow_update_Bent b l inputs :
  Bow_ROPE_STATES <= TIME_FORCE_FPS cls ->
  Bow_state b = BentBowState ->
  exists b' shots,
    Bow_update cls assets Target_INSTANCE (b, l) inputs = Ok (b', l ++ shots)
    /\ Bow_ammo b' = Bow_ammo b - count_space_up inputs
    /\ Z.of_nat (length shots) = count_space_up inputs
    /\ Bow_bent_time b'
       = (if Bow_bent_time b <? TIME_FORCE_FPS cls
          then Bow_bent_time b + 1 else Bow_bent_time b)
    /\ (count_space_up inputs = 0 -> Bow_state b' = BentBowState)
    /\ (0 < count_space_up inputs ->
        Bow_state b' = if Bow_ammo b' =? 0 then EmptyBowState else ReloadBowState)
    /\ Forall (fun a => Arrow_speed a = (PyFloat (force_at cls (Bow_bent_time b')), PyInt 0))
              shots.
Proof.
  intros HT Hst. unfold Bow_ROPE_STATES in HT.
  destruct (Bow_move_fields b) as (Ha & Hs & Hbt & _ & _ & _).
  unfold Bow_update. cbn [fst snd]. rewrite Hs, Hst.
  unfold BentBowState_update. cbn [fst snd].
  rewrite BentBowState_charge_spec by (unfold Bow_ROPE_STATES; lia). res_simpl.
  set (b1 := if Bow_bent_time (Bow_move b) <? _ then _ else _).
  assert (Bow_ammo b1 = Bow_ammo b /\ Bow_state b1 = BentBowState
          /\ Bow_bent_time b1 = (if Bow_bent_time b <? TIME_FORCE_FPS cls
                                 then Bow_bent_time b + 1 else Bow_bent_time b))
    as (Ha1 & Hs1 & Hbt1).
  { subst b1. rewrite Hbt.
    destruct (Bow_bent_time b <? TIME_FORCE_FPS cls); [|repeat split; congruence].
    cbv zeta. destruct (float_is_integer _); simpl; repeat split; congruence. }
  destruct (BentBowState_inputs_spec inputs b1 l ltac:(lia))
    as (b' & shots & Hrun & Ham & Hlen & Hbt' & _ & Hsame & Hst' & Hall & _).
  exists b', shots. rewrite Hrun.
  repeat split; try congruence.
  - intros E. rewrite (Hsame E). exact Hs1.
  - exact Hst'.
  - rewrite Hbt'. eapply Forall_impl; [exact Hall|]. intros a [H _]. exact H.
Qed.

(** A frame in any other state shoots nothing and keeps the ammo. *)
Lemma Bow_update_other b l inputs :
  Bow_state b <> BentBowState ->
  exists b',
    Bow_update cls assets Target_INSTANCE (b, l) inputs = Ok (b', l)
    /\ Bow_ammo b' = Bow_ammo b
    /\ match Bow_state b with
       | NormalBowState =>
           b' = if existsb is_space_down inputs
                then BentBowState_new (Bow_move b) else Bow_move b
       | ReloadBowState => b' = ReloadBowState_update (Bow_move b) inputs
       | _ => b' = Bow_move b
       end.
Proof.
  intros Hst.
  destruct (Bow_move_fields b) as (Ha & Hs & _).
  unfold Bow_update. cbn [fst snd]. rewrite Hs.
  destruct (Bow_state b) eqn:E; try congruence; eexists; (split; [reflexivity|]).
  - rewrite NormalBowState_update_spec.
    destruct (existsb is_space_down inputs); simpl; auto.
  - split; [|reflexivity]. unfold ReloadBowState_update. simpl.
    destruct (_ =? 0); simpl; exact Ha.
  - split; [exact Ha | reflexivity].
Qed.

Lemma Bow_update_ammo b l inputs :
  Bow_ROPE_STATES <= TIME_FORCE_FPS cls ->
  exists b' shots,
    Bow_update cls assets Target_INSTANCE (b, l) inputs = Ok (b', l ++ shots)
    /\ Bow_ammo b' = Bow_ammo b - fired b inputs
    /\ Z.of_nat (length shots) = fired b inputs
    /\ (count_space_up inputs <= 1 -> ammo_inv b -> ammo_inv b').
Proof.
  intros HT. unfold fired.
  pose proof (count_space_up_nonneg inputs) as Hc.
  destruct (Bow_state b) eqn:Hst; simpl.
  2:{ destruct (Bow_update_Bent b l inputs HT Hst)
        as (b' & shots & Hrun & Ham & Hlen & _ & Hs0 & Hs1 & _).
      exists b', shots. repeat split; auto.
      intros Hone Hinv. unfold ammo_inv in *. rewrite Hst in Hinv.
      destruct (Z.eq_dec (count_space_up inputs) 0) as [E|NE].
      - rewrite (Hs0 E). lia.
      - rewrite Hs1 by lia. destruct (Z.eqb_spec (Bow_ammo b') 0); lia. }
  all: destruct (Bow_update_other b l inputs ltac:(congruence)) as (b' & Hrun & Ham & Hb');
    exists b', []; rewrite app_nil_r; rewrite Hst in Hb';
    (repeat split; [exact Hrun | lia | ]);
    intros _ Hinv; unfold ammo_inv in *; rewrite Hst in Hinv; rewrite Ham.
  - destruct (Bow_move_fields b) as (_ & Hs & _).
    subst b'. destruct (existsb _ _); simpl; [lia|]. rewrite Hs, Hst. lia.
  - subst b'. unfold ReloadBowState_update. simpl.
    destruct (Bow_move_fields b) as (_ & Hs & _).
    destruct (_ =? 0); simpl; [lia|]. rewrite Hs, Hst. lia.
  - subst b'. destruct (Bow_move_fields b) as (_ & Hs & _). rewrite Hs, Hst. lia.
Qed.

Lemma Bow_run_ammo frames : forall b l,
  Bow_ROPE_STATES <= TIME_FORCE_FPS cls ->
  Forall (fun inputs => count_space_up inputs <= 1) frames ->
  ammo_inv b ->
  exists b' shots,
    Bow_run cls assets Target_INSTANCE (b, l) frames = Ok (b', l ++ shots)
    /\ ammo_inv b'
    /\ Bow_ammo b' = Bow_ammo b - Z.of_nat (length shots).
Proof.
  induction frames as [|inputs frames IH]; intros b l HT Hone Hinv.
  - exists b, []. rewrite app_nil_r. simpl. repeat split; auto. lia.
  - inversion Hone as [|? ? H1 Hrest]; subst.
    destruct (Bow_update_ammo b l inputs HT) as (b1 & s1 & Hup & Ham & Hlen & Hpres).
    destruct (IH b1 (l ++ s1) HT Hrest (Hpres H1 Hinv)) as (b' & s2 & Hrun & Hinv' & Ham').
    exists b', (s1 ++ s2). simpl. rewrite Hup. res_simpl. rewrite Hrun.
    rewrite app_assoc. repeat split; auto.
    rewrite length_app. lia.
Qed.

Lemma ammo_inv_nonneg b : ammo_inv b -> 0 <= Bow_ammo b.
Proof. unfold ammo_inv. destruct (Bow_state b); lia. Qed.

Lemma ammo_inv_new context : ammo_inv (Bow_new assets context).
Proof. unfold ammo_inv. simpl. unfold Bow_AMMO_MAX. lia. Qed.

Lemma Bow_update_time b l inputs :
  Bow_ROPE_STATES <= TIME_FORCE_FPS cls ->
  time_inv cls b ->
  exists b' shots,
    Bow_update cls assets Target_INSTANCE (b, l) inputs = Ok (b', l ++ shots)
    /\ time_inv cls b'
    /\ Forall (charged_shot cls) shots.
Proof.
  intros HT Hinv. unfold time_inv in *.
  assert (10 <= TIME_FORCE_FPS cls) as HT' by exact HT.
  destruct (Bow_state b) eqn:Hst.
  2:{ destruct (Bow_update_Bent b l inputs HT Hst)
        as (b' & shots & Hrun & _ & _ & Hbt & _ & _ & Hall).
      assert (1 <= Bow_bent_time b' <= TIME_FORCE_FPS cls) as Hk
        by (rewrite Hbt; destruct (Z.ltb_spec (Bow_bent_time b) (TIME_FORCE_FPS cls)); lia).
      exists b', shots. repeat split; try lia; auto.
      eapply Forall_impl; [exact Hall|]. intros a Ha. exists (Bow_bent_time b'). auto. }
  all: destruct (Bow_update_other b l inputs ltac:(congruence)) as (b' & Hrun & _ & Hb');
    exists b', []; rewrite app_nil_r; rewrite Hst in Hb';
    destruct (Bow_move_fields b) as (_ & _ & Hbt & _);
    (split; [exact Hrun | split; [| constructor]]); subst b'.
  - destruct (existsb _ _); simpl; lia.
  - unfold ReloadBowState_update. simpl. destruct (_ =? 0); simpl; lia.
  - lia.
Qed.

Lemma Bow_run_time frames : forall b l,
  Bow_ROPE_STATES <= TIME_FORCE_FPS cls ->
  time_inv cls b ->
  exists b' shots,
    Bow_run cls assets Target_INSTANCE (b, l) frames = Ok (b', l ++ shots)
    /\ time_inv cls b'
    /\ Forall (charged_shot cls) shots.
Proof.
  induction frames as [|inputs frames IH]; intros b l HT Hinv.
  - exists b, []. rewrite app_nil_r. simpl. repeat split; auto; apply Hinv.
  - destruct (Bow_update_time b l inputs HT Hinv) as (b1 & s1 & Hup & Hinv1 & Hall1).
    destruct (IH b1 (l ++ s1) HT Hinv1) as (b' & s2 & Hrun & Hinv' & Hall2).
    exists b', (s1 ++ s2). simpl. rewrite Hup. res_simpl. rewrite Hrun.
    rewrite app_assoc. repeat split; try apply Hinv'.
    apply Forall_app. split; assumption.
Qed.

Lemma time_inv_new context :
  0 <= TIME_FORCE_FPS cls -> time_inv cls (Bow_new assets context).
Proof. unfold time_inv. simpl. lia. Qed.

(** An Empty bow at rest stays as it is, whatever the input. *)
Lemma Bow_run_Empty frames : forall b l,
  Bow_state b = EmptyBowState ->
  Bow_speed b = (PyInt 0, PyInt 0) ->
  Bow_run cls assets Target_INSTANCE (b, l) frames = Ok (b, l).
Proof.
  induction frames as [|inputs frames IH]; intros b l Hst Hsp; [reflexivity|].
  simpl. unfold Bow_update. cbn [fst snd].
  assert (Bow_move b = b) as Hmove.
  { unfold Bow_move. rewrite Hsp. simpl.
    replace (move_ip (Bow_rect b) 0 0) with (Bow_rect b)
      by (destruct (Bow_rect b); unfold move_ip; simpl; f_equal; lia).
    destruct b as [r sp am st bt cd cx dr]. simpl in *. subst.
    destruct (_ || _); reflexivity. }
  rewrite Hmove, Hst. res_simpl. unfold EmptyBowState_update. simpl.
  apply IH; assumption.
Qed.

Lemma Bow_update_Bent_drawn b l inputs :
  Bow_ROPE_STATES <= TIME_FORCE_FPS cls ->
  Bow_state b = BentBowState ->
  exists b' shots,
    Bow_update cls assets Target_INSTANCE (b, l) inputs = Ok (b', l ++ shots)
    /\ Bow_drawn b'
       = replicate (length shots) (PyInt (-1)) ++ bend_drawn cls (Bow_bent_time b) ++ Bow_drawn b.
Proof.
  intros HT Hst.
  destruct (Bow_move_fields b) as (_ & Hs & Hbt & _ & _ & Hdr).
  unfold Bow_update. cbn [fst snd]. rewrite Hs, Hst.
  unfold BentBowState_update. cbn [fst snd].
  rewrite BentBowState_charge_spec by exact HT. res_simpl.
  set (b1 := if Bow_bent_time (Bow_move b) <? _ then _ else _).
  assert (Bow_drawn b1 = bend_drawn cls (Bow_bent_time b) ++ Bow_drawn b) as Hd1.
  { subst b1. unfold bend_drawn. rewrite Hbt.
    destruct (Bow_bent_time b <? TIME_FORCE_FPS cls); simpl; [|exact Hdr].
    destruct (float_is_integer _); simpl; rewrite Hdr; reflexivity. }
  assert (TIME_FORCE_FPS cls <> 0) as HT0 by (unfold Bow_ROPE_STATES in HT; lia).
  destruct (BentBowState_inputs_spec inputs b1 l HT0)
    as (b' & shots & Hrun & _ & _ & _ & _ & _ & _ & _ & Hdr').
  exists b', shots. rewrite Hrun. split; [reflexivity|].
  rewrite Hdr', Hd1. reflexivity.
Qed.

End BowFacts.

(* ================================================================== *)
(** ** The program's configuration *)

Lemma cls30_eq : cls30 = {| TIME_COOLDOWN_FPS := 30; TIME_FORCE_FPS := 21 |}.
Proof. vm_compute. reflexivity. Qed.

Lemma cls30_steps : Bow_ROPE_STATES <= TIME_FORCE_FPS cls30.
Proof. rewrite cls30_eq. unfold Bow_ROPE_STATES. simpl. lia. Qed.

(* ================================================================== *)
(** ** Ammunition *)

(** C1, as stated, fails: a charge-begin/charge-release pair that arrives
    during the cooldown of the shot before it is ignored, so two releases
    delivered while ammo > 0 cost one arrow, not two. *)
Lemma release_in_cooldown_is_free : ~ every_release_costs_one.
Proof.
  intros H.
  specialize (H [[down K_SPACE]; [up K_SPACE]; [down K_SPACE]; [up K_SPACE]]).
  vm_compute in H.
  specialize (H _ _ eq_refl eq_refl). discriminate H.
Qed.

(** C1 (amended).  From a fresh bow and over frames that carry at most one
    charge-release each, the run goes through, the ammo is never negative
    and is [AMMO_MAX] less the arrows shot; and a further frame takes one
    arrow exactly when the bow is Bent and the frame carries a
    charge-release, and none in every other state. *)
Theorem ammo_falls_by_one_per_shot
    (cls : BowClass) (assets : Assets) (Target_INSTANCE : option nat)
    (context : nat) (frames : list (list Event)) :
  Bow_ROPE_STATES <= TIME_FORCE_FPS cls ->
  Forall (fun inputs => count_space_up inputs <= 1) frames ->
  exists b shots,
    Bow_run cls assets Target_INSTANCE (Bow_new assets context, []) frames = Ok (b, shots)
    /\ 0 <= Bow_ammo b
    /\ Bow_ammo b = Bow_AMMO_MAX - Z.of_nat (length shots)
    /\ forall inputs l,
         count_space_up inputs <= 1 ->
         exists b' new,
           Bow_update cls assets Target_INSTANCE (b, l) inputs = Ok (b', l ++ new)
           /\ Bow_ammo b' = Bow_ammo b - fired b inputs
           /\ Z.of_nat (length new) = fired b inputs
           /\ 0 <= Bow_ammo b'.
Proof.
  intros HT Hone.
  destruct (Bow_run_ammo cls assets Target_INSTANCE frames (Bow_new assets context) []
              HT Hone (ammo_inv_new assets context))
    as (b & shots & Hrun & Hinv & Ham).
  exists b, shots. simpl in Hrun. repeat split; auto.
  - apply ammo_inv_nonneg. exact Hinv.
  - intros inputs l H1.
    destruct (Bow_update_ammo cls assets Target_INSTANCE b l inputs HT)
      as (b' & new & Hup & Ham' & Hlen & Hpres).
    exists b', new. repeat split; auto.
    apply ammo_inv_nonneg. apply Hpres; assumption.
Qed.

Lemma ammo_falls_by_one_per_shot_witness :
  exists b shots,
    Bow_run cls30 sample_assets (Some 0%nat) (Bow_new sample_assets 3, [])
            [[down K_SPACE]; [up K_SPACE]] = Ok (b, shots)
    /\ 0 <= Bow_ammo b
    /\ Bow_ammo b = Bow_AMMO_MAX - Z.of_nat (length shots)
    /\ forall inputs l,
         count_space_up inputs <= 1 ->
         exists b' new,
           Bow_update cls30 sample_assets (Some 0%nat) (b, l) inputs = Ok (b', l ++ new)
           /\ Bow_ammo b' = Bow_ammo b - fired b inputs
           /\ Z.of_nat (length new) = fired b inputs
           /\ 0 <= Bow_ammo b'.
Proof.
  apply (ammo_falls_by_one_per_shot cls30 sample_assets (Some 0%nat) 3%nat
           [[down K_SPACE]; [up K_SPACE]]).
  - exact cls30_steps.
  - repeat constructor; vm_compute; discriminate.
Defined.

(* ================================================================== *)
(** ** The Empty state *)

(** C4: the code at the failing input.  With one arrow left and the bow
    Bent, a frame whose batch is release, press, release shoots the last
    arrow (ammo 0, Empty) and then, in the same loop, one more: the ammo
    is -1, the state is Reload, and after the cooldown the bow shoots on. *)
Theorem second_release_leaves_Empty :
  summary (run30 (four_shots ++ [[down K_SPACE]]))
  = Some (BentBowState, 1, (PyInt 0, PyInt 8), 4%nat)
  /\ summary (run30 (four_shots ++ [[down K_SPACE]; [up K_SPACE]]))
     = Some (EmptyBowState, 0, (PyInt 0, PyInt 0), 5%nat)
  /\ summary (run30 (four_shots ++ [[down K_SPACE]; [up K_SPACE; down K_SPACE; up K_SPACE]]))
     = Some (ReloadBowState, -1, (PyInt 0, PyInt 0), 6%nat)
  /\ summary (run30 (four_shots ++ [[down K_SPACE]; [up K_SPACE; down K_SPACE; up K_SPACE]]
                     ++ replicate 30 [] ++ [[down K_SPACE]; [up K_SPACE]]))
     = Some (ReloadBowState, -2, (PyInt 0, PyInt 0), 7%nat).
Proof. vm_compute. repeat split; reflexivity. Qed.

(* ================================================================== *)
(** ** The Reload state *)

(** C8.  A frame in the Reload state takes exactly one from the cooldown
    countdown, makes the bow Normal exactly when the countdown is then
    zero, and does the same whatever the frame's inputs are. *)
Theorem Reload_counts_down
    (cls : BowClass) (assets : Assets) (Target_INSTANCE : option nat)
    (b : Bow) (l : list Arrow) (inputs : list Event) :
  Bow_state b = ReloadBowState ->
  exists b',
    Bow_update cls assets Target_INSTANCE (b, l) inputs = Ok (b', l)
    /\ Bow_cooldown b' = Bow_cooldown b - 1
    /\ (Bow_state b' = NormalBowState <-> Bow_cooldown b' = 0)
    /\ (Bow_state b' = ReloadBowState <-> Bow_cooldown b' <> 0)
    /\ Bow_ammo b' = Bow_ammo b
    /\ Bow_update cls assets Target_INSTANCE (b, l) inputs
       = Bow_update cls assets Target_INSTANCE (b, l) [].
Proof.
  intros Hst.
  destruct (Bow_move_fields b) as (Ha & Hs & _ & Hcd & _).
  unfold Bow_update. cbn [fst snd]. rewrite Hs, Hst.
  eexists. split; [reflexivity|].
  unfold ReloadBowState_update. cbn [Bow_cooldown set_Bow_cooldown].
  rewrite Hcd.
  destruct (Z.eqb_spec (Bow_cooldown b - 1) 0) as [E|NE]; simpl.
  - repeat split; auto; try congruence; try lia.
  - rewrite Hs, Hst. repeat split; auto; try congruence; try lia.
Qed.

Lemma Reload_counts_down_witness :
  exists b',
    Bow_update cls30 sample_assets (Some 0%nat)
               (ReloadBowState_new cls30 new_bow, []) [down K_SPACE]
    = Ok (b', [])
    /\ Bow_cooldown b' = Bow_cooldown (ReloadBowState_new cls30 new_bow) - 1
    /\ (Bow_state b' = NormalBowState <-> Bow_cooldown b' = 0)
    /\ (Bow_state b' = ReloadBowState <-> Bow_cooldown b' <> 0)
    /\ Bow_ammo b' = Bow_ammo (ReloadBowState_new cls30 new_bow)
    /\ Bow_update cls30 sample_assets (Some 0%nat)
                  (ReloadBowState_new cls30 new_bow, []) [down K_SPACE]
       = Bow_update cls30 sample_assets (Some 0%nat)
                    (ReloadBowState_new cls30 new_bow, []) [].
Proof.
  apply (Reload_counts_down cls30 sample_assets (Some 0%nat)
           (ReloadBowState_new cls30 new_bow) [] [down K_SPACE]).
  reflexivity.
Defined.

(* ================================================================== *)
(** ** Checks over a range of integers *)

Lemma forallb_Zrange (P : Z -> bool) (n : nat) : forall lo,
  forallb P (Zrange lo n) = true ->
  forall z, lo <= z < lo + Z.of_nat n -> P z = true.
Proof.
  induction n as [|n IH]; intros lo Hall z Hz; [lia|].
  simpl in Hall. apply andb_true_iff in Hall as [H0 Hrest].
  destruct (Z.eq_dec z lo) as [->|NE]; [exact H0|].
  apply (IH (lo + 1) Hrest). lia.
Qed.

(* ================================================================== *)
(** ** Redrawing while the bow is bent *)

(** C9, as stated, fails: at 30 frames per second the threshold is 21, the
    second frame of bending redraws the bow, and 2 is no multiple of 21/10. *)
Lemma redraw_at_two_frames : ~ redraw_at_exact_multiples.
Proof.
  intros H.
  specialize (H [[down K_SPACE]; []] _ _ [] _ _ eq_refl eq_refl eq_refl eq_refl).
  destruct H as [H _].
  destruct H as [k Hk]; [vm_compute; discriminate|].
  match type of Hk with
  | ?t * _ = _ => replace t with 2 in Hk by (vm_compute; reflexivity)
  end.
  rewrite cls30_eq in Hk. unfold Bow_ROPE_STATES in Hk.
  cbn [TIME_FORCE_FPS] in Hk. lia.
Qed.

Lemma cls30_whole_steps bt :
  0 <= bt < 21 ->
  float_is_integer (bend_step cls30 (bt + 1))
  = ((bt + 1) mod (TIME_FORCE_FPS cls30 / Bow_ROPE_STATES) =? 0).
Proof.
  intros Hbt.
  apply (forallb_Zrange
           (fun z => Bool.eqb (float_is_integer (bend_step cls30 (z + 1)))
                              ((z + 1) mod (TIME_FORCE_FPS cls30 / Bow_ROPE_STATES) =? 0))
           21 0) in Hbt.
  - apply Bool.eqb_prop. exact Hbt.
  - vm_compute. reflexivity.
Qed.

(** C9 (amended).  At the program's 30 frames per second, a frame in the
    Bent state draws one picture with the rope straight for every shot of
    the frame and, before them, one bent picture exactly when the frame
    incremented the accumulation time (it was below the threshold) and the
    incremented time is a multiple of the floor of charge duration by rope
    states, 21 // 10 = 2. *)
Theorem Bent_redraws_on_whole_steps
    (assets : Assets) (Target_INSTANCE : option nat)
    (b : Bow) (l : list Arrow) (inputs : list Event) :
  Bow_state b = BentBowState ->
  0 <= Bow_bent_time b ->
  exists b' shots bend,
    Bow_update cls30 assets Target_INSTANCE (b, l) inputs = Ok (b', l ++ shots)
    /\ Bow_drawn b' = replicate (length shots) (PyInt (-1)) ++ bend ++ Bow_drawn b
    /\ (bend = [PyFloat (bend_step cls30 (Bow_bent_time b + 1))] \/ bend = [])
    /\ (bend <> []
        <-> Bow_bent_time b < TIME_FORCE_FPS cls30
            /\ (Bow_bent_time b + 1) mod (TIME_FORCE_FPS cls30 / Bow_ROPE_STATES) = 0).
Proof.
  intros Hst Hbt.
  destruct (Bow_update_Bent_drawn cls30 assets Target_INSTANCE b l inputs cls30_steps Hst)
    as (b' & shots & Hup & Hdr).
  exists b', shots, (bend_drawn cls30 (Bow_bent_time b)).
  split; [exact Hup|]. split; [exact Hdr|].
  unfold bend_drawn.
  destruct (Z.ltb_spec (Bow_bent_time b) (TIME_FORCE_FPS cls30)) as [Hlt|Hge];
    [rewrite andb_true_l | rewrite andb_false_l].
  - rewrite cls30_whole_steps by (rewrite cls30_eq in Hlt; cbn [TIME_FORCE_FPS] in Hlt; lia).
    destruct (Z.eqb_spec ((Bow_bent_time b + 1) mod (TIME_FORCE_FPS cls30 / Bow_ROPE_STATES)) 0)
      as [E|NE].
    + split; [left; reflexivity|]. split; [intros _; split; assumption | discriminate].
    + split; [right; reflexivity|]. split; [congruence | intros [_ E]; contradiction].
  - split; [right; reflexivity|]. split; [congruence | intros [Hlt _]; lia].
Qed.

Lemma Bent_redraws_on_whole_steps_witness :
  exists b' shots bend,
    Bow_update cls30 sample_assets (Some 0%nat) (BentBowState_new new_bow, []) []
    = Ok (b', [] ++ shots)
    /\ Bow_drawn b' = replicate (length shots) (PyInt (-1)) ++ bend
                      ++ Bow_drawn (BentBowState_new new_bow)
    /\ (bend = [PyFloat (bend_step cls30 (Bow_bent_time (BentBowState_new new_bow) + 1))]
        \/ bend = [])
    /\ (bend <> []
        <-> Bow_bent_time (BentBowState_new new_bow) < TIME_FORCE_FPS cls30
            /\ (Bow_bent_time (BentBowState_new new_bow) + 1)
               mod (TIME_FORCE_FPS cls30 / Bow_ROPE_STATES) = 0).
Proof.
  apply (Bent_redraws_on_whole_steps sample_assets (Some 0%nat)
           (BentBowState_new new_bow) [] []).
  - reflexivity.
  - simpl. lia.
Defined.

(* ================================================================== *)
(** ** The force of a shot *)

Lemma cls30_force t :
  0 <= t <= 21 ->
  force_at cls30 t = force_formula cls30 t
  /\ fle (float_of_int Bow_FORCE_MIN) (force_at cls30 t)
  /\ fle (force_at cls30 t) (float_of_int Bow_FORCE_MAX)
  /\ forall t', t <= t' <= 21 -> fle (force_at cls30 t) (force_at cls30 t').
Proof.
  intros Ht.
  assert (force_check t = true) as Hc.
  { apply (forallb_Zrange force_check 22 0); [vm_compute; reflexivity | lia]. }
  unfold force_check in Hc.
  repeat (apply andb_true_iff in Hc as [Hc ?]).
  repeat split; try assumption.
  - apply bool_decide_eq_true in Hc. exact Hc.
  - intros t' Ht'.
    apply (forallb_Zrange (fun t' => SFleb (force_at cls30 t) (force_at cls30 t'))
             (Z.to_nat (22 - t)) t); [assumption | lia].
Qed.

Lemma cls30_charged k :
  1 <= k <= 21 ->
  fle (least_force cls30) (force_at cls30 k)
  /\ flt (float_of_int Bow_FORCE_MIN) (force_at cls30 k).
Proof.
  intros Hk.
  pose (P := fun k => SFleb (least_force cls30) (force_at cls30 k)
                      && SFltb (float_of_int Bow_FORCE_MIN) (force_at cls30 k)).
  assert (P k = true) as HP.
  { apply (forallb_Zrange P 21 1); [vm_compute; reflexivity | lia]. }
  unfold P in HP. apply andb_true_iff in HP as [H1 H2]. split; assumption.
Qed.

Lemma cls30_time : TIME_FORCE_FPS cls30 = 21.
Proof. rewrite cls30_eq. reflexivity. Qed.

(** C3.  At the program's 30 frames per second (threshold 21): for a bow
    whose accumulation time is in [0, threshold], [force] returns the float
    of FORCE_MIN + (FORCE_MAX - FORCE_MIN) * (t / threshold), which lies
    between FORCE_MIN and FORCE_MAX and is at most the force of any bow
    with a later time in the range; and the state machine keeps the
    accumulation time of a session's bow in that range. *)
Theorem force_is_linear_and_clamped
    (assets : Assets) (Target_INSTANCE : option nat) (context : nat)
    (frames : list (list Event)) (b b2 : Bow) :
  0 <= Bow_bent_time b ->
  Bow_bent_time b <= Bow_bent_time b2 ->
  Bow_bent_time b2 <= TIME_FORCE_FPS cls30 ->
  (exists f f2,
      Bow_force cls30 b = Ok f
      /\ Bow_force cls30 b2 = Ok f2
      /\ f = force_formula cls30 (Bow_bent_time b)
      /\ fle (float_of_int Bow_FORCE_MIN) f
      /\ fle f (float_of_int Bow_FORCE_MAX)
      /\ fle f f2)
  /\ (exists b' shots,
         Bow_run cls30 assets Target_INSTANCE (Bow_new assets context, []) frames
         = Ok (b', shots)
         /\ 0 <= Bow_bent_time b' <= TIME_FORCE_FPS cls30).
Proof.
  intros H0 Hle HT. split.
  - rewrite cls30_time in HT.
    assert (TIME_FORCE_FPS cls30 <> 0) as Hnz by (rewrite cls30_time; lia).
    exists (force_at cls30 (Bow_bent_time b)), (force_at cls30 (Bow_bent_time b2)).
    rewrite !Bow_force_ok by exact Hnz.
    destruct (cls30_force (Bow_bent_time b) ltac:(lia)) as (Heq & Hlo & Hhi & Hmono).
    repeat split; auto; try (apply Hmono; lia).
  - destruct (Bow_run_time cls30 assets Target_INSTANCE frames (Bow_new assets context) []
                cls30_steps) as (b' & shots & Hrun & Hinv & _).
    + apply time_inv_new. rewrite cls30_time. lia.
    + exists b', shots. split; [exact Hrun | exact Hinv].
Qed.

Lemma force_is_linear_and_clamped_witness :
  (exists f f2,
      Bow_force cls30 (set_Bow_bent_time 7 new_bow) = Ok f
      /\ Bow_force cls30 (set_Bow_bent_time 21 new_bow) = Ok f2
      /\ f = force_formula cls30 (Bow_bent_time (set_Bow_bent_time 7 new_bow))
      /\ fle (float_of_int Bow_FORCE_MIN) f
      /\ fle f (float_of_int Bow_FORCE_MAX)
      /\ fle f f2)
  /\ (exists b' shots,
         Bow_run cls30 sample_assets (Some 0%nat) (Bow_new sample_assets 3, [])
                 [[down K_SPACE]; []; [up K_SPACE]]
         = Ok (b', shots)
         /\ 0 <= Bow_bent_time b' <= TIME_FORCE_FPS cls30).
Proof.
  apply (force_is_linear_and_clamped sample_assets (Some 0%nat) 3%nat
           [[down K_SPACE]; []; [up K_SPACE]]
           (set_Bow_bent_time 7 new_bow) (set_Bow_bent_time 21 new_bow)).
  - simpl. lia.
  - simpl. lia.
  - rewrite cls30_time. simpl. lia.
Defined.

(** C10.  At the program's 30 frames per second, every arrow that a
    session's bow shoots has the force of an accumulation time [k] of at
    least one frame, so its horizontal speed is at least
    FORCE_MIN + (FORCE_MAX - FORCE_MIN) / threshold and above FORCE_MIN. *)
Theorem every_arrow_is_charged
    (assets : Assets) (Target_INSTANCE : option nat) (context : nat)
    (frames : list (list Event)) :
  exists b shots,
    Bow_run cls30 assets Target_INSTANCE (Bow_new assets context, []) frames = Ok (b, shots)
    /\ Forall (fun a => exists k f,
                   1 <= k <= TIME_FORCE_FPS cls30
                   /\ Bow_force cls30 (set_Bow_bent_time k b) = Ok f
                   /\ Arrow_speed a = (PyFloat f, PyInt 0)
                   /\ fle (least_force cls30) f
                   /\ flt (float_of_int Bow_FORCE_MIN) f)
              shots.
Proof.
  destruct (Bow_run_time cls30 assets Target_INSTANCE frames (Bow_new assets context) []
              cls30_steps) as (b & shots & Hrun & _ & Hall).
  - apply time_inv_new. rewrite cls30_time. lia.
  - exists b, shots. split; [exact Hrun|].
    eapply Forall_impl; [exact Hall|].
    intros a (k & Hk & Hsp). exists k, (force_at cls30 k).
    assert (TIME_FORCE_FPS cls30 <> 0) as Hnz by (rewrite cls30_time; lia).
    rewrite Bow_force_ok by exact Hnz.
    destruct (cls30_charged k) as [H1 H2]; [rewrite cls30_time in Hk; lia|].
    repeat split; auto; apply Hk.
Qed.


(* ================================================================== *)
(** ** C2: hits *)

Lemma collidelist_Target_hitbox h t :
  collidelist h (Target_hitbox t)
  = if colliderect h (Target_inner_hit t) then 0
    else if colliderect h (Target_middle_hit t) then 1
    else if colliderect h (Target_outer_hit t) then 2
    else -1.
Proof. reflexivity. Qed.

Lemma score_of_insert w c g g' :
  contexts w !! c = Some (Game g) ->
  score_of (set_contexts (<[c := Game g']> (contexts w)) w) c = Some (GameContext_score g').
Proof.
  intros H. unfold score_of. cbn [contexts set_contexts].
  rewrite list_lookup_insert_eq; [reflexivity|].
  apply lookup_lt_Some in H. exact H.
Qed.

(** C2.  A moving arrow whose hitbox, after the frame's move, meets a zone:
    the update adds to the score of the arrow's game context the points
    of the first zone met in the order inner (3), middle (2), outer (1),
    changes no other context, stops the arrow (speed zero, picture
    "stopped") and kills it; the group drops the arrow, and a further
    update of the stopped arrow reports nothing. *)
Theorem hit_scores_first_zone_once
    (w : World) (a : Arrow) (ti : nat) (t : Target) (g : GameContext) (points : Z) :
  speed_is_zero (Arrow_speed a) = false ->
  Arrow_target a = Some ti ->
  targets w !! ti = Some t ->
  contexts w !! Arrow_context a = Some (Game g) ->
  zone_points (Arrow_next_hitbox a) t = Some points ->
  exists w' a',
    Arrow_update w a = Ok (w', a')
    /\ score_of w' (Arrow_context a) = Some (GameContext_score g + points)
    /\ (forall c, c <> Arrow_context a -> contexts w' !! c = contexts w !! c)
    /\ Arrow_speed a' = (PyInt 0, PyInt 0)
    /\ Arrow_img a' = STOPPED
    /\ Arrow_alive a' = false
    /\ Arrows_update w [a] = Ok (w', [])
    /\ Arrow_update w' a' = Ok (w', a').
Proof.
  intros Hsp Hti Ht Hc Hz.
  assert (exists zone, collidelist (Arrow_next_hitbox a) (Target_hitbox t) = zone
                       /\ zone <> -1
                       /\ SCORE_TABLE !! Z.to_nat zone = Some points) as (zone & Hzone & Hne & Htab).
  { rewrite collidelist_Target_hitbox. unfold zone_points in Hz.
    destruct (colliderect _ (Target_inner_hit t)).
    - exists 0. injection Hz as <-. split; [reflexivity | split; [lia | reflexivity]].
    - destruct (colliderect _ (Target_middle_hit t)).
      + exists 1. injection Hz as <-. split; [reflexivity | split; [lia | reflexivity]].
      + destruct (colliderect _ (Target_outer_hit t)); [|discriminate].
        exists 2. injection Hz as <-. split; [reflexivity | split; [lia | reflexivity]]. }
  assert (Arrow_update w a
          = Ok (set_contexts (<[Arrow_context a :=
                                  Game {| GameContext_score := GameContext_score g + points;
                                          GameContext_drawn := GameContext_drawn g |}]>
                                (contexts w)) w,
                {| Arrow_rect := Arrow_next_rect a; Arrow_speed := (PyInt 0, PyInt 0);
                   Arrow_img := STOPPED; Arrow_hitbox := Arrow_next_hitbox a;
                   Arrow_target := Arrow_target a; Arrow_context := Arrow_context a;
                   Arrow_alive := false |})) as Hup.
  { unfold Arrow_update. rewrite Hsp. cbn [negb fst snd].
    rewrite Hti. cbn [mbind option_bind]. rewrite Ht.
    fold (Arrow_next_hitbox a). fold (Arrow_next_rect a).
    rewrite Hzone.
    destruct (Z.eqb_spec zone (-1)) as [E|_]; [contradiction|]. cbn [negb].
    unfold GameContext_update_score. rewrite Hc, Htab. reflexivity. }
  eexists. eexists. split; [exact Hup|].
  split; [apply (score_of_insert w _ g); exact Hc|].
  split.
  { intros c Hcne. cbn [contexts set_contexts].
    apply list_lookup_insert_ne. congruence. }
  repeat split.
  cbn [Arrows_update]. rewrite Hup. reflexivity.
Qed.

Lemma hit_scores_first_zone_once_witness :
  exists w' a',
    Arrow_update sample_world (sample_arrow (600, 300)) = Ok (w', a')
    /\ score_of w' (Arrow_context (sample_arrow (600, 300)))
       = Some (GameContext_score {| GameContext_score := 0; GameContext_drawn := false |} + 3)
    /\ (forall c, c <> Arrow_context (sample_arrow (600, 300)) ->
                  contexts w' !! c = contexts sample_world !! c)
    /\ Arrow_speed a' = (PyInt 0, PyInt 0)
    /\ Arrow_img a' = STOPPED
    /\ Arrow_alive a' = false
    /\ Arrows_update sample_world [sample_arrow (600, 300)] = Ok (w', [])
    /\ Arrow_update w' a' = Ok (w', a').
Proof.
  apply (hit_scores_first_zone_once sample_world (sample_arrow (600, 300)) 0%nat
           (Target_new sample_assets)
           {| GameContext_score := 0; GameContext_drawn := false |} 3).
  - vm_compute. reflexivity.
  - reflexivity.
  - reflexivity.
  - reflexivity.
  - vm_compute. reflexivity.
Defined.

(* ================================================================== *)
(** ** C6: out of bounds *)

Lemma Arrow_wf_new assets Target_INSTANCE context pos force :
  Arrow_wf (Arrow_new assets Target_INSTANCE context pos force).
Proof. reflexivity. Qed.

Lemma Arrow_wf_update w a w' a' :
  Arrow_wf a -> Arrow_update w a = Ok (w', a') -> Arrow_wf a'.
Proof.
  unfold Arrow_wf, Arrow_update. intros Hwf H.
  destruct (negb (speed_is_zero (Arrow_speed a))).
  - destruct (Arrow_target a ≫= _) as [t|]; [|discriminate].
    destruct (negb (_ =? -1)).
    + destruct (GameContext_update_score _ _ _) as [w1|]; [|discriminate].
      unfold mbind, res_bind, mret, res_ret in H. injection H as _ <-.
      cbn [Arrow_hitbox Arrow_rect fst snd]. rewrite Hwf.
      unfold move_ip, Rect_at, topleft. cbn. f_equal; lia.
    + unfold mret, res_ret in H. injection H as _ <-.
      cbn [Arrow_hitbox Arrow_rect fst snd]. rewrite Hwf.
      unfold move_ip, Rect_at, topleft. cbn. f_equal; lia.
  - unfold mret, res_ret in H. injection H as _ <-. exact Hwf.
Qed.

Lemma colliderect_false_right a b :
  0 < width a -> 0 < width b -> left b + width b <= left a -> colliderect a b = false.
Proof.
  intros Ha Hb H. unfold colliderect.
  destruct (_ || _); [reflexivity|].
  assert ((Z.min (left a) (left a + width a) <? Z.max (left b) (left b + width b)) = false) as ->.
  { apply Z.ltb_ge. lia. }
  reflexivity.
Qed.

Lemma colliderect_false_below a b :
  0 < height a -> 0 < height b -> top b + height b <= top a -> colliderect a b = false.
Proof.
  intros Ha Hb H. unfold colliderect.
  destruct (_ || _); [reflexivity|].
  assert ((Z.min (top a) (top a + height a) <? Z.max (top b) (top b + height b)) = false) as ->.
  { apply Z.ltb_ge. lia. }
  rewrite andb_false_r. reflexivity.
Qed.

(** C6.  A moving arrow whose picture, after the frame's move, is beyond
    the right or the bottom bound of the screen is killed by that update
    and the world, with every score in it, is as before; the group drops
    the arrow.  The arrow's hitbox is at its offset from the picture, as
    [Arrow.__init__] and [update] keep it, and the target's picture is at
    least 308 high (it holds an area 399 high). *)
Theorem out_of_bounds_arrow_dies_unscored
    (assets : Assets) (w : World) (a : Arrow) (ti : nat) :
  speed_is_zero (Arrow_speed a) = false ->
  Arrow_wf a ->
  Arrow_target a = Some ti ->
  targets w !! ti = Some (Target_new assets) ->
  0 <= fst (target_size assets) ->
  308 <= snd (target_size assets) ->
  SCREEN_WIDTH < left (Arrow_next_rect a) \/ SCREEN_HEIGHT < top (Arrow_next_rect a) ->
  exists a',
    Arrow_update w a = Ok (w, a')
    /\ Arrow_alive a' = false
    /\ Arrow_rect a' = Arrow_next_rect a
    /\ Arrows_update w [a] = Ok (w, []).
Proof.
  intros Hsp Hwf Hti Ht Hw Hh Hout.
  assert (zone_points (Arrow_next_hitbox a) (Target_new assets) = None) as Hz.
  { unfold zone_points.
    assert (forall i, (i < 3)%nat ->
              colliderect (Arrow_next_hitbox a)
                (move_ip (Target_area i) (SCREEN_WIDTH - fst (target_size assets))
                         (SCREEN_HEIGHT - snd (target_size assets))) = false) as Hno.
    { intros i Hi. unfold Arrow_next_hitbox. rewrite Hwf.
      unfold Arrow_next_rect in Hout.
      destruct Hout as [Hx|Hy].
      - apply colliderect_false_right.
        + cbn. lia.
        + destruct i as [|[|[|i]]]; cbn; lia.
        + unfold SCREEN_WIDTH in *.
          destruct i as [|[|[|i]]]; cbn in *; lia.
      - apply colliderect_false_below.
        + cbn. lia.
        + destruct i as [|[|[|i]]]; cbn; lia.
        + unfold SCREEN_HEIGHT in *.
          destruct i as [|[|[|i]]]; cbn in *; lia. }
    unfold Target_new. cbn [Target_inner_hit Target_middle_hit Target_outer_hit].
    unfold Target_INNER_I, Target_MIDDLE_I, Target_OUTER_I.
    rewrite !Hno by lia. reflexivity. }
  assert (Arrow_update w a
          = Ok (w, {| Arrow_rect := Arrow_next_rect a;
                      Arrow_speed := (fst (Arrow_speed a),
                                      num_add (snd (Arrow_speed a)) GRAVITY);
                      Arrow_img := Arrow_img a; Arrow_hitbox := Arrow_next_hitbox a;
                      Arrow_target := Arrow_target a; Arrow_context := Arrow_context a;
                      Arrow_alive := false |})) as Hup.
  { unfold Arrow_update. rewrite Hsp. cbn [negb fst snd].
    rewrite Hti. cbn [mbind option_bind]. rewrite Ht.
    fold (Arrow_next_hitbox a). fold (Arrow_next_rect a).
    rewrite collidelist_Target_hitbox.
    unfold zone_points in Hz.
    destruct (colliderect _ (Target_inner_hit _)); [discriminate|].
    destruct (colliderect _ (Target_middle_hit _)); [discriminate|].
    destruct (colliderect _ (Target_outer_hit _)); [discriminate|].
    cbn [Z.eqb negb].
    assert ((SCREEN_WIDTH <? left (Arrow_next_rect a))
            || (SCREEN_HEIGHT <? top (Arrow_next_rect a)) = true) as ->.
    { apply orb_true_iff. destruct Hout; [left | right]; apply Z.ltb_lt; assumption. }
    reflexivity. }
  eexists. split; [exact Hup|].
  repeat split.
  cbn [Arrows_update]. rewrite Hup. reflexivity.
Qed.

Lemma out_of_bounds_arrow_dies_unscored_witness :
  exists a',
    Arrow_update sample_world (sample_arrow (840, 300)) = Ok (sample_world, a')
    /\ Arrow_alive a' = false
    /\ Arrow_rect a' = Arrow_next_rect (sample_arrow (840, 300))
    /\ Arrows_update sample_world [sample_arrow (840, 300)] = Ok (sample_world, []).
Proof.
  apply (out_of_bounds_arrow_dies_unscored sample_assets sample_world
           (sample_arrow (840, 300)) 0%nat).
  - vm_compute. reflexivity.
  - apply Arrow_wf_new.
  - reflexivity.
  - reflexivity.
  - simpl. lia.
  - simpl. lia.
  - left. vm_compute. reflexivity.
Defined.


(* ================================================================== *)
(** ** C5: the target's areas *)

(** C5, as stated, fails: the inner area begins 9 pixels left of the
    middle area, so it is not contained in it. *)
Lemma inner_area_sticks_out : ~ targets_are_nested.
Proof.
  intros H. specialize (H sample_assets). vm_compute in H. discriminate H.
Qed.

Section TargetsStay.

Variable cls : BowClass.
Variable assets : Assets.

Lemma GameContext_update_score_targets self zone w w' :
  GameContext_update_score self zone w = Ok w' -> targets w' = targets w.
Proof.
  unfold GameContext_update_score. intros H.
  destruct (contexts w !! self) as [[g| |]|]; try discriminate.
  destruct (SCORE_TABLE !! Z.to_nat zone); [|discriminate].
  injection H as <-. reflexivity.
Qed.

Lemma Arrow_update_targets w a w' a' :
  Arrow_update w a = Ok (w', a') -> targets w' = targets w.
Proof.
  unfold Arrow_update. intros H.
  destruct (negb (speed_is_zero (Arrow_speed a))).
  - destruct (Arrow_target a ≫= _) as [t|]; [|discriminate].
    destruct (negb (_ =? -1)).
    + destruct (GameContext_update_score _ _ _) as [w1|] eqn:E; [|discriminate].
      unfold mbind, res_bind, mret, res_ret in H. injection H as <- _.
      eapply GameContext_update_score_targets. exact E.
    + unfold mret, res_ret in H. injection H as <- _. reflexivity.
  - unfold mret, res_ret in H. injection H as <- _. reflexivity.
Qed.

Lemma Arrows_update_targets group : forall w w' group',
  Arrows_update w group = Ok (w', group') -> targets w' = targets w.
Proof.
  induction group as [|a group IH]; intros w w' group' H.
  - injection H as <- _. reflexivity.
  - cbn [Arrows_update] in H.
    destruct (Arrow_update w a) as [[w1 a1]|] eqn:E1; [|discriminate].
    unfold mbind, res_bind in H.
    destruct (Arrows_update w1 group) as [[w2 rest]|] eqn:E2; [|discriminate].
    unfold mret, res_ret in H. injection H as <- _.
    rewrite (IH _ _ _ E2). eapply Arrow_update_targets. exact E1.
Qed.

Lemma set_Game_drawn_targets self d w : targets (set_Game_drawn self d w) = targets w.
Proof.
  unfold set_Game_drawn. destruct (contexts w !! self) as [[g| |]|]; reflexivity.
Qed.

Lemma GameContext_update_targets self w inputs w' instr :
  GameContext_update cls assets self w inputs = Ok (w', instr) -> targets w' = targets w.
Proof.
  unfold GameContext_update. intros H.
  destruct (Bow_INSTANCE (set_Game_drawn self true w)) as [bow|]; [|discriminate].
  destruct (Bow_update _ _ _ _ _) as [[bow' INSTANCES]|]; [|discriminate].
  unfold mbind, res_bind in H.
  destruct (Arrows_update _ _) as [[w2 INSTANCES']|] eqn:E; [|discriminate].
  apply Arrows_update_targets in E. cbn [targets set_Arrow_INSTANCES set_Bow_INSTANCE] in E.
  rewrite set_Game_drawn_targets in E.
  destruct (existsb _ inputs); unfold mret, res_ret in H; injection H as <- _.
  - rewrite set_Game_drawn_targets. exact E.
  - exact E.
Qed.

Lemma Context_update_targets self w inputs w' instr :
  Context_update cls assets self w inputs = Ok (w', instr) -> targets w' = targets w.
Proof.
  unfold Context_update. intros H.
  destruct self as [addr|]; [|discriminate].
  destruct (contexts w !! addr) as [[g|m|]|]; try discriminate.
  - eapply GameContext_update_targets. exact H.
  - destruct (CustomMenu_update m inputs) as [[m' i]|]; [|discriminate].
    unfold mbind, res_bind, mret, res_ret in H. injection H as <- _. reflexivity.
Qed.

(** a context change makes at most one target, and changes none *)
Lemma context_change_targets w dict instr w' dict' c :
  context_change assets w dict instr = Ok (w', dict', c) ->
  exists n, targets w' = targets w ++ replicate n (Target_new assets).
Proof.
  unfold context_change. intros H.
  destruct (split_space instr) as [|change [|option [|? ?]]]; try discriminate.
  destruct (String.eqb option "Switch").
  - destruct (dict !! change); [|discriminate].
    injection H as <- _ _. exists 0%nat. cbn. rewrite app_nil_r. reflexivity.
  - destruct (String.eqb option "New"); [|discriminate].
    destruct (dict !! change) as [entry|]; [|discriminate].
    destruct (cont_class entry); cbn in H; injection H as <- _ _.
    + exists 0%nat. cbn. rewrite app_nil_r. reflexivity.
    + exists 0%nat. cbn. rewrite app_nil_r. reflexivity.
    + exists 1%nat. reflexivity.
    + exists 0%nat. cbn. rewrite app_nil_r. reflexivity.
Qed.

Lemma collect_events_targets events : forall app inputs app' inputs',
  collect_events assets app events inputs = Ok (app', inputs') ->
  exists n, targets (world app') = targets (world app) ++ replicate n (Target_new assets).
Proof.
  induction events as [|event events IH]; intros app inputs app' inputs' H.
  - injection H as <- _. exists 0%nat. cbn. rewrite app_nil_r. reflexivity.
  - cbn [collect_events] in H.
    destruct (is_type event QUIT).
    + destruct (context_change _ _ _ _) as [[[w dict] c]|] eqn:E; [|discriminate].
      unfold mbind, res_bind in H.
      apply context_change_targets in E as [n Hn].
      apply IH in H as [m Hm]. cbn [world] in Hm.
      exists (n + m)%nat. rewrite Hm, Hn, replicate_add, app_assoc. reflexivity.
    + destruct (_ || _); eapply IH; exact H.
Qed.

Lemma main_frame_targets app events app' :
  main_frame cls assets app events = Ok app' ->
  exists n, targets (world app') = targets (world app) ++ replicate n (Target_new assets).
Proof.
  unfold main_frame. intros H.
  destruct (collect_events _ _ _ _) as [[app1 inputs]|] eqn:E1; [|discriminate].
  unfold mbind, res_bind in H.
  apply collect_events_targets in E1 as [n Hn].
  destruct (Context_update _ _ _ _ _) as [[w instr]|] eqn:E2; [|discriminate].
  apply Context_update_targets in E2.
  destruct instr as [instr|].
  - destruct (String.eqb instr _).
    + unfold mret, res_ret in H. injection H as <-. cbn [world].
      exists n. rewrite E2. exact Hn.
    + destruct (context_change _ _ _ _) as [[[w2 dict] c]|] eqn:E3; [|discriminate].
      unfold mret, res_ret in H. injection H as <-. cbn [world].
      apply context_change_targets in E3 as [m Hm].
      exists (n + m)%nat. rewrite Hm, E2, Hn, replicate_add, app_assoc. reflexivity.
  - unfold mret, res_ret in H. injection H as <-. cbn [world].
    exists n. rewrite E2. exact Hn.
Qed.

Lemma main_loop_targets frames : forall app app',
  main_loop cls assets app frames = Ok app' ->
  exists n, targets (world app') = targets (world app) ++ replicate n (Target_new assets).
Proof.
  induction frames as [|events frames IH]; intros app app' H.
  - injection H as <-. exists 0%nat. cbn. rewrite app_nil_r. reflexivity.
  - cbn [main_loop] in H.
    destruct (main_frame cls assets app events) as [app1|] eqn:E; [|discriminate].
    unfold mbind, res_bind in H.
    apply main_frame_targets in E as [n Hn].
    apply IH in H as [m Hm].
    exists (n + m)%nat. rewrite Hm, Hn, replicate_add, app_assoc. reflexivity.
Qed.

End TargetsStay.

(** C5 (amended).  For every size of the target's picture the middle area
    is contained in the outer one, and the inner area is not contained in
    the middle one: it begins 9 pixels to its left, ends inside it and is
    inside it from top to bottom, so the two overlap.  Over any run of the
    main loop every target that exists stays as it is, and the run only
    adds targets made by [Target.__init__]. *)
Theorem Target_areas_overlap_and_stay
    (cls : BowClass) (assets : Assets) (app app' : App) (frames : list (list Event)) :
  main_loop cls assets app frames = Ok app' ->
  contains (Target_outer_hit (Target_new assets)) (Target_middle_hit (Target_new assets)) = true
  /\ contains (Target_middle_hit (Target_new assets)) (Target_inner_hit (Target_new assets)) = false
  /\ left (Target_inner_hit (Target_new assets)) + 9 = left (Target_middle_hit (Target_new assets))
  /\ left (Target_inner_hit (Target_new assets)) + width (Target_inner_hit (Target_new assets))
     <= left (Target_middle_hit (Target_new assets)) + width (Target_middle_hit (Target_new assets))
  /\ top (Target_middle_hit (Target_new assets)) <= top (Target_inner_hit (Target_new assets))
  /\ top (Target_inner_hit (Target_new assets)) + height (Target_inner_hit (Target_new assets))
     <= top (Target_middle_hit (Target_new assets)) + height (Target_middle_hit (Target_new assets))
  /\ colliderect (Target_inner_hit (Target_new assets)) (Target_middle_hit (Target_new assets)) = true
  /\ (forall i t, targets (world app) !! i = Some t -> targets (world app') !! i = Some t)
  /\ exists n, targets (world app') = targets (world app) ++ replicate n (Target_new assets).
Proof.
  intros Hrun.
  apply main_loop_targets in Hrun as [n Hn].
  unfold Target_new, contains, colliderect, move_ip, Target_area, Rect_at,
    Target_INNER_I, Target_MIDDLE_I, Target_OUTER_I, SCREEN_WIDTH, SCREEN_HEIGHT.
  cbn [Target_inner_hit Target_middle_hit Target_outer_hit left top width height
       nth Target_AREAS fst snd].
  split.
  { repeat (apply andb_true_intro; split); try (apply Z.leb_le; lia); apply Z.ltb_lt; lia. }
  split.
  { match goal with
    | |- context [?a <=? ?b] =>
        assert ((a <=? b) = false) as -> by (apply Z.leb_gt; lia)
    end.
    reflexivity. }
  split; [lia|]. split; [lia|]. split; [lia|]. split; [lia|].
  split.
  { cbn [Z.eqb orb].
    repeat (apply andb_true_intro; split); apply Z.ltb_lt; lia. }
  split.
  - intros i t Hi. rewrite Hn. apply lookup_app_l_Some. exact Hi.
  - exists n. exact Hn.
Qed.

Lemma Target_areas_overlap_and_stay_witness :
  contains (Target_outer_hit (Target_new sample_assets))
           (Target_middle_hit (Target_new sample_assets)) = true
  /\ contains (Target_middle_hit (Target_new sample_assets))
              (Target_inner_hit (Target_new sample_assets)) = false
  /\ left (Target_inner_hit (Target_new sample_assets)) + 9
     = left (Target_middle_hit (Target_new sample_assets))
  /\ left (Target_inner_hit (Target_new sample_assets))
     + width (Target_inner_hit (Target_new sample_assets))
     <= left (Target_middle_hit (Target_new sample_assets))
        + width (Target_middle_hit (Target_new sample_assets))
  /\ top (Target_middle_hit (Target_new sample_assets))
     <= top (Target_inner_hit (Target_new sample_assets))
  /\ top (Target_inner_hit (Target_new sample_assets))
     + height (Target_inner_hit (Target_new sample_assets))
     <= top (Target_middle_hit (Target_new sample_assets))
        + height (Target_middle_hit (Target_new sample_assets))
  /\ colliderect (Target_inner_hit (Target_new sample_assets))
                 (Target_middle_hit (Target_new sample_assets)) = true
  /\ (forall i t, targets (world (main_init sample_assets)) !! i = Some t ->
                  targets (world first_game) !! i = Some t)
  /\ exists n, targets (world first_game)
               = targets (world (main_init sample_assets))
                 ++ replicate n (Target_new sample_assets).
Proof.
  apply (Target_areas_overlap_and_stay cls30 sample_assets (main_init sample_assets)
           first_game [[down K_RETURN]; []]).
  vm_compute. reflexivity.
Defined.

(* ================================================================== *)
(** ** C7: switching contexts *)

(** "Menu Switch" gives the instance that the registry holds and changes
    neither the world nor the registry. *)
Lemma Menu_Switch_same_instance (assets : Assets) (w : World)
    (dict : gmap string ContextEntry) (entry : ContextEntry) :
  dict !! "Menu"%string = Some entry ->
  context_change assets w dict "Menu Switch" = Ok (w, dict, instance entry).
Proof.
  intros H. unfold context_change. cbn [split_space Ascii.eqb Bool.eqb String.eqb].
  cbn. rewrite H. reflexivity.
Qed.

(** "Game New" makes a game context at a fresh address with score 0, a
    new bow and a new target, and names it in the registry; it leaves
    the group of the arrows as it is. *)
Lemma Game_New_fresh_score (assets : Assets) (w : World)
    (dict : gmap string ContextEntry) (entry : ContextEntry) :
  dict !! "Game"%string = Some entry ->
  cont_class entry = GameContext_class ->
  exists w',
    context_change assets w dict "Game New"
    = Ok (w', <["Game"%string := {| cont_class := GameContext_class;
                                    instance := Some (length (contexts w)) |}]> dict,
          Some (length (contexts w)))
    /\ score_of w' (length (contexts w)) = Some 0
    /\ Bow_INSTANCE w' = Some (Bow_new assets (length (contexts w)))
    /\ Target_INSTANCE w' = Some (length (targets w))
    /\ Arrow_INSTANCES w' = Arrow_INSTANCES w.
Proof.
  intros H Hc. unfold context_change. cbn. rewrite H, Hc. cbn.
  eexists. split; [reflexivity|]. repeat split.
  unfold score_of. cbn. rewrite lookup_app_r by lia.
  rewrite Nat.sub_diag. reflexivity.
Qed.

(** C7: the code at the failing input.  After a session that shot one
    arrow and went back to the main menu through the pause menu, "Play"
    makes the new session (context 4, score 0, named by the registry),
    and the arrow of the old session (context 3) is still in the group:
    the new session moves it on, and when it hits the target 52 frames
    later its 3 points go to the old context. *)
Theorem Game_New_keeps_arrows_in_flight :
  app_view (run_app first_session)
  = Some (Some 0%nat, Some 3%nat, None, [(3%nat, 42)], [Some 0; None])
  /\ app_view (run_app (first_session ++ [[down K_RETURN]]))
     = Some (Some 4%nat, Some 4%nat, Some 0, [(3%nat, 42)], [Some 0; Some 0])
  /\ app_view (run_app (first_session ++ [[down K_RETURN]; []]))
     = Some (Some 4%nat, Some 4%nat, Some 0, [(3%nat, 53)], [Some 0; Some 0])
  /\ app_view (run_app (first_session ++ [[down K_RETURN]] ++ replicate 51 []))
     = Some (Some 4%nat, Some 4%nat, Some 0, [(3%nat, 603)], [Some 0; Some 0])
  /\ app_view (run_app (first_session ++ [[down K_RETURN]] ++ replicate 52 []))
     = Some (Some 4%nat, Some 4%nat, Some 0, [], [Some 3; Some 0]).
Proof. vm_compute. repeat split; reflexivity. Qed.


(* ================================================================== *)
(** ** The bow: its track, its timing and its failures *)

Section BowExtras.

Variable cls : BowClass.
Variable assets : Assets.
Variable Target_INSTANCE : option nat.

Lemma BentBowState_inputs_rect inputs : forall b l b' l',
  BentBowState_inputs cls assets Target_INSTANCE (b, l) inputs = Ok (b', l') ->
  Bow_rect b' = Bow_rect b
  /\ (Bow_speed b' = Bow_speed b \/ Bow_speed b' = (PyInt 0, PyInt 0)).
Proof.
  induction inputs as [|e inputs IH]; intros b l b' l' H.
  - injection H as <- _. split; [reflexivity | left; reflexivity].
  - cbn [BentBowState_inputs] in H. unfold BentBowState_input in H.
    destruct (is_space_up e).
    + unfold Bow_shoot, Bow_force in H.
      destruct (int_truediv _ _) as [q|]; [|discriminate].
      unfold mbind, res_bind, mret, res_ret in H. cbn [Bow_ammo set_Bow_ammo] in H.
      destruct (_ =? 0); apply IH in H as [Hr Hs]; cbn in Hr, Hs;
        (split; [exact Hr|]); destruct Hs as [Hs|Hs]; auto.
    + unfold mbind, res_bind, mret, res_ret in H. eapply IH. exact H.
Qed.

Lemma Bow_update_rect b l inputs b' l' :
  Bow_update cls assets Target_INSTANCE (b, l) inputs = Ok (b', l') ->
  Bow_rect b' = Bow_rect (Bow_move b)
  /\ (Bow_speed b' = Bow_speed (Bow_move b) \/ Bow_speed b' = (PyInt 0, PyInt 0)).
Proof.
  unfold Bow_update. cbn [fst snd]. intros H.
  destruct (Bow_state (Bow_move b)).
  - unfold mret, res_ret in H. injection H as <- _.
    rewrite NormalBowState_update_spec.
    destruct (existsb _ _); split; auto.
  - unfold BentBowState_update in H. cbn [fst snd] in H.
    destruct (BentBowState_charge cls (Bow_move b)) as [b1|] eqn:E; [|discriminate].
    unfold mbind, res_bind in H.
    apply BentBowState_inputs_rect in H as [Hr Hs].
    assert (Bow_rect b1 = Bow_rect (Bow_move b) /\ Bow_speed b1 = Bow_speed (Bow_move b))
      as [Hr1 Hs1].
    { unfold BentBowState_charge in E.
      destruct (_ <? _).
      - destruct (int_floordiv _ _) as [u|]; [|discriminate].
        unfold mbind, res_bind in E.
        destruct (int_truediv _ _) as [s|]; [|discriminate].
        destruct (float_is_integer s); unfold mret, res_ret in E;
          injection E as <-; split; reflexivity.
      - injection E as <-. split; reflexivity. }
    rewrite Hr, Hr1. split; [reflexivity|].
    destruct Hs as [Hs|Hs]; [left; rewrite Hs, Hs1; reflexivity | right; exact Hs].
  - unfold mret, res_ret in H. injection H as <- _.
    unfold ReloadBowState_update. cbn [Bow_cooldown set_Bow_cooldown].
    destruct (_ =? 0); split; auto.
  - unfold mret, res_ret in H. injection H as <- _. split; auto.
Qed.

Lemma Bow_move_on_track h b : on_track h b -> on_track h (Bow_move b).
Proof.
  unfold on_track, Bow_move, SCREEN_HEIGHT. intros (Hl & Hh & Hs).
  destruct Hs as [[Hs Ht]|[[Hs Ht]|[Hs Ht]]]; rewrite Hs; cbn [fst snd num_px num_neg];
    match goal with
    | |- context [if ?c then _ else _] => destruct c eqn:E
    end;
    cbn [Bow_rect Bow_speed set_Bow_rect set_Bow_speed move_ip left top height fst snd];
    rewrite ?Hs; cbn [fst snd num_neg Z.opp];
    (split; [lia|]); (split; [exact Hh|]);
    cbn [move_ip top height] in E; rewrite Hh in E.
  - apply orb_true_iff in E as [E|E]; apply Z.ltb_lt in E; [lia|].
    right. left. split; [reflexivity | lia].
  - apply orb_false_iff in E as [E1 E2]. apply Z.ltb_ge in E1, E2.
    left. split; [reflexivity | lia].
  - apply orb_true_iff in E as [E|E]; apply Z.ltb_lt in E; [|lia].
    left. split; [reflexivity | lia].
  - apply orb_false_iff in E as [E1 E2]. apply Z.ltb_ge in E1, E2.
    right. left. split; [reflexivity | lia].
  - right. right. split; [reflexivity | lia].
  - right. right. split; [reflexivity | lia].
Qed.

Lemma Bow_update_on_track h b l inputs b' l' :
  on_track h b ->
  Bow_update cls assets Target_INSTANCE (b, l) inputs = Ok (b', l') ->
  on_track h b'.
Proof.
  intros Hon H. apply Bow_update_rect in H as [Hr Hs].
  apply Bow_move_on_track in Hon. unfold on_track in *.
  rewrite Hr. destruct Hon as (Hl & Hh & Hc).
  split; [exact Hl|]. split; [exact Hh|].
  destruct Hs as [Hs|Hs]; rewrite Hs; [exact Hc|].
  right. right. split; [reflexivity|].
  destruct Hc as [[_ Ht]|[[_ Ht]|[_ Ht]]]; lia.
Qed.

Lemma Bow_run_on_track h frames : forall b l b' l',
  on_track h b ->
  Bow_run cls assets Target_INSTANCE (b, l) frames = Ok (b', l') ->
  on_track h b'.
Proof.
  induction frames as [|inputs frames IH]; intros b l b' l' Hon H.
  - injection H as <- _. exact Hon.
  - cbn [Bow_run] in H.
    destruct (Bow_update _ _ _ _ _) as [[b1 l1]|] eqn:E; [|discriminate].
    eapply IH; [|exact H]. eapply Bow_update_on_track; [exact Hon | exact E].
Qed.

Lemma on_track_new context :
  snd (bow_size assets) <= SCREEN_HEIGHT ->
  on_track (snd (bow_size assets)) (Bow_new assets context).
Proof.
  unfold on_track, SCREEN_HEIGHT. intros H. cbn. split; [reflexivity|].
  split; [reflexivity|]. left. split; [reflexivity | lia].
Qed.

(** where the bow's arrows start *)
Lemma BentBowState_inputs_arrows (P : Arrow -> Prop) inputs : forall b l b' l',
  (forall f, P (Arrow_new assets Target_INSTANCE (Bow_context b) (topleft (Bow_rect b)) f)) ->
  Forall P l ->
  BentBowState_inputs cls assets Target_INSTANCE (b, l) inputs = Ok (b', l') ->
  Forall P l'.
Proof.
  induction inputs as [|e inputs IH]; intros b l b' l' HP Hl H.
  - injection H as _ <-. exact Hl.
  - cbn [BentBowState_inputs] in H. unfold BentBowState_input in H.
    destruct (is_space_up e).
    + unfold Bow_shoot, Bow_force in H.
      destruct (int_truediv _ _) as [q|]; [|discriminate].
      unfold mbind, res_bind, mret, res_ret in H. cbn [Bow_ammo set_Bow_ammo] in H.
      destruct (_ =? 0); (eapply IH; [| |exact H]);
        try (intros f; apply (HP f));
        apply Forall_app; (split; [exact Hl|]); repeat constructor; apply HP.
    + unfold mbind, res_bind, mret, res_ret in H. eapply IH; [exact HP | exact Hl | exact H].
Qed.

Lemma Bow_update_arrows (P : Arrow -> Prop) b l inputs b' l' :
  (forall f c, P (Arrow_new assets Target_INSTANCE c (topleft (Bow_rect (Bow_move b))) f)) ->
  Forall P l ->
  Bow_update cls assets Target_INSTANCE (b, l) inputs = Ok (b', l') ->
  Forall P l'.
Proof.
  unfold Bow_update. cbn [fst snd]. intros HP Hl H.
  destruct (Bow_state (Bow_move b));
    try (unfold mret, res_ret in H; injection H as _ <-; exact Hl).
  unfold BentBowState_update in H. cbn [fst snd] in H.
  destruct (BentBowState_charge cls (Bow_move b)) as [b1|] eqn:E; [|discriminate].
  unfold mbind, res_bind in H.
  eapply BentBowState_inputs_arrows; [|exact Hl|exact H].
  assert (Bow_rect b1 = Bow_rect (Bow_move b)) as ->; [|intros f; apply HP].
  unfold BentBowState_charge in E.
  destruct (_ <? _).
  - destruct (int_floordiv _ _) as [u|]; [|discriminate].
    unfold mbind, res_bind in E.
    destruct (int_truediv _ _) as [s|]; [|discriminate].
    destruct (float_is_integer s); unfold mret, res_ret in E;
      injection E as <-; reflexivity.
  - injection E as <-. reflexivity.
Qed.

Lemma Bow_run_arrows_on_track h frames : forall b l b' l',
  on_track h b ->
  Forall (starts_on_track h) l ->
  Bow_run cls assets Target_INSTANCE (b, l) frames = Ok (b', l') ->
  Forall (starts_on_track h) l'.
Proof.
  induction frames as [|inputs frames IH]; intros b l b' l' Hon Hl H.
  - injection H as _ <-. exact Hl.
  - cbn [Bow_run] in H.
    destruct (Bow_update _ _ _ _ _) as [[b1 l1]|] eqn:E; [|discriminate].
    eapply IH; [| |exact H].
    + eapply Bow_update_on_track; [exact Hon | exact E].
    + eapply Bow_update_arrows; [|exact Hl|exact E].
      intros f c. apply Bow_move_on_track in Hon as (Hx & _ & Hc).
      revert Hx Hc. generalize (Bow_rect (Bow_move b)). intros r Hx Hc.
      unfold starts_on_track, Arrow_new, topleft, move_ip, Rect_at.
      cbn [Arrow_rect left top fst snd]. split; [lia|].
      destruct Hc as [[_ Ht]|[[_ Ht]|[_ Ht]]]; lia.
Qed.

End BowExtras.

(** The bow keeps to its track: from [Bow.__init__] on and whatever the
    frames bring, the bow stays at x = 20 and its top stays between -8
    and SCREEN_HEIGHT - height + 8; its speed is (0, 8), (0, -8) or,
    once Empty, (0, 0); and every arrow starts from there.  The picture
    of the bow is not higher than the screen. *)
Theorem bow_keeps_to_its_track
    (cls : BowClass) (assets : Assets) (Target_INSTANCE : option nat)
    (context : nat) (frames : list (list Event)) :
  Bow_ROPE_STATES <= TIME_FORCE_FPS cls ->
  snd (bow_size assets) <= SCREEN_HEIGHT ->
  exists b shots,
    Bow_run cls assets Target_INSTANCE (Bow_new assets context, []) frames = Ok (b, shots)
    /\ left (Bow_rect b) = 20
    /\ -8 <= top (Bow_rect b) <= SCREEN_HEIGHT - snd (bow_size assets) + 8
    /\ (Bow_speed b = (PyInt 0, PyInt 8) \/ Bow_speed b = (PyInt 0, PyInt (-8))
        \/ Bow_speed b = (PyInt 0, PyInt 0))
    /\ Forall (fun a => left (Arrow_rect a) = 20
                        /\ -8 <= top (Arrow_rect a)
                              <= SCREEN_HEIGHT - snd (bow_size assets) + 8)
              shots.
Proof.
  intros HT Hh.
  destruct (Bow_run_time cls assets Target_INSTANCE frames (Bow_new assets context) [] HT)
    as (b & shots & Hrun & _ & _).
  { apply time_inv_new. unfold Bow_ROPE_STATES in HT. lia. }
  exists b, shots. split; [exact Hrun|].
  pose proof (on_track_new assets context Hh) as Hon.
  pose proof (Bow_run_on_track cls assets Target_INSTANCE _ _ _ _ _ _ Hon Hrun)
    as (Hl & Hhh & Hc).
  split; [exact Hl|].
  split; [destruct Hc as [[_ Ht]|[[_ Ht]|[_ Ht]]]; lia|].
  split; [destruct Hc as [[Hs _]|[[Hs _]|[Hs _]]]; auto|].
  eapply (Bow_run_arrows_on_track cls assets Target_INSTANCE _ _ _ _ _ _ Hon); [|exact Hrun].
  constructor.
Qed.

Lemma bow_keeps_to_its_track_witness :
  exists b shots,
    Bow_run cls30 sample_assets (Some 0%nat) (Bow_new sample_assets 3, [])
            (replicate 60 [] ++ [[down K_SPACE]; [up K_SPACE]]) = Ok (b, shots)
    /\ left (Bow_rect b) = 20
    /\ -8 <= top (Bow_rect b) <= SCREEN_HEIGHT - snd (bow_size sample_assets) + 8
    /\ (Bow_speed b = (PyInt 0, PyInt 8) \/ Bow_speed b = (PyInt 0, PyInt (-8))
        \/ Bow_speed b = (PyInt 0, PyInt 0))
    /\ Forall (fun a => left (Arrow_rect a) = 20
                        /\ -8 <= top (Arrow_rect a)
                              <= SCREEN_HEIGHT - snd (bow_size sample_assets) + 8)
              shots.
Proof.
  apply (bow_keeps_to_its_track cls30 sample_assets (Some 0%nat) 3%nat
           (replicate 60 [] ++ [[down K_SPACE]; [up K_SPACE]])).
  - exact cls30_steps.
  - vm_compute. discriminate.
Defined.

(** In the Normal state a frame shoots nothing and takes no arrow; the
    bow is Bent after it, with no force accumulated, exactly when the
    frame's batch holds a KEYDOWN of SPACE, whatever else it holds (a
    KEYUP of SPACE in the same batch is not acted on), and Normal
    otherwise. *)
Theorem Normal_bends_on_charge_begin
    (cls : BowClass) (assets : Assets) (Target_INSTANCE : option nat)
    (b : Bow) (l : list Arrow) (inputs : list Event) :
  Bow_state b = NormalBowState ->
  exists b',
    Bow_update cls assets Target_INSTANCE (b, l) inputs = Ok (b', l)
    /\ Bow_ammo b' = Bow_ammo b
    /\ Bow_drawn b' = Bow_drawn b
    /\ (existsb is_space_down inputs = true ->
        Bow_state b' = BentBowState /\ Bow_bent_time b' = 0)
    /\ (existsb is_space_down inputs = false ->
        Bow_state b' = NormalBowState /\ Bow_bent_time b' = Bow_bent_time b).
Proof.
  intros Hst.
  destruct (Bow_update_other cls assets Target_INSTANCE b l inputs) as (b' & Hup & Ham & Hb).
  { rewrite Hst. discriminate. }
  rewrite Hst in Hb.
  destruct (Bow_move_fields b) as (_ & Hs & Hbt & _ & _ & Hd).
  exists b'. split; [exact Hup|]. split; [exact Ham|].
  destruct (existsb is_space_down inputs); subst b'.
  - split; [exact Hd|]. split; [intros _; split; reflexivity | discriminate].
  - split; [exact Hd|]. split; [discriminate|]. intros _. rewrite Hs, Hst, Hbt. split; reflexivity.
Qed.

Lemma Normal_bends_on_charge_begin_witness :
  exists b',
    Bow_update cls30 sample_assets (Some 0%nat) (new_bow, []) [down K_SPACE; up K_SPACE]
    = Ok (b', [])
    /\ Bow_ammo b' = Bow_ammo new_bow
    /\ Bow_drawn b' = Bow_drawn new_bow
    /\ (existsb is_space_down [down K_SPACE; up K_SPACE] = true ->
        Bow_state b' = BentBowState /\ Bow_bent_time b' = 0)
    /\ (existsb is_space_down [down K_SPACE; up K_SPACE] = false ->
        Bow_state b' = NormalBowState /\ Bow_bent_time b' = Bow_bent_time new_bow).
Proof.
  apply (Normal_bends_on_charge_begin cls30 sample_assets (Some 0%nat) new_bow []
           [down K_SPACE; up K_SPACE]).
  reflexivity.
Defined.

(** The cooldown lasts its frames: a bow in the Reload state stays in it,
    shoots nothing and keeps its ammunition for as many frames as its
    countdown says, whatever the inputs; it is Normal after exactly that
    many frames and not before. *)
Theorem cooldown_lasts_its_frames
    (cls : BowClass) (assets : Assets) (Target_INSTANCE : option nat)
    (frames : list (list Event)) (b : Bow) (l : list Arrow) :
  Bow_state b = ReloadBowState ->
  Z.of_nat (length frames) <= Bow_cooldown b ->
  exists b',
    Bow_run cls assets Target_INSTANCE (b, l) frames = Ok (b', l)
    /\ Bow_ammo b' = Bow_ammo b
    /\ Bow_cooldown b' = Bow_cooldown b - Z.of_nat (length frames)
    /\ (Bow_state b' = NormalBowState
        <-> frames <> [] /\ Z.of_nat (length frames) = Bow_cooldown b)
    /\ (Bow_state b' = ReloadBowState
        <-> frames = [] \/ Z.of_nat (length frames) < Bow_cooldown b).
Proof.
  revert b. induction frames as [|inputs frames IH]; intros b Hst Hlen.
  - exists b. cbn [length Z.of_nat] in *. split; [reflexivity|]. split; [reflexivity|].
    split; [lia|]. rewrite Hst. split; split; try tauto; try congruence.
  - cbn [Bow_run].
    destruct (Bow_update_other cls assets Target_INSTANCE b l inputs) as (b1 & Hup & Ham & Hb).
    { rewrite Hst. discriminate. }
    rewrite Hst in Hb. rewrite Hup. unfold mbind, res_bind.
    destruct (Bow_move_fields b) as (_ & Hs & _ & Hcd & _).
    assert (Bow_cooldown b1 = Bow_cooldown b - 1
            /\ Bow_state b1 = if Bow_cooldown b - 1 =? 0 then NormalBowState
                              else ReloadBowState) as [Hc1 Hs1].
    { subst b1. unfold ReloadBowState_update. cbn [Bow_cooldown set_Bow_cooldown].
      rewrite Hcd. destruct (_ =? 0); cbn; rewrite ?Hs, ?Hst; split; reflexivity. }
    cbn [length] in Hlen. rewrite Nat2Z.inj_succ in Hlen.
    destruct (Z.eqb_spec (Bow_cooldown b - 1) 0) as [E|NE].
    + assert (frames = []) as -> by (destruct frames; [reflexivity | cbn in Hlen; lia]).
      exists b1. cbn [Bow_run length Z.of_nat Z.of_nat]. split; [reflexivity|].
      split; [exact Ham|]. split; [cbn; lia|]. rewrite Hs1.
      split; split; try congruence; try (cbn; lia).
      * intros _. split; [discriminate | cbn; lia].
      * intros [?|?]; [discriminate | cbn in *; lia].
    + destruct (IH b1 Hs1) as (b' & Hrun & Ham' & Hcd' & HN & HR); [lia|].
      exists b'. split; [exact Hrun|]. split; [congruence|].
      cbn [length]. rewrite Nat2Z.inj_succ. split; [lia|].
      split.
      * rewrite HN. split.
        -- intros [Hne Hl]. split; [discriminate | lia].
        -- intros [_ Hl]. split; [|lia]. intros ->. cbn in Hl. lia.
      * rewrite HR. split.
        -- intros [->|Hl]; right; [cbn; lia | lia].
        -- intros [?|Hl]; [discriminate|].
           destruct frames; [left; reflexivity | right; lia].
Qed.

Lemma cooldown_lasts_its_frames_witness :
  exists b',
    Bow_run cls30 sample_assets (Some 0%nat) (ReloadBowState_new cls30 new_bow, [])
            (replicate 30 [down K_SPACE; up K_SPACE]) = Ok (b', [])
    /\ Bow_ammo b' = Bow_ammo (ReloadBowState_new cls30 new_bow)
    /\ Bow_cooldown b'
       = Bow_cooldown (ReloadBowState_new cls30 new_bow)
         - Z.of_nat (length (replicate 30 [down K_SPACE; up K_SPACE]))
    /\ (Bow_state b' = NormalBowState
        <-> replicate 30 [down K_SPACE; up K_SPACE] <> []
            /\ Z.of_nat (length (replicate 30 [down K_SPACE; up K_SPACE]))
               = Bow_cooldown (ReloadBowState_new cls30 new_bow))
    /\ (Bow_state b' = ReloadBowState
        <-> replicate 30 [down K_SPACE; up K_SPACE] = []
            \/ Z.of_nat (length (replicate 30 [down K_SPACE; up K_SPACE]))
               < Bow_cooldown (ReloadBowState_new cls30 new_bow)).
Proof.
  apply (cooldown_lasts_its_frames cls30 sample_assets (Some 0%nat)
           (replicate 30 [down K_SPACE; up K_SPACE]) (ReloadBowState_new cls30 new_bow) []).
  - reflexivity.
  - vm_compute. discriminate.
Defined.

(** A charge threshold below the number of rope states makes
    TIME_FORCE_FPS // ROPE_STATES zero: the first frame in which a Bent
    bow accumulates force divides by it and raises ZeroDivisionError. *)
Theorem short_threshold_divides_by_zero
    (cls : BowClass) (assets : Assets) (Target_INSTANCE : option nat)
    (b : Bow) (l : list Arrow) (inputs : list Event) :
  0 <= TIME_FORCE_FPS cls < Bow_ROPE_STATES ->
  Bow_state b = BentBowState ->
  Bow_bent_time b < TIME_FORCE_FPS cls ->
  Bow_update cls assets Target_INSTANCE (b, l) inputs = Raise ZeroDivisionError.
Proof.
  intros HT Hst Hbt.
  destruct (Bow_move_fields b) as (_ & Hs & Hb & _).
  unfold Bow_update. cbn [fst snd]. rewrite Hs, Hst.
  unfold BentBowState_update, BentBowState_charge. cbn [fst snd]. rewrite Hb.
  destruct (Z.ltb_spec (Bow_bent_time b) (TIME_FORCE_FPS cls)) as [_|?]; [|lia].
  unfold int_floordiv, int_truediv, Bow_ROPE_STATES in *.
  cbn [Z.eqb]. rewrite Z.div_small by lia. reflexivity.
Qed.

Lemma short_threshold_divides_by_zero_witness :
  Bow_update (Bow_init 14) sample_assets (Some 0%nat) (BentBowState_new new_bow, []) []
  = Raise ZeroDivisionError.
Proof.
  apply (short_threshold_divides_by_zero (Bow_init 14) sample_assets (Some 0%nat)
           (BentBowState_new new_bow) [] []).
  - split; [vm_compute; discriminate | vm_compute; reflexivity].
  - reflexivity.
  - vm_compute. reflexivity.
Defined.

Lemma BentBowState_inputs_no_force cls assets Target_INSTANCE inputs : forall b l,
  TIME_FORCE_FPS cls = 0 ->
  existsb is_space_up inputs = true ->
  BentBowState_inputs cls assets Target_INSTANCE (b, l) inputs = Raise ZeroDivisionError.
Proof.
  induction inputs as [|e inputs IH]; intros b l HT Hex; [discriminate|].
  cbn [BentBowState_inputs existsb] in *. unfold BentBowState_input.
  destruct (is_space_up e).
  - unfold Bow_shoot, Bow_force, int_truediv. rewrite HT. reflexivity.
  - unfold mbind, res_bind, mret, res_ret. apply IH; assumption.
Qed.

(** With a charge threshold of zero a Bent bow accumulates nothing, and
    the first charge-release divides by the threshold in [force]:
    the frame raises ZeroDivisionError and no arrow is shot. *)
Theorem zero_threshold_cannot_shoot
    (cls : BowClass) (assets : Assets) (Target_INSTANCE : option nat)
    (b : Bow) (l : list Arrow) (inputs : list Event) :
  TIME_FORCE_FPS cls = 0 ->
  Bow_state b = BentBowState ->
  existsb is_space_up inputs = true ->
  Bow_update cls assets Target_INSTANCE (b, l) inputs = Raise ZeroDivisionError.
Proof.
  intros HT Hst Hex.
  destruct (Bow_move_fields b) as (_ & Hs & Hb & _).
  unfold Bow_update. cbn [fst snd]. rewrite Hs, Hst.
  unfold BentBowState_update, BentBowState_charge. cbn [fst snd]. rewrite Hb, HT.
  destruct (Bow_bent_time b <? 0).
  - unfold int_floordiv, int_truediv, Bow_ROPE_STATES. reflexivity.
  - unfold mbind, res_bind, mret, res_ret.
    apply BentBowState_inputs_no_force; assumption.
Qed.

Lemma zero_threshold_cannot_shoot_witness :
  Bow_update (Bow_init 1) sample_assets (Some 0%nat) (BentBowState_new new_bow, [])
             [up K_SPACE]
  = Raise ZeroDivisionError.
Proof.
  apply (zero_threshold_cannot_shoot (Bow_init 1) sample_assets (Some 0%nat)
           (BentBowState_new new_bow) [] [up K_SPACE]).
  - vm_compute. reflexivity.
  - reflexivity.
  - reflexivity.
Defined.

(** [Bow.init] for the frame rates from 0 to 1000: the cooldown is the
    frame rate; the charge threshold int(0.7 * fps) is the whole part of
    7 fps / 10 below 90 frames per second and that or one less above
    (62 at 90, where the float product is under 63); and the threshold
    reaches the number of rope states exactly from 15 frames per second
    on. *)
Theorem Bow_init_thresholds (fps : Z) :
  0 <= fps <= 1000 ->
  TIME_COOLDOWN_FPS (Bow_init fps) = fps
  /\ 7 * fps / 10 - 1 <= TIME_FORCE_FPS (Bow_init fps) <= 7 * fps / 10
  /\ (fps < 90 -> TIME_FORCE_FPS (Bow_init fps) = 7 * fps / 10)
  /\ (Bow_ROPE_STATES <= TIME_FORCE_FPS (Bow_init fps) <-> 15 <= fps)
  /\ TIME_FORCE_FPS (Bow_init 90) = 62.
Proof.
  intros Hfps.
  assert (Bow_init_check fps = true) as Hc.
  { apply (forallb_Zrange Bow_init_check 1001 0); [vm_compute; reflexivity | lia]. }
  unfold Bow_init_check in Hc.
  repeat (apply andb_true_iff in Hc as [Hc ?]).
  apply Z.eqb_eq in Hc.
  repeat match goal with
         | H : (_ <=? _) = true |- _ => apply Z.leb_le in H
         | H : _ || _ = true |- _ => apply orb_true_iff in H
         end.
  split; [exact Hc|]. split; [lia|].
  split.
  { intros Hlt. destruct H1 as [H1|H1]; [apply Z.leb_le in H1; lia | apply Z.eqb_eq in H1; exact H1]. }
  split.
  { split.
    - intros Hr. destruct H as [H|H]; [apply Z.leb_le in H; exact H | apply Z.ltb_lt in H; lia].
    - intros Hr. destruct H0 as [H0|H0]; [apply Z.ltb_lt in H0; lia | apply Z.leb_le in H0; exact H0]. }
  vm_compute. reflexivity.
Qed.

Lemma Bow_init_thresholds_witness :
  TIME_COOLDOWN_FPS (Bow_init 30) = 30
  /\ 7 * 30 / 10 - 1 <= TIME_FORCE_FPS (Bow_init 30) <= 7 * 30 / 10
  /\ (30 < 90 -> TIME_FORCE_FPS (Bow_init 30) = 7 * 30 / 10)
  /\ (Bow_ROPE_STATES <= TIME_FORCE_FPS (Bow_init 30) <-> 15 <= 30)
  /\ TIME_FORCE_FPS (Bow_init 90) = 62.
Proof.
  apply (Bow_init_thresholds 30). lia.
Defined.

Lemma Bow_run_app cls assets Target_INSTANCE frames1 : forall st frames2,
  Bow_run cls assets Target_INSTANCE st (frames1 ++ frames2)
  = (st' ← Bow_run cls assets Target_INSTANCE st frames1;
     Bow_run cls assets Target_INSTANCE st' frames2).
Proof.
  induction frames1 as [|inputs frames1 IH]; intros st frames2; [reflexivity|].
  cbn [app Bow_run]. destruct (Bow_update _ _ _ _ _) as [st1|]; [|reflexivity].
  unfold mbind at 1 3, res_bind. apply IH.
Qed.

Lemma Bow_run_charging
    (cls : BowClass) (assets : Assets) (Target_INSTANCE : option nat)
    (frames : list (list Event)) (b : Bow) (l : list Arrow) :
  Bow_ROPE_STATES <= TIME_FORCE_FPS cls ->
  Bow_state b = BentBowState ->
  Bow_bent_time b <= TIME_FORCE_FPS cls ->
  no_release frames ->
  exists b',
    Bow_run cls assets Target_INSTANCE (b, l) frames = Ok (b', l)
    /\ Bow_state b' = BentBowState
    /\ Bow_ammo b' = Bow_ammo b
    /\ Bow_bent_time b'
       = Z.min (Bow_bent_time b + Z.of_nat (length frames)) (TIME_FORCE_FPS cls).
Proof.
  intros HT. revert b. induction frames as [|inputs frames IH]; intros b Hst Hbt Hno.
  - exists b. cbn [length Z.of_nat]. repeat split; try assumption. lia.
  - apply Forall_cons in Hno as [H0 Hno].
    destruct (Bow_update_Bent cls assets Target_INSTANCE b l inputs HT Hst)
      as (b1 & shots & Hup & Ham & Hlen & Hbt1 & Hst1 & _).
    assert (shots = []) as -> by (destruct shots; [reflexivity | cbn in Hlen; lia]).
    rewrite app_nil_r in Hup. specialize (Hst1 H0).
    destruct (IH b1 Hst1) as (b' & Hrun & Hs' & Ha' & Hb'); [|exact Hno|].
    { rewrite Hbt1. destruct (Z.ltb_spec (Bow_bent_time b) (TIME_FORCE_FPS cls)); lia. }
    exists b'. cbn [Bow_run]. rewrite Hup. unfold mbind, res_bind.
    split; [exact Hrun|]. split; [exact Hs'|]. split; [lia|].
    rewrite Hb', Hbt1. cbn [length]. rewrite Nat2Z.inj_succ.
    destruct (Z.ltb_spec (Bow_bent_time b) (TIME_FORCE_FPS cls)); lia.
Qed.

(** Charging saturates: a Bent bow that gets no charge-release stays Bent
    and keeps its ammunition, shoots nothing, and adds one to its
    accumulation time per frame up to the charge threshold and no
    further. *)
Theorem charging_saturates
    (cls : BowClass) (assets : Assets) (Target_INSTANCE : option nat)
    (frames : list (list Event)) (b : Bow) (l : list Arrow) :
  Bow_ROPE_STATES <= TIME_FORCE_FPS cls ->
  Bow_state b = BentBowState ->
  Bow_bent_time b <= TIME_FORCE_FPS cls ->
  no_release frames ->
  exists b',
    Bow_run cls assets Target_INSTANCE (b, l) frames = Ok (b', l)
    /\ Bow_state b' = BentBowState
    /\ Bow_ammo b' = Bow_ammo b
    /\ Bow_bent_time b'
       = Z.min (Bow_bent_time b + Z.of_nat (length frames)) (TIME_FORCE_FPS cls).
Proof. apply Bow_run_charging. Qed.

Lemma charging_saturates_witness :
  exists b',
    Bow_run cls30 sample_assets (Some 0%nat) (BentBowState_new new_bow, [])
            (replicate 25 [down K_SPACE]) = Ok (b', [])
    /\ Bow_state b' = BentBowState
    /\ Bow_ammo b' = Bow_ammo (BentBowState_new new_bow)
    /\ Bow_bent_time b'
       = Z.min (Bow_bent_time (BentBowState_new new_bow)
                + Z.of_nat (length (replicate 25 [down K_SPACE])))
               (TIME_FORCE_FPS cls30).
Proof.
  apply (charging_saturates cls30 sample_assets (Some 0%nat)
           (replicate 25 [down K_SPACE]) (BentBowState_new new_bow) []).
  - exact cls30_steps.
  - reflexivity.
  - vm_compute. discriminate.
  - unfold no_release. apply Forall_forall. intros x Hx.
    apply elem_of_replicate in Hx as [-> _]. reflexivity.
Defined.

(** At 30 frames per second a full draw shoots at FORCE_MAX: when a Bent
    bow has accumulated 21 frames by the frame of the charge-release
    (that frame counts), the arrow leaves with the speed (50.0, 0), 50
    pixels per frame, however much longer the key was held. *)
Theorem full_draw_shoots_at_FORCE_MAX
    (assets : Assets) (Target_INSTANCE : option nat)
    (frames : list (list Event)) (inputs : list Event) (b : Bow) (l : list Arrow) :
  Bow_state b = BentBowState ->
  Bow_bent_time b <= TIME_FORCE_FPS cls30 ->
  TIME_FORCE_FPS cls30 <= Bow_bent_time b + Z.of_nat (length frames) + 1 ->
  no_release frames ->
  count_space_up inputs = 1 ->
  exists b' a,
    Bow_run cls30 assets Target_INSTANCE (b, l) (frames ++ [inputs]) = Ok (b', l ++ [a])
    /\ Arrow_speed a = (PyFloat (float_of_int Bow_FORCE_MAX), PyInt 0)
    /\ num_px (fst (Arrow_speed a)) = 50
    /\ Bow_ammo b' = Bow_ammo b - 1.
Proof.
  intros Hst Hbt Hfull Hno Hone.
  destruct (Bow_run_charging cls30 assets Target_INSTANCE frames b l cls30_steps Hst Hbt Hno)
    as (b1 & Hrun & Hst1 & Ham1 & Hbt1).
  destruct (Bow_update_Bent cls30 assets Target_INSTANCE b1 l inputs cls30_steps Hst1)
    as (b' & shots & Hup & Ham & Hlen & Hbt' & _ & _ & Hsp).
  destruct shots as [|a [|a2 shots]]; try (cbn in Hlen; lia).
  exists b', a. rewrite Bow_run_app, Hrun. unfold mbind at 1, res_bind.
  cbn [Bow_run]. rewrite Hup. split; [reflexivity|].
  apply Forall_cons in Hsp as [Hsp _].
  assert (Bow_bent_time b' = 21) as Hfull'.
  { rewrite cls30_time in *. rewrite Hbt', Hbt1.
    destruct (Z.ltb_spec (Z.min (Bow_bent_time b + Z.of_nat (length frames)) 21) 21); lia. }
  rewrite Hfull' in Hsp. rewrite Hsp.
  split; [f_equal; f_equal; vm_compute; reflexivity|].
  split; [vm_compute; reflexivity | lia].
Qed.

Lemma full_draw_shoots_at_FORCE_MAX_witness :
  exists b' a,
    Bow_run cls30 sample_assets (Some 0%nat) (BentBowState_new new_bow, [])
            (replicate 40 [] ++ [[up K_SPACE]]) = Ok (b', [] ++ [a])
    /\ Arrow_speed a = (PyFloat (float_of_int Bow_FORCE_MAX), PyInt 0)
    /\ num_px (fst (Arrow_speed a)) = 50
    /\ Bow_ammo b' = Bow_ammo (BentBowState_new new_bow) - 1.
Proof.
  apply (full_draw_shoots_at_FORCE_MAX sample_assets (Some 0%nat)
           (replicate 40 []) [up K_SPACE] (BentBowState_new new_bow) []).
  - reflexivity.
  - vm_compute. discriminate.
  - vm_compute. discriminate.
  - unfold no_release. apply Forall_forall. intros x Hx.
    apply elem_of_replicate in Hx as [-> _]. reflexivity.
  - reflexivity.
Defined.


(* ================================================================== *)
(** ** Arrows in flight and the score *)

(** A moving arrow that meets no zone flies on: the update leaves the
    world as it is, moves picture and hitbox by the speed (in whole
    pixels), keeps the picture, and the arrow stays in its group exactly
    when its picture is not beyond the right or the bottom bound; a
    picture exactly at the bound stays. *)
Theorem arrow_flies_on
    (w : World) (a : Arrow) (ti : nat) (t : Target) :
  speed_is_zero (Arrow_speed a) = false ->
  Arrow_target a = Some ti ->
  targets w !! ti = Some t ->
  zone_points (Arrow_next_hitbox a) t = None ->
  exists a',
    Arrow_update w a = Ok (w, a')
    /\ Arrow_rect a' = Arrow_next_rect a
    /\ Arrow_hitbox a' = Arrow_next_hitbox a
    /\ Arrow_speed a' = (fst (Arrow_speed a), num_add (snd (Arrow_speed a)) GRAVITY)
    /\ Arrow_img a' = Arrow_img a
    /\ (Arrow_alive a' = true
        <-> Arrow_alive a = true
            /\ left (Arrow_next_rect a) <= SCREEN_WIDTH
            /\ top (Arrow_next_rect a) <= SCREEN_HEIGHT).
Proof.
  intros Hsp Hti Ht Hz.
  unfold Arrow_update. rewrite Hsp. cbn [negb fst snd].
  rewrite Hti. cbn [mbind option_bind]. rewrite Ht.
  fold (Arrow_next_hitbox a). fold (Arrow_next_rect a).
  rewrite collidelist_Target_hitbox. unfold zone_points in Hz.
  destruct (colliderect _ (Target_inner_hit _)); [discriminate|].
  destruct (colliderect _ (Target_middle_hit _)); [discriminate|].
  destruct (colliderect _ (Target_outer_hit _)); [discriminate|].
  cbn [Z.eqb negb]. eexists. split; [reflexivity|].
  cbn [Arrow_rect Arrow_hitbox Arrow_speed Arrow_img Arrow_alive].
  repeat (split; [reflexivity|]).
  destruct (Z.ltb_spec SCREEN_WIDTH (left (Arrow_next_rect a)));
    destruct (Z.ltb_spec SCREEN_HEIGHT (top (Arrow_next_rect a)));
    cbn [orb]; split; try discriminate; try (intros (_ & ? & ?); lia);
    intros Hal; repeat split; try exact Hal; try lia;
    destruct Hal as (Hal & _ & _); exact Hal.
Qed.

Lemma arrow_flies_on_witness :
  exists a',
    Arrow_update sample_world (sample_arrow (100, 300)) = Ok (sample_world, a')
    /\ Arrow_rect a' = Arrow_next_rect (sample_arrow (100, 300))
    /\ Arrow_hitbox a' = Arrow_next_hitbox (sample_arrow (100, 300))
    /\ Arrow_speed a'
       = (fst (Arrow_speed (sample_arrow (100, 300))),
          num_add (snd (Arrow_speed (sample_arrow (100, 300)))) GRAVITY)
    /\ Arrow_img a' = Arrow_img (sample_arrow (100, 300))
    /\ (Arrow_alive a' = true
        <-> Arrow_alive (sample_arrow (100, 300)) = true
            /\ left (Arrow_next_rect (sample_arrow (100, 300))) <= SCREEN_WIDTH
            /\ top (Arrow_next_rect (sample_arrow (100, 300))) <= SCREEN_HEIGHT).
Proof.
  apply (arrow_flies_on sample_world (sample_arrow (100, 300)) 0%nat
           (Target_new sample_assets)).
  - vm_compute. reflexivity.
  - reflexivity.
  - reflexivity.
  - vm_compute. reflexivity.
Defined.

(** Arrows fly level: an arrow whose vertical speed is the int 0, as
    [Bow.shoot] makes every arrow, keeps that vertical speed and the top
    of its picture and of its hitbox through any update, whether it flies
    on, hits or leaves the screen. *)
Theorem arrows_fly_level (w w' : World) (a a' : Arrow) :
  snd (Arrow_speed a) = PyInt 0 ->
  Arrow_update w a = Ok (w', a') ->
  snd (Arrow_speed a') = PyInt 0
  /\ top (Arrow_rect a') = top (Arrow_rect a)
  /\ top (Arrow_hitbox a') = top (Arrow_hitbox a)
  /\ Arrow_context a' = Arrow_context a
  /\ Arrow_target a' = Arrow_target a.
Proof.
  intros Hv H. unfold Arrow_update in H. rewrite Hv in H.
  destruct (negb (speed_is_zero (Arrow_speed a))).
  - destruct (Arrow_target a ≫= _) as [t|]; [|discriminate].
    cbn [fst snd num_add GRAVITY num_px Z.add] in H.
    destruct (negb (_ =? -1)).
    + destruct (GameContext_update_score _ _ _) as [w1|]; [|discriminate].
      unfold mbind, res_bind, mret, res_ret in H. injection H as _ <-.
      cbn. repeat split; lia.
    + unfold mret, res_ret in H. injection H as _ <-.
      cbn. repeat split; lia.
  - unfold mret, res_ret in H. injection H as _ <-. repeat split; assumption.
Qed.

Lemma arrows_fly_level_witness :
  snd (Arrow_speed flown_arrow) = PyInt 0
  /\ top (Arrow_rect flown_arrow) = top (Arrow_rect (sample_arrow (100, 300)))
  /\ top (Arrow_hitbox flown_arrow) = top (Arrow_hitbox (sample_arrow (100, 300)))
  /\ Arrow_context flown_arrow = Arrow_context (sample_arrow (100, 300))
  /\ Arrow_target flown_arrow = Arrow_target (sample_arrow (100, 300)).
Proof.
  apply (arrows_fly_level sample_world sample_world (sample_arrow (100, 300)) flown_arrow).
  - reflexivity.
  - vm_compute. reflexivity.
Defined.

Lemma score_step_refl bound x : 0 <= bound -> score_step bound x x.
Proof.
  intros Hb. unfold score_step. destruct x as [[g|m|]|]; try reflexivity.
  exists g. repeat split; lia.
Qed.

Lemma score_step_trans b1 b2 x y z :
  score_step b1 x y -> score_step b2 y z -> score_step (b1 + b2) x z.
Proof.
  unfold score_step. destruct x as [[g|m|]|]; try (intros -> ->; reflexivity).
  intros (g1 & -> & Hd1 & Hs1) (g2 & -> & Hd2 & Hs2).
  exists g2. repeat split; try lia. congruence.
Qed.

Lemma GameContext_update_score_step self zone w w' :
  0 <= zone <= 2 ->
  GameContext_update_score self zone w = Ok w' ->
  length (contexts w') = length (contexts w)
  /\ Bow_INSTANCE w' = Bow_INSTANCE w
  /\ Arrow_INSTANCES w' = Arrow_INSTANCES w
  /\ Target_INSTANCE w' = Target_INSTANCE w
  /\ forall c, score_step 3 (contexts w !! c) (contexts w' !! c).
Proof.
  intros Hz H. unfold GameContext_update_score in H.
  destruct (contexts w !! self) as [[g| |]|] eqn:E; try discriminate.
  destruct (SCORE_TABLE !! Z.to_nat zone) as [points|] eqn:Ep; [|discriminate].
  unfold mret, res_ret in H. injection H as <-.
  cbn [contexts set_contexts Bow_INSTANCE Arrow_INSTANCES Target_INSTANCE].
  split; [apply length_insert|]. repeat (split; [reflexivity|]).
  assert (1 <= points <= 3) as Hp.
  { assert (Z.to_nat zone = 0 \/ Z.to_nat zone = 1 \/ Z.to_nat zone = 2)%nat
      as [Hn|[Hn|Hn]] by lia; rewrite Hn in Ep; injection Ep as <-; lia. }
  intros c. destruct (decide (c = self)) as [->|Hne].
  - rewrite E, list_lookup_insert_eq by (apply lookup_lt_Some in E; exact E).
    cbn. eexists. split; [reflexivity|]. cbn. split; [reflexivity | lia].
  - rewrite list_lookup_insert_ne by congruence. apply score_step_refl. lia.
Qed.

Lemma collidelist_Target_hitbox_range h t :
  collidelist h (Target_hitbox t) = -1 \/ 0 <= collidelist h (Target_hitbox t) <= 2.
Proof.
  rewrite collidelist_Target_hitbox.
  destruct (colliderect _ _); [right; lia|].
  destruct (colliderect _ _); [right; lia|].
  destruct (colliderect _ _); [right; lia | left; reflexivity].
Qed.

Lemma Arrow_update_step w a w' a' :
  Arrow_update w a = Ok (w', a') ->
  length (contexts w') = length (contexts w)
  /\ Bow_INSTANCE w' = Bow_INSTANCE w
  /\ Arrow_INSTANCES w' = Arrow_INSTANCES w
  /\ Target_INSTANCE w' = Target_INSTANCE w
  /\ forall c, score_step 3 (contexts w !! c) (contexts w' !! c).
Proof.
  intros H. unfold Arrow_update in H.
  assert (forall c, score_step 3 (contexts w !! c) (contexts w !! c)) as Hrefl
    by (intros c; apply score_step_refl; lia).
  destruct (negb (speed_is_zero (Arrow_speed a))).
  - destruct (Arrow_target a ≫= _) as [t|]; [|discriminate].
    match type of H with
    | context [collidelist ?h (Target_hitbox t)] =>
        destruct (collidelist_Target_hitbox_range h t) as [Hz|Hz];
        [rewrite Hz in H | ]
    end.
    + cbn [Z.eqb negb] in H. unfold mret, res_ret in H. injection H as <- _.
      repeat split; auto.
    + destruct (Z.eqb_spec (collidelist
                  (move_ip (Arrow_hitbox a)
                     (num_px (fst (fst (Arrow_speed a),
                                       num_add (snd (Arrow_speed a)) GRAVITY)))
                     (num_px (snd (fst (Arrow_speed a),
                                       num_add (snd (Arrow_speed a)) GRAVITY))))
                  (Target_hitbox t)) (-1)) as [E|NE]; [lia|].
      cbn [negb] in H.
      destruct (GameContext_update_score _ _ _) as [w1|] eqn:Eu; [|discriminate].
      unfold mbind, res_bind, mret, res_ret in H. injection H as <- _.
      eapply GameContext_update_score_step; [exact Hz | exact Eu].
  - unfold mret, res_ret in H. injection H as <- _. repeat split; auto.
Qed.

Lemma Arrows_update_step
    (group : list Arrow) (w w' : World) (group' : list Arrow) :
  Arrows_update w group = Ok (w', group') ->
  length (contexts w') = length (contexts w)
  /\ Bow_INSTANCE w' = Bow_INSTANCE w
  /\ Target_INSTANCE w' = Target_INSTANCE w
  /\ targets w' = targets w
  /\ (forall c, score_step (3 * Z.of_nat (length group))
                           (contexts w !! c) (contexts w' !! c))
  /\ (length group' <= length group)%nat
  /\ Forall (fun a => Arrow_alive a = true) group'.
Proof.
  revert w w' group'. induction group as [|a group IH]; intros w w' group' H.
  - injection H as <- <-. repeat split; auto.
    intros c. apply score_step_refl. lia.
  - pose proof (Arrows_update_targets _ _ _ _ H) as Htg.
    cbn [Arrows_update] in H.
    destruct (Arrow_update w a) as [[w1 a1]|] eqn:E1; [|discriminate].
    unfold mbind, res_bind in H.
    destruct (Arrows_update w1 group) as [[w2 rest]|] eqn:E2; [|discriminate].
    unfold mret, res_ret in H. injection H as <- <-.
    apply Arrow_update_step in E1 as (Hl1 & Hb1 & _ & Ht1 & Hs1).
    apply IH in E2 as (Hl2 & Hb2 & Ht2 & _ & Hs2 & Hlen & Hal).
    split; [congruence|]. split; [congruence|]. split; [congruence|].
    split; [exact Htg|].
    split.
    { intros c. cbn [length]. rewrite Nat2Z.inj_succ.
      replace (3 * Z.succ (Z.of_nat (length group)))
        with (3 + 3 * Z.of_nat (length group)) by lia.
      eapply score_step_trans; [apply Hs1 | apply Hs2]. }
    destruct (Arrow_alive a1) eqn:Ea; cbn [length]; split; try lia; auto.
Qed.

(** One update of the group of arrows: no context is made or lost, a game
    context gains between 0 and 3 points per arrow of the group and
    nothing else of it changes, every other context, the bow and the
    target are as before; the group only shrinks, and every arrow it
    keeps is alive. *)
Theorem arrows_add_at_most_three_each
    (group : list Arrow) (w w' : World) (group' : list Arrow) :
  Arrows_update w group = Ok (w', group') ->
  length (contexts w') = length (contexts w)
  /\ Bow_INSTANCE w' = Bow_INSTANCE w
  /\ Target_INSTANCE w' = Target_INSTANCE w
  /\ targets w' = targets w
  /\ (forall c, score_step (3 * Z.of_nat (length group))
                           (contexts w !! c) (contexts w' !! c))
  /\ (length group' <= length group)%nat
  /\ Forall (fun a => Arrow_alive a = true) group'.
Proof. apply Arrows_update_step. Qed.

Lemma arrows_add_at_most_three_each_witness :
  length (contexts (fst after_two_arrows)) = length (contexts sample_world)
  /\ Bow_INSTANCE (fst after_two_arrows) = Bow_INSTANCE sample_world
  /\ Target_INSTANCE (fst after_two_arrows) = Target_INSTANCE sample_world
  /\ targets (fst after_two_arrows) = targets sample_world
  /\ (forall c, score_step (3 * Z.of_nat (length two_arrows))
                           (contexts sample_world !! c)
                           (contexts (fst after_two_arrows) !! c))
  /\ (length (snd after_two_arrows) <= length two_arrows)%nat
  /\ Forall (fun a => Arrow_alive a = true) (snd after_two_arrows).
Proof.
  apply (arrows_add_at_most_three_each two_arrows sample_world
           (fst after_two_arrows) (snd after_two_arrows)).
  vm_compute. reflexivity.
Defined.


(* ================================================================== *)
(** ** Menus *)

Lemma is_key_DOWN_not_RETURN e : is_key e K_DOWN = true -> is_key e K_RETURN = false.
Proof. unfold is_key. destruct (key e); congruence. Qed.

Lemma is_key_UP_not_RETURN e : is_key e K_UP = true -> is_key e K_RETURN = false.
Proof. unfold is_key. destruct (key e); congruence. Qed.

Lemma CustomMenu_inputs_spec inputs : forall m,
  0 <= CustomMenu_cursor m < Z.of_nat (length (CustomMenu_options m)) ->
  exists m' option,
    CustomMenu_inputs m inputs
    = Ok (m', if existsb is_return inputs then Some (instruction option) else None)
    /\ CustomMenu_options m' = CustomMenu_options m
    /\ CustomMenu_title m' = CustomMenu_title m
    /\ CustomMenu_cursor m'
       = (CustomMenu_cursor m + menu_shift inputs) mod Z.of_nat (length (CustomMenu_options m))
    /\ CustomMenu_options m !! Z.to_nat (CustomMenu_cursor m') = Some option
    /\ CustomMenu_drawn m' = (if existsb is_return inputs then false else CustomMenu_drawn m).
Proof.
  induction inputs as [|e inputs IH]; intros m Hc.
  - assert (exists option, CustomMenu_options m !! Z.to_nat (CustomMenu_cursor m) = Some option)
      as [option Ho].
    { apply lookup_lt_is_Some_2. lia. }
    exists m, option. cbn [CustomMenu_inputs existsb menu_shift].
    rewrite Z.add_0_r, Z.mod_small by lia. repeat split; auto.
  - cbn [CustomMenu_inputs existsb menu_shift].
    change (is_return e) with (is_type e KEYDOWN && is_key e K_RETURN).
    set (n := Z.of_nat (length (CustomMenu_options m))) in *.
    assert (forall v, 0 <= CustomMenu_cursor (set_CustomMenu_cursor (v mod n) m)
                      < Z.of_nat (length (CustomMenu_options
                                            (set_CustomMenu_cursor (v mod n) m)))) as Hrange.
    { intros v. cbn [CustomMenu_cursor CustomMenu_options set_CustomMenu_cursor].
      apply Z.mod_pos_bound. lia. }
    destruct (is_type e KEYDOWN); cbn [andb orb]; [|exact (IH m Hc)].
    destruct (is_key e K_DOWN) eqn:Ed.
    { rewrite (is_key_DOWN_not_RETURN _ Ed). cbn [orb].
      unfold CustomMenu_set_cursor. fold n.
      destruct (Z.eqb_spec n 0) as [?|_]; [lia|].
      unfold mbind, res_bind, mret, res_ret.
      destruct (IH _ (Hrange (CustomMenu_cursor m + 1))) as (m' & option & Hr & Ho & Ht & Hcu & Hl & Hd).
      exists m', option. rewrite Hr.
      cbn [CustomMenu_cursor CustomMenu_options CustomMenu_title CustomMenu_drawn
           set_CustomMenu_cursor] in *. fold n in Hcu.
      repeat split; auto.
      rewrite Hcu, Z.add_mod_idemp_l by lia. f_equal. lia. }
    destruct (is_key e K_UP) eqn:Eu.
    { rewrite (is_key_UP_not_RETURN _ Eu). cbn [orb].
      unfold CustomMenu_set_cursor. fold n.
      destruct (Z.eqb_spec n 0) as [?|_]; [lia|].
      unfold mbind, res_bind, mret, res_ret.
      destruct (IH _ (Hrange (CustomMenu_cursor m - 1))) as (m' & option & Hr & Ho & Ht & Hcu & Hl & Hd).
      exists m', option. rewrite Hr.
      cbn [CustomMenu_cursor CustomMenu_options CustomMenu_title CustomMenu_drawn
           set_CustomMenu_cursor] in *. fold n in Hcu.
      repeat split; auto.
      rewrite Hcu, Z.add_mod_idemp_l by lia. f_equal. lia. }
    destruct (is_key e K_RETURN) eqn:Er; cbn [orb]; [|exact (IH m Hc)].
    cbn [CustomMenu_options CustomMenu_cursor set_CustomMenu_drawn].
    assert (exists option, CustomMenu_options m !! Z.to_nat (CustomMenu_cursor m) = Some option)
      as [option Ho].
    { apply lookup_lt_is_Some_2. lia. }
    rewrite Ho. exists (set_CustomMenu_drawn false m), option.
    cbn [CustomMenu_cursor CustomMenu_options CustomMenu_title CustomMenu_drawn
         set_CustomMenu_drawn].
    rewrite Z.add_0_r, Z.mod_small by lia. repeat split; auto.
Qed.

(** A menu with its cursor on one of its options: an update moves the
    cursor by the DOWN keys less the UP keys of the batch up to its first
    RETURN key, wrapping around the number of options; with a RETURN key
    it returns the instruction of the option under the cursor and asks
    for a full redraw next time, without one it returns nothing; the
    options and the title are never changed. *)
Theorem menu_cursor_wraps_and_selects (m : CustomMenu) (inputs : list Event) :
  0 <= CustomMenu_cursor m < Z.of_nat (length (CustomMenu_options m)) ->
  exists m' option,
    CustomMenu_update m inputs
    = Ok (m', if existsb is_return inputs then Some (instruction option) else None)
    /\ CustomMenu_options m' = CustomMenu_options m
    /\ CustomMenu_title m' = CustomMenu_title m
    /\ CustomMenu_cursor m'
       = (CustomMenu_cursor m + menu_shift inputs) mod Z.of_nat (length (CustomMenu_options m))
    /\ 0 <= CustomMenu_cursor m' < Z.of_nat (length (CustomMenu_options m'))
    /\ CustomMenu_options m !! Z.to_nat (CustomMenu_cursor m') = Some option
    /\ CustomMenu_drawn m' = negb (existsb is_return inputs).
Proof.
  intros Hc. unfold CustomMenu_update.
  destruct (CustomMenu_inputs_spec inputs (set_CustomMenu_drawn true m) Hc)
    as (m' & option & Hr & Ho & Ht & Hcu & Hl & Hd).
  exists m', option.
  cbn [CustomMenu_cursor CustomMenu_options CustomMenu_title CustomMenu_drawn
       set_CustomMenu_drawn] in *.
  split; [exact Hr|]. split; [exact Ho|]. split; [exact Ht|]. split; [exact Hcu|].
  split; [rewrite Hcu, Ho; apply Z.mod_pos_bound; lia|].
  split; [exact Hl|].
  rewrite Hd. destruct (existsb is_return inputs); reflexivity.
Qed.

Lemma menu_cursor_wraps_and_selects_witness :
  exists m' option,
    CustomMenu_update CustomMenu_Pause [down K_UP; down K_UP; down K_DOWN; down K_RETURN; down K_DOWN]
    = Ok (m', if existsb is_return
                   [down K_UP; down K_UP; down K_DOWN; down K_RETURN; down K_DOWN]
              then Some (instruction option) else None)
    /\ CustomMenu_options m' = CustomMenu_options CustomMenu_Pause
    /\ CustomMenu_title m' = CustomMenu_title CustomMenu_Pause
    /\ CustomMenu_cursor m'
       = (CustomMenu_cursor CustomMenu_Pause
          + menu_shift [down K_UP; down K_UP; down K_DOWN; down K_RETURN; down K_DOWN])
         mod Z.of_nat (length (CustomMenu_options CustomMenu_Pause))
    /\ 0 <= CustomMenu_cursor m' < Z.of_nat (length (CustomMenu_options m'))
    /\ CustomMenu_options CustomMenu_Pause !! Z.to_nat (CustomMenu_cursor m') = Some option
    /\ CustomMenu_drawn m'
       = negb (existsb is_return
                 [down K_UP; down K_UP; down K_DOWN; down K_RETURN; down K_DOWN]).
Proof.
  apply (menu_cursor_wraps_and_selects CustomMenu_Pause
           [down K_UP; down K_UP; down K_DOWN; down K_RETURN; down K_DOWN]).
  vm_compute. split; [discriminate | reflexivity].
Defined.

(** A menu without options: the first key of the batch that the menu
    acts on decides.  DOWN or UP computes the cursor modulo the number
    of options, zero, and raises ZeroDivisionError; RETURN reads the
    option under the cursor and raises IndexError; a batch without such
    a key only draws the menu. *)
Theorem empty_menu_fails_on_first_key (m : CustomMenu) (inputs : list Event) :
  CustomMenu_options m = [] ->
  CustomMenu_update m inputs
  = match List.find is_menu_key inputs with
    | None => Ok (set_CustomMenu_drawn true m, None)
    | Some e => if is_key e K_RETURN then Raise IndexError else Raise ZeroDivisionError
    end.
Proof.
  intros Ho. unfold CustomMenu_update.
  assert (CustomMenu_options (set_CustomMenu_drawn true m) = []) as Ho' by exact Ho.
  generalize dependent (set_CustomMenu_drawn true m). clear Ho m.
  intros m Ho. induction inputs as [|e inputs IH]; [reflexivity|].
  cbn [CustomMenu_inputs List.find]. unfold is_menu_key at 1.
  destruct (is_type e KEYDOWN); cbn [andb]; [|exact IH].
  destruct (is_key e K_DOWN) eqn:Ed.
  { cbn [orb]. rewrite (is_key_DOWN_not_RETURN _ Ed).
    unfold CustomMenu_set_cursor. rewrite Ho. reflexivity. }
  destruct (is_key e K_UP) eqn:Eu.
  { cbn [orb]. rewrite (is_key_UP_not_RETURN _ Eu).
    unfold CustomMenu_set_cursor. rewrite Ho. reflexivity. }
  destruct (is_key e K_RETURN) eqn:Er; cbn [orb]; [|exact IH].
  rewrite Er. cbn [CustomMenu_options set_CustomMenu_drawn]. rewrite Ho. reflexivity.
Qed.

Lemma empty_menu_fails_on_first_key_witness :
  CustomMenu_update empty_menu [up K_RETURN; down K_SPACE; down K_RETURN; down K_DOWN]
  = match List.find is_menu_key [up K_RETURN; down K_SPACE; down K_RETURN; down K_DOWN] with
    | None => Ok (set_CustomMenu_drawn true empty_menu, None)
    | Some e => if is_key e K_RETURN then Raise IndexError else Raise ZeroDivisionError
    end.
Proof.
  apply (empty_menu_fails_on_first_key empty_menu
           [up K_RETURN; down K_SPACE; down K_RETURN; down K_DOWN]).
  reflexivity.
Defined.

(* ================================================================== *)
(** ** Instructions and the registry *)

Lemma split_space_length s : length (split_space s) = S (count_spaces s).
Proof.
  induction s as [|c s IH]; [reflexivity|].
  cbn [split_space count_spaces]. destruct (Ascii.eqb c " "%char).
  - cbn [length]. rewrite IH. reflexivity.
  - destruct (split_space s) as [|h t]; [discriminate|]. exact IH.
Qed.

Lemma split_space_word s : count_spaces s = 0%nat -> split_space s = [s].
Proof.
  induction s as [|c s IH]; [reflexivity|].
  cbn [split_space count_spaces]. destruct (Ascii.eqb c " "%char); [discriminate|].
  intros H. rewrite IH by exact H. reflexivity.
Qed.

Lemma split_space_two_words change option :
  count_spaces change = 0%nat -> count_spaces option = 0%nat ->
  split_space (two_words change option) = [change; option].
Proof.
  intros Hc Ho. unfold two_words.
  induction change as [|c s IH].
  - change (split_space (String " "%char option) = [EmptyString; option]).
    cbn [split_space]. rewrite Ascii.eqb_refl, split_space_word by exact Ho. reflexivity.
  - change (split_space (String c (String.append s (String " "%char option)))
            = [String c s; option]).
    cbn [split_space count_spaces] in *.
    destruct (Ascii.eqb c " "%char); [discriminate|].
    rewrite IH by exact Hc. reflexivity.
Qed.

(** The exceptions of [context_change].  An instruction that has not
    exactly one space cannot be unpacked into two words: ValueError, and
    only then.  For an instruction of two words: a second word other
    than Switch and New leaves [new_context] unbound, UnboundLocalError,
    whatever the first word is; with Switch or New, a first word that is
    no key of the registry raises KeyError; and in every other case a
    context is returned. *)
Theorem context_change_exceptions
    (assets : Assets) (w : World) (dict : gmap string ContextEntry) :
  (forall instr,
      context_change assets w dict instr = Raise ValueError
      <-> count_spaces instr <> 1%nat)
  /\ (forall change option,
         count_spaces change = 0%nat -> count_spaces option = 0%nat ->
         (context_change assets w dict (two_words change option) = Raise UnboundLocalError
          <-> option <> "Switch"%string /\ option <> "New"%string)
         /\ (context_change assets w dict (two_words change option) = Raise KeyError
             <-> (option = "Switch"%string \/ option = "New"%string)
                 /\ dict !! change = None)
         /\ ((exists r, context_change assets w dict (two_words change option) = Ok r)
             <-> (option = "Switch"%string \/ option = "New"%string)
                 /\ dict !! change <> None)).
Proof.
  split.
  - intros instr. unfold context_change.
    pose proof (split_space_length instr) as Hl.
    destruct (split_space instr) as [|change [|option [|x l]]]; cbn [length] in Hl.
    + discriminate.
    + split; [intros _; lia | reflexivity].
    + split; [|intros H; lia]. intros H. exfalso.
      destruct (String.eqb option "Switch").
      { destruct (dict !! change); discriminate. }
      destruct (String.eqb option "New"); [|discriminate].
      destruct (dict !! change); [|discriminate].
      destruct (construct _ _ _). discriminate.
    + split; [intros _; lia | reflexivity].
  - intros change option Hc Ho. unfold context_change.
    rewrite (split_space_two_words _ _ Hc Ho).
    destruct (String.eqb_spec option "Switch") as [->|Hns].
    { destruct (dict !! change) as [e|].
      - split; [split; [discriminate | intros [? _]; congruence]|].
        split; [split; [discriminate | intros [_ ?]; congruence]|].
        split; [intros _; split; [left; reflexivity | discriminate] | intros _; eexists; reflexivity].
      - split; [split; [discriminate | intros [? _]; congruence]|].
        split; [split; [intros _; split; [left|]; reflexivity | reflexivity]|].
        split; [intros [r ?]; discriminate | intros [_ ?]; congruence]. }
    destruct (String.eqb_spec option "New") as [->|Hnn].
    { destruct (dict !! change) as [e|].
      - destruct (construct assets (cont_class e) w) as [w' i].
        split; [split; [discriminate | intros [_ ?]; congruence]|].
        split; [split; [discriminate | intros [_ ?]; congruence]|].
        split; [intros _; split; [right; reflexivity | discriminate] | intros _; eexists; reflexivity].
      - split; [split; [discriminate | intros [_ ?]; congruence]|].
        split; [split; [intros _; split; [right|]; reflexivity | reflexivity]|].
        split; [intros [r ?]; discriminate | intros [_ ?]; congruence]. }
    split; [split; [intros _; split; assumption | reflexivity]|].
    split; [split; [discriminate | intros [[?|?] _]; congruence]|].
    split; [intros [r ?]; discriminate | intros [[?|?] _]; congruence].
Qed.

(** What a context change keeps: the registry has the same keys after it
    and every entry keeps its class; only the entry of the first word can
    change, and only with New, which gives it a context at a fresh
    address; the contexts that exist stay as they are, at most one is
    added; and the context returned is the one that the registry then
    holds for the first word. *)
Theorem context_change_keeps_registry
    (assets : Assets) (w w' : World) (dict dict' : gmap string ContextEntry)
    (c : option nat) (change option : string) :
  count_spaces change = 0%nat -> count_spaces option = 0%nat ->
  context_change assets w dict (two_words change option) = Ok (w', dict', c) ->
  (forall k, is_Some (dict' !! k) <-> is_Some (dict !! k))
  /\ (forall k e e', dict !! k = Some e -> dict' !! k = Some e' ->
                     cont_class e' = cont_class e
                     /\ (k <> change -> e' = e)
                     /\ (option = "Switch"%string -> e' = e))
  /\ (exists e', dict' !! change = Some e' /\ instance e' = c)
  /\ (option = "New"%string -> c = Some (length (contexts w)))
  /\ (exists new, contexts w' = contexts w ++ new /\ (length new <= 1)%nat)
  /\ (option = "Switch"%string -> w' = w /\ dict' = dict).
Proof.
  intros Hc Ho H. unfold context_change in H.
  rewrite (split_space_two_words _ _ Hc Ho) in H.
  destruct (String.eqb_spec option "Switch") as [->|Hns].
  { destruct (dict !! change) as [e|] eqn:E; [|discriminate].
    unfold mret, res_ret in H. injection H as <- <- <-.
    split; [intros k; reflexivity|].
    split; [intros k e0 e' H0 H1; rewrite H0 in H1; injection H1 as <-; auto|].
    split; [exists e; auto|].
    split; [discriminate|].
    split; [exists []; rewrite app_nil_r; split; [reflexivity | cbn; lia]|].
    auto. }
  destruct (String.eqb_spec option "New") as [->|Hnn]; [|discriminate].
  destruct (dict !! change) as [e|] eqn:E; [|discriminate].
  assert (exists new, construct assets (cont_class e) w
                      = (fst (construct assets (cont_class e) w), length (contexts w))
                      /\ contexts (fst (construct assets (cont_class e) w))
                         = contexts w ++ [new]) as (new & Hcon & Hctx).
  { unfold construct, alloc_Context, GameContext_new.
    destruct (cont_class e); eexists; split; reflexivity. }
  rewrite Hcon in H. unfold mret, res_ret in H. injection H as <- <- <-.
  split.
  { intros k. destruct (decide (k = change)) as [->|Hne].
    - rewrite lookup_insert_eq, E. split; intros _; eexists; reflexivity.
    - rewrite lookup_insert_ne by congruence. reflexivity. }
  split.
  { intros k e0 e' H0 H1. destruct (decide (k = change)) as [->|Hne].
    - rewrite lookup_insert_eq in H1. injection H1 as <-.
      rewrite E in H0. injection H0 as <-.
      split; [reflexivity|]. split; [congruence | discriminate].
    - rewrite lookup_insert_ne in H1 by congruence. rewrite H0 in H1. injection H1 as <-.
      split; [reflexivity|]. split; [reflexivity | discriminate]. }
  split; [eexists; rewrite lookup_insert_eq; split; reflexivity|].
  split; [reflexivity|].
  split; [exists [new]; split; [exact Hctx | cbn; lia]|].
  discriminate.
Qed.

Lemma context_change_keeps_registry_witness :
  (forall k, is_Some (context_dict first_game !! k)
             <-> is_Some (context_dict (main_init sample_assets) !! k))
  /\ (forall k e e', context_dict (main_init sample_assets) !! k = Some e ->
                     context_dict first_game !! k = Some e' ->
                     cont_class e' = cont_class e
                     /\ (k <> "Game"%string -> e' = e)
                     /\ ("New"%string = "Switch"%string -> e' = e))
  /\ (exists e', context_dict first_game !! "Game"%string = Some e'
                 /\ instance e' = Some 3%nat)
  /\ ("New"%string = "New"%string
      -> Some 3%nat = Some (length (contexts (world (main_init sample_assets)))))
  /\ (exists new, contexts (fst (GameContext_new sample_assets
                                   (world (main_init sample_assets))))
                  = contexts (world (main_init sample_assets)) ++ new
                  /\ (length new <= 1)%nat)
  /\ ("New"%string = "Switch"%string
      -> fst (GameContext_new sample_assets (world (main_init sample_assets)))
         = world (main_init sample_assets)
         /\ context_dict first_game = context_dict (main_init sample_assets)).
Proof.
  apply (context_change_keeps_registry sample_assets (world (main_init sample_assets))
           (fst (GameContext_new sample_assets (world (main_init sample_assets))))
           (context_dict (main_init sample_assets)) (context_dict first_game)
           (Some 3%nat) "Game" "New").
  - reflexivity.
  - reflexivity.
  - vm_compute. reflexivity.
Defined.

(* ================================================================== *)
(** ** The event loop of a frame *)

Lemma app_eta (app : App) :
  {| world := world app; context_dict := context_dict app;
     active_context := active_context app |} = app.
Proof. destruct app; reflexivity. Qed.

Lemma is_type_QUIT_not_key e : is_type e QUIT = true -> is_key_event e = false.
Proof. unfold is_key_event, is_type. destruct (type e); cbn; congruence. Qed.

Lemma collect_events_spec (assets : Assets) (entry : ContextEntry) events :
  forall app inputs,
    context_dict app !! "Quit"%string = Some entry ->
    collect_events assets app events inputs
    = Ok (if existsb is_QUIT events then set_active_context (instance entry) app else app,
          inputs ++ List.filter is_key_event events).
Proof.
  induction events as [|e events IH]; intros app inputs Hq.
  - cbn. rewrite app_nil_r. reflexivity.
  - cbn [collect_events existsb List.filter]. unfold is_QUIT at 1.
    destruct (is_type e QUIT) eqn:Eq.
    + rewrite (is_type_QUIT_not_key _ Eq).
      unfold context_change. cbn [split_space Ascii.eqb Bool.eqb]. cbn.
      rewrite Hq. unfold mbind, res_bind, mret, res_ret.
      rewrite IH by exact Hq. cbn [orb].
      destruct (existsb is_QUIT events); reflexivity.
    + cbn [orb]. fold (is_key_event e). destruct (is_key_event e).
      * rewrite IH by exact Hq. rewrite <- app_assoc. reflexivity.
      * apply IH. exact Hq.
Qed.

(** The event loop of a frame, with Quit in the registry: the inputs
    handed to the update are exactly the KEYDOWN and KEYUP events of the
    frame, in their order; the other events are dropped; a QUIT event
    anywhere in the frame makes the instance that the registry holds for
    Quit the active context and changes nothing else. *)
Theorem event_loop_keeps_the_key_events
    (assets : Assets) (app : App) (events : list Event) (entry : ContextEntry) :
  context_dict app !! "Quit"%string = Some entry ->
  exists app',
    collect_events assets app events [] = Ok (app', List.filter is_key_event events)
    /\ world app' = world app
    /\ context_dict app' = context_dict app
    /\ active_context app'
       = (if existsb is_QUIT events then instance entry else active_context app).
Proof.
  intros Hq. rewrite (collect_events_spec assets entry) by exact Hq.
  eexists. split; [reflexivity|].
  destruct (existsb is_QUIT events); repeat split.
Qed.

Lemma event_loop_keeps_the_key_events_witness :
  exists app',
    collect_events sample_assets (main_init sample_assets)
      [down K_SPACE; {| type := OTHER_EVENT; key := K_OTHER 0 |}; quit_event; up K_SPACE] []
    = Ok (app', List.filter is_key_event
                  [down K_SPACE; {| type := OTHER_EVENT; key := K_OTHER 0 |};
                   quit_event; up K_SPACE])
    /\ world app' = world (main_init sample_assets)
    /\ context_dict app' = context_dict (main_init sample_assets)
    /\ active_context app'
       = (if existsb is_QUIT
               [down K_SPACE; {| type := OTHER_EVENT; key := K_OTHER 0 |};
                quit_event; up K_SPACE]
          then instance {| cont_class := QuitContext_class; instance := Some 2%nat |}
          else active_context (main_init sample_assets)).
Proof.
  apply (event_loop_keeps_the_key_events sample_assets (main_init sample_assets)
           [down K_SPACE; {| type := OTHER_EVENT; key := K_OTHER 0 |}; quit_event; up K_SPACE]
           {| cont_class := QuitContext_class; instance := Some 2%nat |}).
  vm_compute. reflexivity.
Defined.

(** A QUIT event ends the program: when the registry holds the dummy
    context for Quit, a frame with a QUIT event among its events raises
    SystemExit, whichever context was active and whatever the other
    events are; nothing is updated in that frame. *)
Theorem QUIT_event_exits
    (cls : BowClass) (assets : Assets) (app : App) (events : list Event)
    (entry : ContextEntry) (q : nat) :
  context_dict app !! "Quit"%string = Some entry ->
  instance entry = Some q ->
  contexts (world app) !! q = Some Dummy ->
  existsb is_QUIT events = true ->
  main_frame cls assets app events = Raise SystemExit.
Proof.
  intros Hq Hi Hd Hex. unfold main_frame.
  rewrite (collect_events_spec assets entry) by exact Hq. rewrite Hex.
  unfold mbind, res_bind. cbn [active_context world set_active_context].
  rewrite Hi. unfold Context_update. rewrite Hd. reflexivity.
Qed.

Lemma QUIT_event_exits_witness :
  main_frame cls30 sample_assets first_game [down K_SPACE; quit_event] = Raise SystemExit.
Proof.
  apply (QUIT_event_exits cls30 sample_assets first_game [down K_SPACE; quit_event]
           {| cont_class := QuitContext_class; instance := Some 2%nat |} 2%nat).
  - vm_compute. reflexivity.
  - reflexivity.
  - vm_compute. reflexivity.
  - reflexivity.
Defined.

Lemma collect_events_no_QUIT (assets : Assets) (app : App) events : forall inputs,
  existsb is_QUIT events = false ->
  collect_events assets app events inputs
  = Ok (app, inputs ++ List.filter is_key_event events).
Proof.
  induction events as [|e events IH]; intros inputs Hnq.
  - cbn. rewrite app_nil_r. reflexivity.
  - cbn [existsb] in Hnq. apply orb_false_iff in Hnq as [He Hnq].
    unfold is_QUIT in He. cbn [collect_events List.filter]. rewrite He.
    fold (is_key_event e). destruct (is_key_event e).
    + rewrite IH by exact Hnq. rewrite <- app_assoc. reflexivity.
    + apply IH. exact Hnq.
Qed.

Lemma CustomMenu_inputs_options inputs : forall m m' r,
  CustomMenu_inputs m inputs = Ok (m', r) ->
  CustomMenu_options m' = CustomMenu_options m.
Proof.
  induction inputs as [|e inputs IH]; intros m m' r H.
  - injection H as <- _. reflexivity.
  - cbn [CustomMenu_inputs] in H.
    destruct (is_type e KEYDOWN); [|eapply IH; exact H].
    destruct (is_key e K_DOWN).
    { unfold CustomMenu_set_cursor in H. destruct (_ =? 0); [discriminate|].
      unfold mbind, res_bind, mret, res_ret in H. apply IH in H. exact H. }
    destruct (is_key e K_UP).
    { unfold CustomMenu_set_cursor in H. destruct (_ =? 0); [discriminate|].
      unfold mbind, res_bind, mret, res_ret in H. apply IH in H. exact H. }
    destruct (is_key e K_RETURN); [|eapply IH; exact H].
    destruct (_ !! _); [|discriminate].
    unfold mret, res_ret in H. injection H as <- _. reflexivity.
Qed.

Lemma context_change_world assets w dict instr w' dict' c :
  context_change assets w dict instr = Ok (w', dict', c) ->
  Arrow_INSTANCES w' = Arrow_INSTANCES w
  /\ (exists new, contexts w' = contexts w ++ new)
  /\ (Bow_INSTANCE w' = Bow_INSTANCE w
      \/ length (contexts w') = S (length (contexts w))).
Proof.
  unfold context_change. intros H.
  destruct (split_space instr) as [|change [|option [|? ?]]]; try discriminate.
  destruct (String.eqb option "Switch").
  - destruct (dict !! change); [|discriminate].
    injection H as <- _ _. split; [reflexivity|].
    split; [exists []; rewrite app_nil_r; reflexivity | left; reflexivity].
  - destruct (String.eqb option "New"); [|discriminate].
    destruct (dict !! change) as [entry|]; [|discriminate].
    destruct (cont_class entry); cbn in H; injection H as <- _ _; cbn;
      (split; [reflexivity|]); (split; [eexists; reflexivity|]);
      right; rewrite length_app; cbn; lia.
Qed.

(** While a menu is the active context the game stands still: a frame
    without QUIT event that goes through moves no arrow, and leaves every
    context other than the menu as it is, also when the menu starts a new
    game; the bow is as before unless a new game context was made. *)
Theorem menu_frame_moves_nothing
    (cls : BowClass) (assets : Assets) (app app' : App) (events : list Event)
    (addr : nat) (m : CustomMenu) :
  active_context app = Some addr ->
  contexts (world app) !! addr = Some (Menu m) ->
  existsb is_QUIT events = false ->
  main_frame cls assets app events = Ok app' ->
  Arrow_INSTANCES (world app') = Arrow_INSTANCES (world app)
  /\ (forall c x, c <> addr -> contexts (world app) !! c = Some x ->
                  contexts (world app') !! c = Some x)
  /\ (exists m', contexts (world app') !! addr = Some (Menu m')
                 /\ CustomMenu_options m' = CustomMenu_options m)
  /\ (Bow_INSTANCE (world app') = Bow_INSTANCE (world app)
      \/ length (contexts (world app')) = S (length (contexts (world app)))).
Proof.
  intros Ha Hm Hnq H. unfold main_frame in H.
  rewrite (collect_events_no_QUIT assets app events [] Hnq) in H.
  unfold mbind at 1, res_bind in H. cbn beta iota in H.
  rewrite Ha in H. unfold Context_update in H. rewrite Hm in H.
  destruct (CustomMenu_update m _) as [[m' instr]|] eqn:Eu; [|discriminate].
  apply CustomMenu_inputs_options in Eu. cbn in Eu.
  unfold mbind, res_bind, mret, res_ret in H.
  pose proof (lookup_lt_Some _ _ _ Hm) as Hlt.
  set (w1 := set_contexts (<[addr := Menu m']> (contexts (world app))) (world app)) in *.
  assert (Arrow_INSTANCES w1 = Arrow_INSTANCES (world app)
          /\ (forall c x, c <> addr -> contexts (world app) !! c = Some x ->
                          contexts w1 !! c = Some x)
          /\ contexts w1 !! addr = Some (Menu m')
          /\ Bow_INSTANCE w1 = Bow_INSTANCE (world app)
          /\ length (contexts w1) = length (contexts (world app)))
    as (Har & Hoth & Hme & Hbow & Hlen).
  { subst w1. cbn [contexts set_contexts Arrow_INSTANCES Bow_INSTANCE].
    split; [reflexivity|]. split.
    - intros c x Hne Hx. rewrite list_lookup_insert_ne by congruence. exact Hx.
    - split; [apply list_lookup_insert_eq; exact Hlt|].
      split; [reflexivity | apply length_insert]. }
  assert (forall app0, app0 = {| world := w1; context_dict := context_dict app;
                                 active_context := Some addr |} ->
            Arrow_INSTANCES (world app0) = Arrow_INSTANCES (world app)
            /\ (forall c x, c <> addr -> contexts (world app) !! c = Some x ->
                            contexts (world app0) !! c = Some x)
            /\ (exists m', contexts (world app0) !! addr = Some (Menu m')
                           /\ CustomMenu_options m' = CustomMenu_options m)
            /\ (Bow_INSTANCE (world app0) = Bow_INSTANCE (world app)
                \/ length (contexts (world app0)) = S (length (contexts (world app)))))
    as Hsame.
  { intros app0 ->. cbn [world]. split; [exact Har|]. split; [exact Hoth|].
    split; [exists m'; split; [exact Hme | exact Eu] | left; exact Hbow]. }
  destruct instr as [instr|]; [|injection H as <-; apply Hsame; reflexivity].
  destruct (String.eqb instr EmptyString); [injection H as <-; apply Hsame; reflexivity|].
  destruct (context_change assets w1 (context_dict app) instr) as [[[w2 dict] c]|] eqn:Ec;
    [|discriminate].
  injection H as <-. cbn [world].
  apply context_change_world in Ec as (Har2 & [new Hnew] & Hbow2).
  split; [congruence|].
  split.
  { intros c0 x Hne Hx. rewrite Hnew. apply lookup_app_l_Some. apply Hoth; assumption. }
  split.
  { exists m'. split; [|exact Eu]. rewrite Hnew. apply lookup_app_l_Some. exact Hme. }
  destruct Hbow2 as [Hb|Hl]; [left; congruence | right; congruence].
Qed.

Lemma menu_frame_moves_nothing_witness :
  Arrow_INSTANCES (world after_Play) = Arrow_INSTANCES (world (main_init sample_assets))
  /\ (forall c x, c <> 0%nat -> contexts (world (main_init sample_assets)) !! c = Some x ->
                  contexts (world after_Play) !! c = Some x)
  /\ (exists m', contexts (world after_Play) !! 0%nat = Some (Menu m')
                 /\ CustomMenu_options m' = CustomMenu_options CustomMenu_MainMenu)
  /\ (Bow_INSTANCE (world after_Play) = Bow_INSTANCE (world (main_init sample_assets))
      \/ length (contexts (world after_Play))
         = S (length (contexts (world (main_init sample_assets))))).
Proof.
  apply (menu_frame_moves_nothing cls30 sample_assets (main_init sample_assets) after_Play
           [down K_RETURN] 0%nat CustomMenu_MainMenu).
  - reflexivity.
  - reflexivity.
  - reflexivity.
  - vm_compute. reflexivity.
Defined.


(* ================================================================== *)
(** ** The whole program *)

Lemma game_step_refl x : game_step x x.
Proof. destruct x as [[g|m|]|]; cbn; try reflexivity. exists g. split; [reflexivity|lia]. Qed.

Lemma game_step_trans x y z : game_step x y -> game_step y z -> game_step x z.
Proof.
  unfold game_step. destruct x as [[g|m|]|]; try (intros -> ->; reflexivity).
  intros (g1 & -> & H1) (g2 & -> & H2). exists g2. split; [reflexivity|lia].
Qed.

Lemma score_step_game_step b x y : score_step b x y -> game_step x y.
Proof.
  unfold score_step, game_step. destruct x as [[g|m|]|]; auto.
  intros (g' & -> & _ & H). exists g'. split; [reflexivity|lia].
Qed.

Lemma game_step_grows x y : game_step x y -> ctx_grows x y.
Proof.
  unfold game_step, ctx_grows. destruct x as [[g|m|]|]; auto.
  intros ->. exists m. auto.
Qed.

Lemma ctx_grows_refl x : ctx_grows x x.
Proof. apply game_step_grows, game_step_refl. Qed.

Lemma ctx_grows_trans x y z : ctx_grows x y -> ctx_grows y z -> ctx_grows x z.
Proof.
  unfold ctx_grows. destruct x as [[g|m|]|]; auto.
  - intros (g1 & -> & H1) (g2 & -> & H2). exists g2. split; [reflexivity|lia].
  - intros (m1 & -> & H1) (m2 & -> & H2). exists m2. split; congruence.
  - intros -> ->. reflexivity.
Qed.

Lemma set_Game_drawn_step self d w :
  length (contexts (set_Game_drawn self d w)) = length (contexts w)
  /\ targets (set_Game_drawn self d w) = targets w
  /\ Bow_INSTANCE (set_Game_drawn self d w) = Bow_INSTANCE w
  /\ Arrow_INSTANCES (set_Game_drawn self d w) = Arrow_INSTANCES w
  /\ Target_INSTANCE (set_Game_drawn self d w) = Target_INSTANCE w
  /\ forall c, game_step (contexts w !! c) (contexts (set_Game_drawn self d w) !! c).
Proof.
  unfold set_Game_drawn.
  destruct (contexts w !! self) as [[g|m|]|] eqn:E;
    try (repeat split; auto; intros c; apply game_step_refl).
  cbn [contexts set_contexts targets Bow_INSTANCE Arrow_INSTANCES Target_INSTANCE].
  split; [apply length_insert|]. repeat (split; [reflexivity|]).
  intros c. destruct (decide (c = self)) as [->|Hne].
  - rewrite E, list_lookup_insert_eq by (apply lookup_lt_Some in E; exact E).
    cbn. eexists. split; [reflexivity|]. cbn. lia.
  - rewrite list_lookup_insert_ne by congruence. apply game_step_refl.
Qed.

Lemma arrow_ok_step w w' a :
  arrow_ok w a ->
  (forall ti t, targets w !! ti = Some t -> exists t', targets w' !! ti = Some t') ->
  (forall c g, contexts w !! c = Some (Game g) ->
               exists g', contexts w' !! c = Some (Game g')) ->
  arrow_ok w' a.
Proof.
  intros [(ti & t & Ha & Ht) (g & Hg)] Htg Hc. split.
  - destruct (Htg _ _ Ht) as [t' Ht']. exists ti, t'. auto.
  - apply (Hc _ _ Hg).
Qed.

Lemma game_step_Game w w' :
  (forall c, game_step (contexts w !! c) (contexts w' !! c)) ->
  forall c g, contexts w !! c = Some (Game g) ->
              exists g', contexts w' !! c = Some (Game g').
Proof.
  intros H c g Hg. specialize (H c). rewrite Hg in H. cbn in H.
  destruct H as (g' & -> & _). exists g'. reflexivity.
Qed.

Lemma world_inv_step w w' :
  world_inv w ->
  (forall c, game_step (contexts w !! c) (contexts w' !! c)) ->
  length (contexts w') = length (contexts w) ->
  targets w' = targets w ->
  Target_INSTANCE w' = Target_INSTANCE w ->
  (forall b, Bow_INSTANCE w = Some b ->
             exists b', Bow_INSTANCE w' = Some b' /\ Bow_context b' = Bow_context b) ->
  Forall (arrow_ok w) (Arrow_INSTANCES w') ->
  world_inv w'.
Proof.
  intros (H0 & H1 & H2 & H3 & H4 & H5) Hs Hl Ht Hti Hb Ha.
  pose proof (game_step_Game _ _ Hs) as HG.
  assert (forall c x, (forall g, x <> Game g) -> contexts w !! c = Some x ->
                      contexts w' !! c = Some x) as Hsame.
  { intros c x Hx E. specialize (Hs c). rewrite E in Hs.
    destruct x as [g|m|]; [destruct (Hx g); reflexivity | exact Hs | exact Hs]. }
  split; [|split; [|split; [|split; [|split]]]].
  - destruct H0 as (m & E & Ho & Hc). exists m. split; [|auto].
    apply Hsame; [discriminate | exact E].
  - destruct H1 as (m & E & Ho & Hc). exists m. split; [|auto].
    apply Hsame; [discriminate | exact E].
  - apply Hsame; [discriminate | exact H2].
  - intros c x Hc E. pose proof (Hs c) as Hsc. rewrite E in Hsc.
    destruct (contexts w !! c) as [[g|m|]|] eqn:Ec.
    + destruct Hsc as (g' & Hg' & _). injection Hg' as ->. eexists; reflexivity.
    + apply (H3 c (Menu m) Hc) in Ec. destruct Ec as [g Hg]. discriminate.
    + apply (H3 c Dummy Hc) in Ec. destruct Ec as [g Hg]. discriminate.
    + discriminate.
  - eapply Forall_impl; [exact Ha|]. intros a Hok.
    apply (arrow_ok_step w w' a Hok); [|exact HG].
    intros ti t E. rewrite Ht. eauto.
  - rewrite Hl. intros Hlen. destruct (H5 Hlen) as (b & ti & t & Eb & [g Eg] & Eti & Et).
    destruct (Hb _ Eb) as (b' & Eb' & Ec).
    exists b', ti, t. split; [exact Eb'|]. split.
    + rewrite Ec. apply (HG _ _ Eg).
    + rewrite Hti, Ht. auto.
Qed.

Section MainLoop.

Variable cls : BowClass.
Variable assets : Assets.

Lemma BentBowState_inputs_context TI inputs : forall b l b' l',
  BentBowState_inputs cls assets TI (b, l) inputs = Ok (b', l') ->
  Bow_context b' = Bow_context b.
Proof.
  induction inputs as [|e inputs IH]; intros b l b' l' H.
  - injection H as <- _. reflexivity.
  - cbn [BentBowState_inputs] in H. unfold BentBowState_input in H.
    destruct (is_space_up e).
    + unfold Bow_shoot, Bow_force in H.
      destruct (int_truediv _ _) as [q|]; [|discriminate].
      unfold mbind, res_bind, mret, res_ret in H. cbn [Bow_ammo set_Bow_ammo] in H.
      destruct (_ =? 0); apply IH in H; exact H.
    + unfold mbind, res_bind, mret, res_ret in H. eapply IH; exact H.
Qed.

Lemma BentBowState_charge_fields b b1 :
  BentBowState_charge cls b = Ok b1 ->
  Bow_context b1 = Bow_context b /\ Bow_rect b1 = Bow_rect b.
Proof.
  unfold BentBowState_charge. intros E.
  destruct (_ <? _).
  - destruct (int_floordiv _ _) as [u|]; [|discriminate].
    unfold mbind, res_bind in E.
    destruct (int_truediv _ _) as [s|]; [|discriminate].
    destruct (float_is_integer s); unfold mret, res_ret in E;
      injection E as <-; split; reflexivity.
  - injection E as <-. split; reflexivity.
Qed.

(** what a frame of the bow makes: the bow stays with its context, and
    every arrow added is made for this context and the current target *)
Lemma Bow_update_new TI b l inputs b' l' :
  Bow_update cls assets TI (b, l) inputs = Ok (b', l') ->
  Bow_context b' = Bow_context b
  /\ forall P : Arrow -> Prop,
       (forall pos f, P (Arrow_new assets TI (Bow_context b) pos f)) ->
       Forall P l -> Forall P l'.
Proof.
  destruct (Bow_move_fields b) as (_ & _ & _ & _ & Hc & _).
  unfold Bow_update. cbn [fst snd]. intros H.
  destruct (Bow_state (Bow_move b)).
  - unfold mret, res_ret in H. injection H as <- <-.
    rewrite NormalBowState_update_spec. split; [|auto].
    destruct (existsb is_space_down inputs); exact Hc.
  - unfold BentBowState_update in H. cbn [fst snd] in H.
    destruct (BentBowState_charge cls (Bow_move b)) as [b1|] eqn:E; [|discriminate].
    unfold mbind, res_bind in H.
    apply BentBowState_charge_fields in E as [Hc1 _].
    split.
    + apply BentBowState_inputs_context in H. congruence.
    + intros P HP Hl.
      eapply (BentBowState_inputs_arrows cls assets TI P); [|exact Hl|exact H].
      intros f. rewrite Hc1, Hc. apply HP.
  - unfold mret, res_ret in H. injection H as <- <-. split; [|auto].
    unfold ReloadBowState_update. destruct (_ =? 0); exact Hc.
  - unfold mret, res_ret in H. injection H as <- <-. split; [exact Hc|auto].
Qed.

Lemma Arrow_update_ok w a :
  arrow_ok w a ->
  exists w' a',
    Arrow_update w a = Ok (w', a')
    /\ Arrow_target a' = Arrow_target a /\ Arrow_context a' = Arrow_context a.
Proof.
  intros [(ti & t & Ha & Ht) (g & Hg)]. unfold Arrow_update.
  destruct (negb (speed_is_zero (Arrow_speed a)));
    [|eexists _, _; split; [reflexivity|auto]].
  rewrite Ha. cbn [mbind option_bind]. rewrite Ht.
  match goal with
  | |- context [collidelist ?h (Target_hitbox t)] =>
      destruct (collidelist_Target_hitbox_range h t) as [Hz|Hz];
      [rewrite Hz | destruct (Z.eqb_spec (collidelist h (Target_hitbox t)) (-1)) as [E|NE];
                    [lia|]]
  end.
  - cbn [Z.eqb negb]. eexists _, _. split; [reflexivity|auto].
  - cbn [negb]. unfold GameContext_update_score. rewrite Hg.
    match goal with
    | |- context [SCORE_TABLE !! ?n] =>
        assert (exists p, SCORE_TABLE !! n = Some p) as [p ->]
          by (apply lookup_lt_is_Some_2; unfold SCORE_TABLE; cbn [length]; lia)
    end.
    res_simpl. eexists _, _. split; [reflexivity|auto].
Qed.

Lemma Arrows_update_ok (P : Arrow -> Prop) group :
  (forall a a', Arrow_target a' = Arrow_target a ->
                Arrow_context a' = Arrow_context a -> P a -> P a') ->
  forall w, Forall (arrow_ok w) group -> Forall P group ->
  exists w' group', Arrows_update w group = Ok (w', group') /\ Forall P group'.
Proof.
  intros HP. induction group as [|a group IH]; intros w Hok Hall.
  - exists w, []. split; [reflexivity | constructor].
  - apply Forall_cons in Hok as [Hoa Hok]. apply Forall_cons in Hall as [Hpa Hall].
    destruct (Arrow_update_ok w a Hoa) as (w1 & a1 & E1 & Ht1 & Hc1).
    cbn [Arrows_update]. rewrite E1. res_simpl.
    pose proof (Arrow_update_targets _ _ _ _ E1) as Htg.
    apply Arrow_update_step in E1 as (_ & _ & _ & _ & Hs1).
    destruct (IH w1) as (w2 & rest & E2 & Hrest).
    { eapply Forall_impl; [exact Hok|]. intros x Hx.
      apply (arrow_ok_step w w1 x Hx).
      - intros ti t E. rewrite Htg. eauto.
      - apply game_step_Game. intros c. eapply score_step_game_step, Hs1. }
    { exact Hall. }
    rewrite E2. res_simpl. eexists _, _. split; [reflexivity|].
    destruct (Arrow_alive a1); [constructor|]; auto.
    apply (HP a a1 Ht1 Hc1 Hpa).
Qed.

Lemma GameContext_update_step self w inputs w' r :
  GameContext_update cls assets self w inputs = Ok (w', r) ->
  length (contexts w') = length (contexts w)
  /\ targets w' = targets w
  /\ Target_INSTANCE w' = Target_INSTANCE w
  /\ (forall c, game_step (contexts w !! c) (contexts w' !! c))
  /\ (forall b, Bow_INSTANCE w = Some b ->
                exists b', Bow_INSTANCE w' = Some b' /\ Bow_context b' = Bow_context b)
  /\ (r = None \/ r = Some "Pause Switch"%string).
Proof.
  unfold GameContext_update. intros H.
  destruct (set_Game_drawn_step self true w) as (Hl0 & Ht0 & Hb0 & Ha0 & Hti0 & Hs0).
  set (w0 := set_Game_drawn self true w) in *.
  destruct (Bow_INSTANCE w0) as [b|] eqn:Eb; [|discriminate].
  destruct (Bow_update _ _ _ _ _) as [[b' l']|] eqn:Eu; [|discriminate].
  apply Bow_update_new in Eu as [Hc _].
  unfold mbind at 1, res_bind at 1 in H. cbn beta iota in H.
  cbn [Arrow_INSTANCES set_Arrow_INSTANCES] in H.
  destruct (Arrows_update _ _) as [[w2 l2]|] eqn:Ea; [|discriminate].
  apply Arrows_update_step in Ea as (Hl2 & Hb2 & Hti2 & Ht2 & Hs2 & _).
  cbn [contexts set_Arrow_INSTANCES set_Bow_INSTANCE Bow_INSTANCE Target_INSTANCE targets]
    in Hl2, Hb2, Hti2, Ht2, Hs2.
  unfold mbind, res_bind, mret, res_ret in H.
  assert (forall c, game_step (contexts w !! c) (contexts w2 !! c)) as Hs.
  { intros c. eapply game_step_trans; [apply Hs0|].
    eapply score_step_game_step, Hs2. }
  destruct (existsb _ inputs); injection H as <- <-.
  - destruct (set_Game_drawn_step self false (set_Arrow_INSTANCES l2 w2))
      as (Hl3 & Ht3 & Hb3 & Ha3 & Hti3 & Hs3).
    cbn [contexts set_Arrow_INSTANCES Bow_INSTANCE Target_INSTANCE targets]
      in Hl3, Ht3, Hb3, Hti3, Hs3.
    split; [congruence|]. split; [congruence|]. split; [congruence|].
    split; [intros c; eapply game_step_trans; [apply Hs | apply Hs3]|].
    split; [|right; reflexivity].
    intros b0 E0. exists b'. rewrite Hb3, Hb2. split; [reflexivity|]. congruence.
  - cbn [contexts set_Arrow_INSTANCES Bow_INSTANCE Target_INSTANCE targets].
    split; [congruence|]. split; [congruence|]. split; [congruence|].
    split; [exact Hs|]. split; [|left; reflexivity].
    intros b0 E0. exists b'. rewrite Hb2. split; [reflexivity|]. congruence.
Qed.

Lemma GameContext_update_ok self w inputs :
  Bow_ROPE_STATES <= TIME_FORCE_FPS cls ->
  Forall (arrow_ok w) (Arrow_INSTANCES w) ->
  game_ready w ->
  exists w' r,
    GameContext_update cls assets self w inputs = Ok (w', r)
    /\ Forall (arrow_ok w) (Arrow_INSTANCES w').
Proof.
  intros HT Hok (b & ti & t & Eb & [g Eg] & Eti & Et).
  unfold GameContext_update.
  destruct (set_Game_drawn_step self true w) as (Hl0 & Ht0 & Hb0 & Ha0 & Hti0 & Hs0).
  set (w0 := set_Game_drawn self true w) in *.
  rewrite Hb0, Eb, Ha0, Hti0.
  destruct (Bow_update_ammo cls assets (Target_INSTANCE w) b (Arrow_INSTANCES w) inputs HT)
    as (b' & shots & Hup & _).
  rewrite Hup. res_simpl. cbn [Arrow_INSTANCES set_Arrow_INSTANCES].
  apply Bow_update_new in Hup as [_ Hnew].
  assert (Forall (arrow_ok w) (Arrow_INSTANCES w ++ shots)) as Hall.
  { apply Hnew; [|exact Hok]. intros pos f. split.
    - exists ti, t. split; [exact Eti | exact Et].
    - exists g. exact Eg. }
  destruct (Arrows_update_ok (arrow_ok w) (Arrow_INSTANCES w ++ shots))
    with (w := set_Arrow_INSTANCES (Arrow_INSTANCES w ++ shots)
                 (set_Bow_INSTANCE (Some b') w0))
    as (w2 & l2 & E2 & Hl2).
  { intros a a' Ht' Hc' [(ti' & t' & Ha & Htt) (g' & Hg')]. split.
    - exists ti', t'. split; [congruence | exact Htt].
    - exists g'. congruence. }
  { eapply Forall_impl; [exact Hall|]. intros x Hx.
    apply (arrow_ok_step w _ x Hx).
    - intros ti' t' E. cbn [targets set_Arrow_INSTANCES set_Bow_INSTANCE].
      rewrite Ht0. eauto.
    - cbn [contexts set_Arrow_INSTANCES set_Bow_INSTANCE]. apply game_step_Game, Hs0. }
  { exact Hall. }
  rewrite E2. res_simpl.
  destruct (existsb _ inputs); eexists _, _; (split; [reflexivity|]).
  - destruct (set_Game_drawn_step self false (set_Arrow_INSTANCES l2 w2))
      as (_ & _ & _ & -> & _). exact Hl2.
  - exact Hl2.
Qed.

Lemma GameContext_update_inv self w inputs :
  Bow_ROPE_STATES <= TIME_FORCE_FPS cls ->
  world_inv w -> (3 < length (contexts w))%nat ->
  exists w' r,
    GameContext_update cls assets self w inputs = Ok (w', r)
    /\ world_inv w'
    /\ length (contexts w') = length (contexts w)
    /\ (r = None \/ r = Some "Pause Switch"%string).
Proof.
  intros HT Hw Hlen.
  pose proof Hw as (_ & _ & _ & _ & Hok & Hr).
  destruct (GameContext_update_ok self w inputs HT Hok (Hr Hlen)) as (w' & r & E & Ha).
  exists w', r. split; [exact E|].
  apply GameContext_update_step in E as (Hl & Ht & Hti & Hs & Hb & Hrr).
  split; [|auto].
  apply (world_inv_step w w'); auto.
Qed.

End MainLoop.

Section Registry.

Variable cls : BowClass.
Variable assets : Assets.

Lemma world_inv_menu w addr m m' :
  world_inv w -> (addr = 0 \/ addr = 1)%nat ->
  contexts w !! addr = Some (Menu m) ->
  CustomMenu_options m' = CustomMenu_options m ->
  0 <= CustomMenu_cursor m' < Z.of_nat (length (CustomMenu_options m)) ->
  world_inv (set_contexts (<[addr := Menu m']> (contexts w)) w).
Proof.
  intros (H0 & H1 & H2 & H3 & H4 & H5) Haddr E Ho Hc.
  pose proof (lookup_lt_Some _ _ _ E) as Hlt.
  assert (forall c x, c <> addr -> contexts w !! c = Some x ->
                      <[addr := Menu m']> (contexts w) !! c = Some x) as Hne.
  { intros c x Hc' Ex. rewrite list_lookup_insert_ne by congruence. exact Ex. }
  assert (forall c g, contexts w !! c = Some (Game g) ->
                      exists g', <[addr := Menu m']> (contexts w) !! c = Some (Game g'))
    as HG.
  { intros c g Eg. exists g. apply Hne; [|exact Eg]. intros ->. congruence. }
  assert (forall a menu, menu_at w a menu ->
            menu_at (set_contexts (<[addr := Menu m']> (contexts w)) w) a menu) as HM.
  { intros a menu (m0 & E0 & Ho0 & Hc0). unfold menu_at. cbn [contexts set_contexts].
    destruct (decide (a = addr)) as [->|Hna].
    - exists m'. rewrite list_lookup_insert_eq by exact Hlt.
      assert (m0 = m) as -> by congruence.
      split; [reflexivity|]. split; [congruence|]. rewrite <- Ho0. exact Hc.
    - exists m0. split; [apply Hne; auto|auto]. }
  unfold world_inv, game_ready.
  cbn [contexts set_contexts Arrow_INSTANCES Bow_INSTANCE Target_INSTANCE targets].
  rewrite length_insert.
  split; [apply HM, H0|]. split; [apply HM, H1|].
  split; [apply Hne; [lia | exact H2]|].
  split.
  { intros c x Hc3 Ex. rewrite list_lookup_insert_ne in Ex by lia. eapply H3; eauto. }
  split.
  { eapply Forall_impl; [exact H4|]. intros a Hok.
    apply (arrow_ok_step w _ a Hok); [eauto | exact HG]. }
  intros Hlen. destruct (H5 Hlen) as (b & ti & t & Eb & [g Eg] & Eti & Et).
  exists b, ti, t. split; [exact Eb|]. split; [apply (HG _ _ Eg) | auto].
Qed.

Lemma world_inv_new w :
  world_inv w ->
  world_inv (fst (GameContext_new assets w))
  /\ length (contexts (fst (GameContext_new assets w))) = S (length (contexts w))
  /\ snd (GameContext_new assets w) = length (contexts w)
  /\ (3 <= length (contexts w))%nat.
Proof.
  intros (H0 & H1 & H2 & H3 & H4 & H5).
  pose proof (lookup_lt_Some _ _ _ H2) as Hlt.
  unfold GameContext_new. cbn [fst snd].
  assert (forall c x, contexts w !! c = Some x ->
            (contexts w ++ [Game {| GameContext_score := 0; GameContext_drawn := false |}])
              !! c = Some x) as Hold.
  { intros c x E. apply lookup_app_l_Some. exact E. }
  split; [|split; [|split; [reflexivity | lia]]].
  2: { cbn [contexts alloc_Target set_Bow_INSTANCE set_contexts].
       rewrite length_app. cbn [length]. lia. }
  unfold world_inv, menu_at, game_ready.
  cbn [contexts alloc_Target set_Bow_INSTANCE set_contexts Arrow_INSTANCES Bow_INSTANCE
       Target_INSTANCE targets].
  split.
  { destruct H0 as (m & E & Ho & Hc). exists m. split; [apply Hold, E | auto]. }
  split.
  { destruct H1 as (m & E & Ho & Hc). exists m. split; [apply Hold, E | auto]. }
  split; [apply Hold, H2|].
  split.
  { intros c x Hc Ex. apply lookup_app_Some in Ex as [Ex|[_ Ex]].
    - eapply H3; eauto.
    - destruct (c - length (contexts w))%nat; [|discriminate].
      injection Ex as <-. eexists; reflexivity. }
  split.
  { eapply Forall_impl; [exact H4|]. intros a [(ti & t & Ea & Et) (g & Eg)]. split.
    - exists ti, t. split; [exact Ea|]. apply lookup_app_l_Some. exact Et.
    - exists g. apply Hold, Eg. }
  intros _. eexists _, _, _. split; [reflexivity|]. split.
  - eexists.
    change (Bow_context (Bow_new assets (length (contexts w)))) with (length (contexts w)).
    rewrite lookup_app_r by lia. rewrite Nat.sub_diag. reflexivity.
  - split; [reflexivity|]. rewrite lookup_app_r by lia. rewrite Nat.sub_diag. reflexivity.
Qed.

Lemma context_change_Switch w dict change entry :
  count_spaces change = 0%nat -> dict !! change = Some entry ->
  context_change assets w dict (two_words change "Switch") = Ok (w, dict, instance entry).
Proof.
  intros Hc He. unfold context_change.
  rewrite split_space_two_words by (exact Hc || reflexivity).
  rewrite String.eqb_refl, He. reflexivity.
Qed.

Lemma context_change_New w dict change entry :
  count_spaces change = 0%nat -> dict !! change = Some entry ->
  context_change assets w dict (two_words change "New")
  = Ok (fst (construct assets (cont_class entry) w),
        <[change := {| cont_class := cont_class entry;
                       instance := Some (snd (construct assets (cont_class entry) w)) |}]>
          dict,
        Some (snd (construct assets (cont_class entry) w))).
Proof.
  intros Hc He. unfold context_change.
  rewrite split_space_two_words by (exact Hc || reflexivity).
  change (String.eqb "New" "Switch") with false. cbn beta iota.
  rewrite String.eqb_refl, He.
  destruct (construct assets (cont_class entry) w). reflexivity.
Qed.

(** a frame of a menu *)
Lemma menu_frame_result w addr menu inputs :
  world_inv w -> (addr = 0 \/ addr = 1)%nat -> menu_at w addr menu ->
  exists w1 r,
    Context_update cls assets (Some addr) w inputs = Ok (w1, r)
    /\ world_inv w1
    /\ length (contexts w1) = length (contexts w)
    /\ (r = None
        \/ exists o, o ∈ CustomMenu_options menu /\ r = Some (instruction o)).
Proof.
  intros Hw Haddr (m & E & Ho & Hc).
  unfold Context_update. rewrite E. unfold CustomMenu_update.
  destruct (CustomMenu_inputs_spec inputs (set_CustomMenu_drawn true m))
    as (m' & o & Hrun & Ho' & _ & Hcur & Hlook & _).
  { cbn [CustomMenu_cursor CustomMenu_options set_CustomMenu_drawn]. rewrite Ho. exact Hc. }
  cbn [CustomMenu_cursor CustomMenu_options set_CustomMenu_drawn] in Ho', Hcur, Hlook.
  rewrite Hrun. res_simpl. eexists _, _. split; [reflexivity|].
  split.
  { apply (world_inv_menu w addr m m' Hw Haddr E Ho'). rewrite Hcur.
    apply Z.mod_pos_bound. rewrite Ho. lia. }
  split; [cbn [contexts set_contexts]; apply length_insert|].
  destruct (existsb is_return inputs); [right | left; reflexivity].
  exists o. split; [|reflexivity]. rewrite <- Ho. eapply list_elem_of_lookup_2, Hlook.
Qed.

Lemma app_inv_set app w1 c :
  app_inv app -> world_inv w1 ->
  length (contexts w1) = length (contexts (world app)) ->
  (c = Some 0%nat \/ c = Some 2%nat
   \/ exists g, context_dict app !! "Game"%string
                = Some {| cont_class := GameContext_class; instance := Some g |}
                /\ (c = Some 1%nat \/ c = Some g)) ->
  app_inv {| world := w1; context_dict := context_dict app; active_context := c |}.
Proof.
  intros (Hw & Hm & Hp & Hq & gi & Hg & Hgi & Hact) Hw1 Hl Hc.
  unfold app_inv. cbn [world context_dict active_context].
  split; [exact Hw1|]. split; [exact Hm|]. split; [exact Hp|]. split; [exact Hq|].
  exists gi. split; [exact Hg|]. rewrite Hl. split; [exact Hgi|].
  destruct Hc as [Hc|[Hc|(g & Eg & Hc)]]; auto.
  right; right. exists g. split; [congruence | exact Hc].
Qed.

Lemma app_inv_New app w1 :
  app_inv app -> world_inv w1 ->
  length (contexts w1) = length (contexts (world app)) ->
  exists app',
    context_change assets w1 (context_dict app) "Game New" = Ok app'
    /\ app_inv {| world := fst (fst app'); context_dict := snd (fst app');
                  active_context := snd app' |}.
Proof.
  intros (Hw & Hm & Hp & Hq & gi & Hg & Hgi & Hact) Hw1 Hl.
  change "Game New"%string with (two_words "Game" "New").
  rewrite (context_change_New w1 _ "Game" _ eq_refl Hg). eexists. split; [reflexivity|].
  cbn [fst snd cont_class construct].
  destruct (world_inv_new w1 Hw1) as (Hw2 & Hl2 & Hs2 & Hlen).
  unfold app_inv. cbn [world context_dict active_context].
  split; [exact Hw2|].
  split; [rewrite lookup_insert_ne by discriminate; exact Hm|].
  split; [rewrite lookup_insert_ne by discriminate; exact Hp|].
  split; [rewrite lookup_insert_ne by discriminate; exact Hq|].
  eexists. split; [rewrite lookup_insert_eq; reflexivity|].
  rewrite Hl2, Hs2. split.
  - intros g Eg. injection Eg as <-. lia.
  - right; right. eexists. split; [reflexivity|]. right. reflexivity.
Qed.

End Registry.

Section Safety.

Variable cls : BowClass.
Variable assets : Assets.
Hypothesis HT : Bow_ROPE_STATES <= TIME_FORCE_FPS cls.

Lemma main_init_inv : app_inv (main_init assets).
Proof.
  unfold app_inv, main_init. cbn.
  split.
  - unfold world_inv, menu_at, game_ready. cbn.
    split; [eexists; split; [reflexivity|]; split;
            [reflexivity | vm_compute; split; [discriminate | reflexivity]]|].
    split; [eexists; split; [reflexivity|]; split;
            [reflexivity | vm_compute; split; [discriminate | reflexivity]]|].
    split; [reflexivity|].
    split; [intros [|[|[|c]]] x Hc Ex; try lia; discriminate|].
    split; [constructor | lia].
  - split; [reflexivity|]. split; [reflexivity|]. split; [reflexivity|].
    eexists. split; [reflexivity|]. split; [discriminate|]. left. reflexivity.
Qed.

Lemma main_frame_inv app events :
  app_inv app ->
  main_frame cls assets app events = Raise SystemExit
  \/ exists app', main_frame cls assets app events = Ok app' /\ app_inv app'.
Proof.
  intros Hinv. pose proof Hinv as (Hw & Hm & Hp & Hq & gi & Hg & Hgi & Hact).
  pose proof Hw as (H0 & H1 & H2 & H3 & H4 & H5).
  unfold main_frame. rewrite (collect_events_spec assets _ events app [] Hq). res_simpl.
  cbn [instance]. destruct (existsb is_QUIT events).
  { left. cbn [set_active_context active_context world]. unfold Context_update.
    rewrite H2. reflexivity. }
  set (inputs := [] ++ List.filter is_key_event events). clearbody inputs.
  assert (forall w1 change entry,
            world_inv w1 -> length (contexts w1) = length (contexts (world app)) ->
            count_spaces change = 0%nat ->
            context_dict app !! change = Some entry ->
            (instance entry = Some 0%nat \/ instance entry = Some 2%nat
             \/ exists g, gi = Some g
                          /\ (instance entry = Some 1%nat \/ instance entry = Some g)) ->
            exists r, context_change assets w1 (context_dict app) (two_words change "Switch")
                      = Ok r
                      /\ app_inv {| world := fst (fst r); context_dict := snd (fst r);
                                    active_context := snd r |}) as HSwitch.
  { intros w1 change entry Hw1 Hl1 Hc He Hi.
    rewrite (context_change_Switch assets w1 _ change entry Hc He).
    eexists. split; [reflexivity|]. cbn [fst snd].
    apply app_inv_set; auto.
    destruct Hi as [Hi|[Hi|(g & Eg & Hi)]]; auto.
    right; right. exists g. split; [rewrite Hg, Eg; reflexivity | exact Hi]. }
  destruct Hact as [Ha|[Ha|(g & Egi & [Ha|Ha])]]; rewrite Ha.
  - (* the main menu *)
    destruct (menu_frame_result cls assets (world app) 0 CustomMenu_MainMenu inputs Hw
                ltac:(left; reflexivity) H0) as (w1 & r & E & Hw1 & Hl1 & Hr).
    rewrite E. res_simpl. right.
    destruct Hr as [->|(o & Ho & ->)].
    { eexists. split; [reflexivity|]. apply app_inv_set; auto. }
    cbn [CustomMenu_options CustomMenu_MainMenu] in Ho.
    apply elem_of_cons in Ho as [->|Ho]; [|apply elem_of_cons in Ho as [->|Ho];
                                           [|apply elem_of_nil in Ho; destruct Ho]];
      cbn [instruction String.eqb Ascii.eqb Bool.eqb andb].
    + destruct (app_inv_New assets app w1 Hinv Hw1 Hl1) as ([[w2 d2] c2] & E2 & Hi2).
      rewrite E2. res_simpl. eexists. split; [reflexivity | exact Hi2].
    + destruct (HSwitch w1 "Quit"%string _ Hw1 Hl1 eq_refl Hq
                  ltac:(right; left; reflexivity)) as ([[w2 d2] c2] & E2 & Hi2).
      change (two_words "Quit" "Switch") with "Quit Switch"%string in E2.
      rewrite E2. res_simpl. eexists. split; [reflexivity | exact Hi2].
  - (* the quit context *)
    left. unfold Context_update. rewrite H2. reflexivity.
  - (* the pause menu *)
    destruct (menu_frame_result cls assets (world app) 1 CustomMenu_Pause inputs Hw
                ltac:(right; reflexivity) H1) as (w1 & r & E & Hw1 & Hl1 & Hr).
    rewrite E. res_simpl. right.
    destruct Hr as [->|(o & Ho & ->)].
    { eexists. split; [reflexivity|]. apply app_inv_set; auto.
      right; right. exists g. split; [rewrite Hg, Egi; reflexivity | left; reflexivity]. }
    cbn [CustomMenu_options CustomMenu_Pause] in Ho.
    apply elem_of_cons in Ho as [->|Ho];
      [|apply elem_of_cons in Ho as [->|Ho];
        [|apply elem_of_cons in Ho as [->|Ho]; [|apply elem_of_nil in Ho; destruct Ho]]];
      cbn [instruction String.eqb Ascii.eqb Bool.eqb andb].
    + destruct (HSwitch w1 "Game"%string _ Hw1 Hl1 eq_refl Hg
                  ltac:(right; right; exists g; split; [exact Egi | right; exact Egi]))
        as ([[w2 d2] c2] & E2 & Hi2).
      change (two_words "Game" "Switch") with "Game Switch"%string in E2.
      rewrite E2. res_simpl. eexists. split; [reflexivity | exact Hi2].
    + destruct (HSwitch w1 "Menu"%string _ Hw1 Hl1 eq_refl Hm
                  ltac:(left; reflexivity)) as ([[w2 d2] c2] & E2 & Hi2).
      change (two_words "Menu" "Switch") with "Menu Switch"%string in E2.
      rewrite E2. res_simpl. eexists. split; [reflexivity | exact Hi2].
    + destruct (HSwitch w1 "Quit"%string _ Hw1 Hl1 eq_refl Hq
                  ltac:(right; left; reflexivity)) as ([[w2 d2] c2] & E2 & Hi2).
      change (two_words "Quit" "Switch") with "Quit Switch"%string in E2.
      rewrite E2. res_simpl. eexists. split; [reflexivity | exact Hi2].
  - (* the game *)
    destruct (Hgi g Egi) as [Hg3 Hglt].
    destruct (lookup_lt_is_Some_2 _ _ Hglt) as [x Ex].
    destruct (H3 g x Hg3 Ex) as [gc ->].
    unfold Context_update. rewrite Ex.
    destruct (GameContext_update_inv cls assets g (world app) inputs HT Hw ltac:(lia))
      as (w1 & r & E & Hw1 & Hl1 & Hr).
    rewrite E. res_simpl. right.
    destruct Hr as [->| ->].
    { eexists. split; [reflexivity|]. apply app_inv_set; auto.
      right; right. exists g. split; [rewrite Hg, Egi; reflexivity | right; reflexivity]. }
    cbn [String.eqb Ascii.eqb Bool.eqb andb].
    destruct (HSwitch w1 "Pause"%string _ Hw1 Hl1 eq_refl Hp
                ltac:(right; right; exists g; split; [exact Egi | left; reflexivity]))
      as ([[w2 d2] c2] & E2 & Hi2).
    change (two_words "Pause" "Switch") with "Pause Switch"%string in E2.
    rewrite E2. res_simpl. eexists. split; [reflexivity | exact Hi2].
Qed.

Lemma main_loop_inv frames : forall app,
  app_inv app ->
  main_loop cls assets app frames = Raise SystemExit
  \/ exists app', main_loop cls assets app frames = Ok app' /\ app_inv app'.
Proof.
  induction frames as [|events frames IH]; intros app Hinv.
  - right. exists app. split; [reflexivity | exact Hinv].
  - cbn [main_loop].
    destruct (main_frame_inv app events Hinv) as [E|(app1 & E & Hinv1)]; rewrite E.
    + left. reflexivity.
    + res_simpl. apply IH, Hinv1.
Qed.

End Safety.

Section Growth.

Variable cls : BowClass.
Variable assets : Assets.

Lemma Context_update_grows self w inputs w' r :
  Context_update cls assets self w inputs = Ok (w', r) ->
  forall c, ctx_grows (contexts w !! c) (contexts w' !! c).
Proof.
  unfold Context_update. intros H.
  destruct self as [addr|]; [|discriminate].
  destruct (contexts w !! addr) as [[g|m|]|] eqn:E; try discriminate.
  - apply GameContext_update_step in H as (_ & _ & _ & Hs & _).
    intros c. apply game_step_grows, Hs.
  - unfold CustomMenu_update in H.
    destruct (CustomMenu_inputs _ _) as [[m' instr]|] eqn:Em; [|discriminate].
    unfold mbind, res_bind, mret, res_ret in H. injection H as <- _.
    apply CustomMenu_inputs_options in Em.
    cbn [CustomMenu_options set_CustomMenu_drawn] in Em.
    intros c. cbn [contexts set_contexts]. destruct (decide (c = addr)) as [->|Hne].
    + rewrite E, list_lookup_insert_eq by (eapply lookup_lt_Some; exact E).
      cbn. exists m'. split; [reflexivity | exact Em].
    + rewrite list_lookup_insert_ne by congruence. apply ctx_grows_refl.
Qed.

Lemma context_change_grows w dict instr w' dict' c0 :
  context_change assets w dict instr = Ok (w', dict', c0) ->
  forall c, ctx_grows (contexts w !! c) (contexts w' !! c).
Proof.
  intros H. apply context_change_world in H as (_ & [new Hn] & _).
  intros c. rewrite Hn. destruct (contexts w !! c) as [x|] eqn:E; [|exact I].
  rewrite (lookup_app_l_Some _ _ _ _ E). apply ctx_grows_refl.
Qed.

Lemma collect_events_world events : forall app inputs app' inputs',
  collect_events assets app events inputs = Ok (app', inputs') ->
  world app' = world app.
Proof.
  induction events as [|e events IH]; intros app inputs app' inputs' H.
  - injection H as <- _. reflexivity.
  - cbn [collect_events] in H. destruct (is_type e QUIT).
    + destruct (context_change _ _ _ _) as [[[w d] c]|] eqn:E; [|discriminate].
      unfold mbind, res_bind in H. apply IH in H. cbn [world] in H. rewrite H.
      change "Quit Switch"%string with (two_words "Quit" "Switch") in E.
      destruct (context_dict app !! "Quit"%string) as [entry|] eqn:Eq.
      * rewrite (context_change_Switch assets _ _ "Quit" _ eq_refl Eq) in E.
        injection E as <- _ _. reflexivity.
      * unfold context_change in E.
        rewrite split_space_two_words in E by reflexivity.
        rewrite String.eqb_refl, Eq in E. discriminate.
    + destruct (_ || _); eapply IH; exact H.
Qed.

Lemma main_frame_grows app events app' :
  main_frame cls assets app events = Ok app' ->
  forall c, ctx_grows (contexts (world app) !! c) (contexts (world app') !! c).
Proof.
  unfold main_frame. intros H.
  destruct (collect_events _ _ _ _) as [[app1 inputs]|] eqn:Ec; [|discriminate].
  apply collect_events_world in Ec.
  unfold mbind at 1, res_bind at 1 in H. cbn beta iota in H.
  destruct (Context_update _ _ _ _ _) as [[w r]|] eqn:Eu; [|discriminate].
  pose proof (Context_update_grows _ _ _ _ _ Eu) as Hg. rewrite Ec in Hg.
  unfold mbind at 1, res_bind at 1 in H. cbn beta iota in H.
  destruct r as [instr|].
  - destruct (String.eqb instr _).
    + injection H as <-. exact Hg.
    + destruct (context_change _ _ _ _) as [[[w2 d2] c2]|] eqn:E2; [|discriminate].
      unfold mbind, res_bind, mret, res_ret in H. injection H as <-. cbn [world].
      intros c. eapply ctx_grows_trans; [apply Hg|].
      eapply context_change_grows, E2.
  - injection H as <-. exact Hg.
Qed.

Lemma main_loop_grows frames : forall app app',
  main_loop cls assets app frames = Ok app' ->
  forall c, ctx_grows (contexts (world app) !! c) (contexts (world app') !! c).
Proof.
  induction frames as [|events frames IH]; intros app app' H c.
  - injection H as <-. apply ctx_grows_refl.
  - cbn [main_loop] in H.
    destruct (main_frame cls assets app events) as [app1|] eqn:E1; [|discriminate].
    unfold mbind, res_bind in H.
    eapply ctx_grows_trans; [eapply main_frame_grows, E1 | eapply IH, H].
Qed.

End Growth.

(** The logic of the program raises nothing but SystemExit: no key or
    attribute is missing, no index is out of range, nothing divides by
    zero and no instruction fails to unpack.  With a frame rate that
    gives the bow its ten steps of bending, whatever the events of any
    number of frames are, the main loop started as the program starts it
    either has left through SystemExit or is running in a state where
    the registry names the main menu, the pause menu, the quit context
    and the last game made, the active context is one of them, the bow
    and the target exist once a game was made, and every arrow in flight
    has its target and a game to score for. *)
Theorem main_loop_raises_SystemExit_only
    (cls : BowClass) (assets : Assets) (frames : list (list Event)) :
  Bow_ROPE_STATES <= TIME_FORCE_FPS cls ->
  main_loop cls assets (main_init assets) frames = Raise SystemExit
  \/ exists app, main_loop cls assets (main_init assets) frames = Ok app /\ app_inv app.
Proof.
  intros HT. apply main_loop_inv; [exact HT | apply main_init_inv].
Qed.

Lemma main_loop_raises_SystemExit_only_witness :
  main_loop cls30 sample_assets (main_init sample_assets) first_session = Raise SystemExit
  \/ exists app, main_loop cls30 sample_assets (main_init sample_assets) first_session = Ok app
                 /\ app_inv app.
Proof.
  apply (main_loop_raises_SystemExit_only cls30 sample_assets first_session).
  exact cls30_steps.
Defined.

(** Over any frames that the main loop goes through, from any state, no
    context is lost or replaced: at every address a game context stays a
    game context and its score does not fall, a menu stays a menu with
    the same options, and the quit context stays. *)
Theorem contexts_stay_and_scores_never_fall
    (cls : BowClass) (assets : Assets) (app app' : App) (frames : list (list Event)) :
  main_loop cls assets app frames = Ok app' ->
  forall c, ctx_grows (contexts (world app) !! c) (contexts (world app') !! c).
Proof. apply main_loop_grows. Qed.

Lemma contexts_stay_and_scores_never_fall_witness :
  ctx_grows (contexts (world first_game) !! 3%nat)
            (contexts (world after_later_frames) !! 3%nat).
Proof.
  apply (contexts_stay_and_scores_never_fall cls30 sample_assets first_game
           after_later_frames later_frames).
  vm_compute. reflexivity.
Defined.

Lemma existsb_filter_key (p : Event -> bool) events :
  (forall e, p e = true -> is_key_event e = true) ->
  existsb p (List.filter is_key_event events) = existsb p events.
Proof.
  intros Hp. induction events as [|e events IH]; [reflexivity|].
  cbn [List.filter existsb]. destruct (is_key_event e) eqn:Ek.
  - cbn [existsb]. rewrite IH. reflexivity.
  - destruct (p e) eqn:Ep; [apply Hp in Ep; congruence|]. exact IH.
Qed.

Lemma is_escape_key_event e : is_escape e = true -> is_key_event e = true.
Proof.
  unfold is_escape, is_key_event. intros H. apply andb_true_iff in H as [-> _]. reflexivity.
Qed.

Section Pause.

Variable cls : BowClass.
Variable assets : Assets.
Hypothesis HT : Bow_ROPE_STATES <= TIME_FORCE_FPS cls.

Lemma GameContext_update_instr self w inputs w' r :
  GameContext_update cls assets self w inputs = Ok (w', r) ->
  r = if existsb is_escape inputs then Some "Pause Switch"%string else None.
Proof.
  unfold GameContext_update. intros H.
  destruct (Bow_INSTANCE _) as [b|]; [|discriminate].
  destruct (Bow_update _ _ _ _ _) as [[b' l']|]; [|discriminate].
  unfold mbind at 1, res_bind at 1 in H. cbn beta iota in H.
  destruct (Arrows_update _ _) as [[w2 l2]|]; [|discriminate].
  unfold mbind, res_bind, mret, res_ret in H.
  fold is_escape in H. change (fun e => is_type e KEYDOWN && is_key e K_ESCAPE)
    with is_escape in H.
  destruct (existsb is_escape inputs); injection H as _ <-; reflexivity.
Qed.

Lemma game_frame_ESC app g events :
  app_inv app -> active_context app = Some g -> (3 <= g)%nat ->
  existsb is_QUIT events = false ->
  existsb is_escape events = true ->
  exists w1,
    main_frame cls assets app events
    = Ok {| world := w1; context_dict := context_dict app; active_context := Some 1%nat |}
    /\ world_inv w1
    /\ context_dict app !! "Game"%string
       = Some {| cont_class := GameContext_class; instance := Some g |}.
Proof.
  intros Hinv Ha Hg3 Hq Hesc.
  pose proof Hinv as (Hw & Hm & Hp & _ & gi & Hg & Hgi & Hact).
  pose proof Hw as (_ & _ & _ & H3 & _).
  assert (gi = Some g) as ->.
  { destruct Hact as [E|[E|(g' & -> & [E|E])]]; rewrite Ha in E; injection E; intros; subst;
      try lia. reflexivity. }
  destruct (Hgi g eq_refl) as [_ Hglt].
  destruct (lookup_lt_is_Some_2 _ _ Hglt) as [x Ex].
  destruct (H3 g x Hg3 Ex) as [gc ->].
  unfold main_frame. rewrite (collect_events_no_QUIT assets app events [] Hq). res_simpl.
  rewrite app_nil_l. unfold Context_update. rewrite Ha, Ex.
  destruct (GameContext_update_inv cls assets g (world app)
              (List.filter is_key_event events) HT Hw ltac:(lia))
    as (w1 & r & E & Hw1 & Hl1 & _).
  rewrite E. res_simpl. apply GameContext_update_instr in E.
  rewrite (existsb_filter_key is_escape events is_escape_key_event), Hesc in E. subst r.
  cbn [String.eqb Ascii.eqb Bool.eqb andb].
  change "Pause Switch"%string with (two_words "Pause" "Switch").
  rewrite (context_change_Switch assets w1 _ "Pause" _ eq_refl Hp). res_simpl.
  exists w1. split; [reflexivity|]. split; [exact Hw1 | exact Hg].
Qed.

Lemma resume_frame w dict g m :
  contexts w !! 1%nat = Some (Menu m) ->
  CustomMenu_options m = CustomMenu_options CustomMenu_Pause ->
  CustomMenu_cursor m = 0 ->
  dict !! "Game"%string = Some {| cont_class := GameContext_class; instance := Some g |} ->
  main_frame cls assets {| world := w; context_dict := dict; active_context := Some 1%nat |}
             [down K_RETURN]
  = Ok {| world := set_contexts
                     (<[1%nat := Menu (set_CustomMenu_drawn false
                                         (set_CustomMenu_drawn true m))]> (contexts w)) w;
          context_dict := dict; active_context := Some g |}.
Proof.
  intros E Ho Hc Hg. unfold main_frame.
  rewrite collect_events_no_QUIT by reflexivity. res_simpl.
  change ([] ++ List.filter is_key_event [down K_RETURN]) with [down K_RETURN].
  cbn [active_context world context_dict]. unfold Context_update. rewrite E.
  unfold CustomMenu_update.
  change (CustomMenu_inputs (set_CustomMenu_drawn true m) [down K_RETURN])
    with (match CustomMenu_options m !! Z.to_nat (CustomMenu_cursor m) with
          | Some option => Ok (set_CustomMenu_drawn false (set_CustomMenu_drawn true m),
                               Some (instruction option))
          | None => Raise IndexError
          end).
  rewrite Hc, Ho.
  change (CustomMenu_options CustomMenu_Pause !! Z.to_nat 0)
    with (Some {| name := "Resume"; instruction := "Game Switch" |}).
  res_simpl. cbn [instruction String.eqb Ascii.eqb Bool.eqb andb].
  change "Game Switch"%string with (two_words "Game" "Switch").
  rewrite (context_change_Switch assets _ _ "Game" _ eq_refl Hg). reflexivity.
Qed.

End Pause.

(** The Escape key pauses a game and Resume takes it up again.  In any
    state that the program reaches with a game as the active context, a
    frame without QUIT event that holds a KEYDOWN of Escape goes through
    and makes the pause menu the active context, the registry being as
    before; and if the cursor of the pause menu is on its first option,
    a frame with the RETURN key then makes the very same game the active
    context again, with its context, the bow and the arrows as the
    pausing frame left them. *)
Theorem pause_then_resume
    (cls : BowClass) (assets : Assets) (frames : list (list Event)) (app : App)
    (g : nat) (events : list Event) :
  Bow_ROPE_STATES <= TIME_FORCE_FPS cls ->
  main_loop cls assets (main_init assets) frames = Ok app ->
  active_context app = Some g -> (3 <= g)%nat ->
  existsb is_QUIT events = false ->
  existsb is_escape events = true ->
  exists paused,
    main_frame cls assets app events = Ok paused
    /\ active_context paused = Some 1%nat
    /\ context_dict paused = context_dict app
    /\ menu_at (world paused) 1 CustomMenu_Pause
    /\ forall m,
         contexts (world paused) !! 1%nat = Some (Menu m) ->
         CustomMenu_cursor m = 0 ->
         exists resumed,
           main_frame cls assets paused [down K_RETURN] = Ok resumed
           /\ active_context resumed = Some g
           /\ contexts (world resumed) !! g = contexts (world paused) !! g
           /\ Bow_INSTANCE (world resumed) = Bow_INSTANCE (world paused)
           /\ Arrow_INSTANCES (world resumed) = Arrow_INSTANCES (world paused).
Proof.
  intros HT Hrun Ha Hg3 Hq Hesc.
  destruct (main_loop_inv cls assets HT frames (main_init assets) (main_init_inv assets))
    as [E|(app0 & E & Hinv)]; rewrite Hrun in E; [discriminate|].
  injection E as <-.
  destruct (game_frame_ESC cls assets HT app g events Hinv Ha Hg3 Hq Hesc)
    as (w1 & E1 & Hw1 & Hg).
  eexists. split; [exact E1|]. cbn [active_context context_dict world].
  split; [reflexivity|]. split; [reflexivity|].
  pose proof Hw1 as (_ & Hp & _). split; [exact Hp|].
  intros m Em Hc. destruct Hp as (m0 & E0 & Ho & _).
  assert (m0 = m) as -> by congruence.
  rewrite (resume_frame cls assets w1 _ g m Em Ho Hc Hg).
  eexists. split; [reflexivity|]. cbn [active_context world contexts set_contexts
                                        Bow_INSTANCE Arrow_INSTANCES].
  split; [reflexivity|]. split; [|split; reflexivity].
  apply list_lookup_insert_ne. lia.
Qed.

Lemma pause_then_resume_witness :
  exists paused,
    main_frame cls30 sample_assets first_game [down K_ESCAPE] = Ok paused
    /\ active_context paused = Some 1%nat
    /\ context_dict paused = context_dict first_game
    /\ menu_at (world paused) 1 CustomMenu_Pause
    /\ forall m,
         contexts (world paused) !! 1%nat = Some (Menu m) ->
         CustomMenu_cursor m = 0 ->
         exists resumed,
           main_frame cls30 sample_assets paused [down K_RETURN] = Ok resumed
           /\ active_context resumed = Some 3%nat
           /\ contexts (world resumed) !! 3%nat = contexts (world paused) !! 3%nat
           /\ Bow_INSTANCE (world resumed) = Bow_INSTANCE (world paused)
           /\ Arrow_INSTANCES (world resumed) = Arrow_INSTANCES (world paused).
Proof.
  apply (pause_then_resume cls30 sample_assets [[down K_RETURN]; []] first_game 3%nat
           [down K_ESCAPE]).
  - exact cls30_steps.
  - vm_compute. reflexivity.
  - vm_compute. reflexivity.
  - lia.
  - reflexivity.
  - reflexivity.
Defined.

